(** * car_wash_app: a shallow embedding of the three services

    The modules follow the repository layout:
    - [Py], [Http], [Db]: the Python built-ins, the HTTP outcomes and the
      SQL queries the services rely on;
    - [AdvisorSettings], [AdvisorSchemas], [Advisor], [AdvisorModels],
      [AdvisorCrud], [AdvisorMain]: wash_advisor_service/app;
    - [PyVal], [WeatherClient], [WeatherModels], [WeatherCrud],
      [WeatherMain]: weather_service/app;
    - [UserCrud]: user_service/app;
    - [ScoreSpec], [BestDaySpec]: the scoring rules in the words of the
      specification, to compare the code with;
    - [Examples]: sample data for one request against each service.
    The proofs come after all definitions.

    Numbers.  Python [float]s (and the [int]s mixed with them) are read as
    real numbers: [0.4] is 4/10, and [math.exp] is the real exponential
    wherever its result fits a float; above that it raises OverflowError
    ([Py.exp]).  Rounding, NaN and infinities are outside the model.
    Integers that the code keeps as [int] (humidity, day counts,
    timestamps) are [Z].

    Effects.  A function that can raise returns a [Py.result]; a CRUD
    function takes the tables and returns them.  What the code takes from
    its environment (the clock, uuid4, bcrypt, the upstream services,
    number formatting, date parsing, pydantic coercion) is a [Variable] of
    the section that needs it.  Logging is left out. *)

From Stdlib Require Import Reals Lra ZArith Lia List String Ascii Bool.
From Stdlib Require Import Sorting.Sorted Sorting.Permutation.
Import ListNotations.

(** ** Python built-ins used by the services *)

Module Py.
Local Open Scope R_scope.

Definition Rleb (a b : R) : bool := if Rle_dec a b then true else false.
Definition Rltb (a b : R) : bool := if Rlt_dec a b then true else false.
Definition Reqb (a b : R) : bool := if Req_dec_T a b then true else false.

(** [max(a, b)]: the first argument is kept unless the second is greater. *)
Definition max (a b : R) : R := if Rltb a b then b else a.
(** [min(a, b)]: the first argument is kept unless the second is smaller. *)
Definition min (a b : R) : R := if Rltb b a then b else a.

(** Truthiness of an optional number: [None] and zero are falsy. *)
Definition truthy (x : option R) : bool :=
  match x with
  | None => false
  | Some v => negb (Reqb v 0)
  end.

(** [sep.join(parts)] *)
Fixpoint join (sep : string) (parts : list string) : string :=
  match parts with
  | [] => EmptyString
  | [p] => p
  | p :: rest => (p ++ sep ++ join sep rest)%string
  end.

(** [needle in hay] on strings *)
Fixpoint contains (needle hay : string) : bool :=
String.prefix needle hay ||
match hay with
| EmptyString => false
| String _ rest => contains needle rest
end.

(** Exceptions that the modelled code can meet. *)
Inductive exc : Type :=
| ValidationError
| MultipleResultsFound
| IntegrityError
| DataError
| TypeError
| AttributeError
| IndexError
| ValueError
| KeyError
| OverflowError.

Inductive result (A : Type) : Type :=
| Return (a : A)
| Raise (e : exc).
Arguments Return {A} a.
Arguments Raise {A} e.

Definition bind {A B : Type} (m : result A) (k : A -> result B) : result B :=
  match m with
  | Return a => k a
  | Raise e => Raise e
  end.

(** [xs[:n]] for a Python list and an integer bound. *)
Definition slice_to {A : Type} (xs : list A) (n : Z) : list A :=
  if (0 <=? n)%Z then firstn (Z.to_nat n) xs
  else firstn (Z.to_nat (Z.of_nat (List.length xs) + n)) xs.

(** [math.exp(x)] raises OverflowError ("math range error") when the
    result exceeds the greatest float, that is for an argument above
    log(DBL_MAX) = 709.782712893384 (to the precision of a float); a
    result too small for a float is 0.0, no error. *)
Definition EXP_MAX : R := 709.782712893384.

Definition exp (x : R) : result R :=
  if Rltb EXP_MAX x then Raise OverflowError else Return (Rtrigo_def.exp x).
End Py.

(** The outcome of an endpoint: a 200 body or an error status. *)

Module Http.
Inductive http (A : Type) : Type :=
| OK (body : A)
| HTTPException (status_code : Z).
Arguments OK {A} body.
Arguments HTTPException {A} status_code.
End Http.

Notation "x <<- m ;; k" := (Py.bind m (fun x => k))
(at level 61, m at next level, right associativity).

(** ** The relational store as the CRUD layers query it

    A table is the list of its rows.  [ORDER BY] is modelled by a stable
    insertion sort (the order of rows with equal keys is the table's), and
    timestamps are microseconds on the naive local time line. *)

Module Db.
Section Query.
Context {A : Type}.
Variable key : A -> Z.

Fixpoint insert_asc (x : A) (sorted : list A) : list A :=
match sorted with
| [] => [x]
| y :: rest =>
    if (key y <? key x)%Z then y :: insert_asc x rest else x :: y :: rest
end.

Fixpoint insert_desc (x : A) (sorted : list A) : list A :=
match sorted with
| [] => [x]
| y :: rest =>
    if (key x <? key y)%Z then y :: insert_desc x rest else x :: y :: rest
end.

Definition order_by_asc (rows : list A) : list A := fold_right insert_asc [] rows.
Definition order_by_desc (rows : list A) : list A := fold_right insert_desc [] rows.
End Query.

(** [LIMIT n]; a negative bound is an error of the database. *)
Definition limit {A : Type} (n : Z) (rows : list A) : Py.result (list A) :=
if (n <? 0)%Z then Py.Raise Py.DataError else Py.Return (firstn (Z.to_nat n) rows).

(** [Result.scalar_one_or_none()] *)
Definition scalar_one_or_none {A : Type} (rows : list A) : Py.result (option A) :=
match rows with
| [] => Py.Return None
| [r] => Py.Return (Some r)
| _ => Py.Raise Py.MultipleResultsFound
end.

Definition microseconds_per_hour : Z := 3600000000.
Definition microseconds_per_day : Z := 24 * microseconds_per_hour.

(** [timedelta(hours=h)] *)
Definition timedelta_hours (h : Z) : Z := h * microseconds_per_hour.
(** [dt.date()], as a day number *)
Definition date_of (dt : Z) : Z := dt / microseconds_per_day.
(** A date compared with a timestamp column stands for its midnight. *)
Definition midnight (d : Z) : Z := d * microseconds_per_day.
End Db.

(** ** wash_advisor_service/app/config.py *)

Module AdvisorSettings.
Local Open Scope R_scope.
Definition MIN_PRECIPITATION_THRESHOLD : R := 0.3.
Definition IDEAL_WASH_TEMPERATURE_MIN : R := 5.
Definition IDEAL_WASH_TEMPERATURE_MAX : R := 25.
Definition WIND_SPEED_THRESHOLD : R := 30.
Definition CACHE_RECOMMENDATION_HOURS : Z := 24.
Definition MAX_FORECAST_DAYS : Z := 14.
Definition WEIGHT_PRECIPITATION : R := 0.4.
Definition WEIGHT_TEMPERATURE : R := 0.3.
Definition WEIGHT_WIND : R := 0.2.
Definition WEIGHT_HUMIDITY : R := 0.1.
End AdvisorSettings.

(** ** wash_advisor_service/app/schemas.py *)

Module AdvisorSchemas.
Local Open Scope R_scope.

(** The [factors] dictionary of a recommendation day always has these
    four keys. *)
Record Factors : Type := mkFactors {
  f_is_rain_expected : bool;
  f_is_temperature_optimal : bool;
  f_is_wind_acceptable : bool;
  f_humidity : option Z
}.

Record WashRecommendationDay : Type := mkWashRecommendationDay {
  rd_date : Z;
  rd_is_recommended : bool;
  rd_score : R;
  rd_temperature : option R;
  rd_precipitation_probability : option R;
  rd_wind_speed : option R;
  rd_reason : string;
  rd_factors : Factors
}.

(** Field validation of the pydantic model: [date] must be a date,
    [is_recommended] a bool, [score] a float with [ge=0, le=100]. *)
Definition new_WashRecommendationDay
    (date : option Z) (is_recommended : option bool) (score : option R)
    (temperature precipitation_probability wind_speed : option R)
    (reason : string) (factors : Factors)
  : Py.result WashRecommendationDay :=
  match date, is_recommended, score with
  | Some d, Some b, Some s =>
      if Py.Rleb 0 s && Py.Rleb s 100
      then Py.Return (mkWashRecommendationDay d b s temperature
                        precipitation_probability wind_speed reason factors)
      else Py.Raise Py.ValidationError
  | _, _, _ => Py.Raise Py.ValidationError
  end.

Record WashRecommendationResponse : Type := mkWashRecommendationResponse {
  resp_user_id : string;
  resp_location : string;
  resp_days_since_last_wash : option Z;
  resp_is_interval_optimal : option bool;
  resp_best_day : option WashRecommendationDay;
  resp_all_days : list WashRecommendationDay;
  resp_cached : bool
}.
End AdvisorSchemas.

(** ** wash_advisor_service/app/advisor.py *)

Module Advisor.
Import AdvisorSettings AdvisorSchemas.
Local Open Scope R_scope.

(** One element of the forecast list, as the advisor reads it with
    [dict.get]: an absent key and a null value both give [None].  Only
    [weather_description] is read with a default, so its field tells an
    absent key (outer [None]) from a null value. *)
Record WeatherDay : Type := mkWeatherDay {
  wd_date : string;
  wd_temperature_avg : option R;
  wd_temperature : option R;
  wd_precipitation_probability : option R;
  wd_precipitation_amount : option R;
  wd_wind_speed : option R;
  wd_humidity : option Z;
  wd_weather_description : option (option string)
}.

(** The user context dictionary; [None] stands for an absent or empty
    dictionary (both are falsy). *)
Record UserContextMetrics : Type := mkUserContextMetrics {
  days_since_last_wash : option Z;
  is_interval_optimal : option bool
}.

(** The dictionary returned by [analyze_weather_day]. *)
Record AnalyzedDay : Type := mkAnalyzedDay {
  ad_date : string;
  ad_temperature : option R;
  ad_precipitation_probability : option R;
  ad_precipitation_amount : option R;
  ad_wind_speed : option R;
  ad_humidity : option Z;
  ad_weather_description : option string;
  ad_is_rain_expected : bool;
  ad_is_temperature_optimal : bool;
  ad_is_wind_acceptable : bool;
  ad_score : option R;
  ad_reason : string
}.

Definition temp_score_of (temp : option R) : R :=
  match temp with
  | None => 50
  | Some t =>
      if Py.Rleb 15 t && Py.Rleb t 22 then 100
      else if (Py.Rleb 10 t && Py.Rltb t 15) || (Py.Rltb 22 t && Py.Rleb t 25) then 80
      else if (Py.Rleb 5 t && Py.Rltb t 10) || (Py.Rltb 25 t && Py.Rleb t 30) then 60
      else if Py.Rltb t 5 then Py.max 0 (60 - (5 - t) * 10)
      else Py.max 0 (60 - (t - 30) * 10)
  end.

Definition wind_score_of (wind_speed : option R) : R :=
  match wind_speed with
  | None => 100
  | Some w =>
      if Py.Rleb w 15 then 100
      else if Py.Rleb w 25 then 80
      else if Py.Rleb w 35 then 50
      else 20
  end.

Definition humidity_score_of (humidity : option Z) : R :=
  match humidity with
  | None => 80
  | Some h =>
      if ((40 <=? h) && (h <=? 60))%Z then 100
      else if (((30 <=? h) && (h <? 40)) || ((60 <? h) && (h <=? 70)))%Z then 80
      else if (((20 <=? h) && (h <? 30)) || ((70 <? h) && (h <=? 80)))%Z then 60
      else 40
  end.

(** Line 101: [math.exp] can raise, and nothing in the function catches
    it. *)
Definition precip_score_of (precip_prob : option R) : Py.result R :=
  match precip_prob with
  | None => Py.Return 100
  | Some p => e <<- Py.exp (-5 * p) ;; Py.Return (100 * e)
  end.

Definition _calculate_score
    (temp precip_prob wind_speed : option R) (humidity : option Z)
    (is_rain_expected is_temperature_optimal is_wind_acceptable : bool)
  : Py.result R :=
  precip_score <<- precip_score_of precip_prob ;;
  let temp_score := temp_score_of temp in
  let wind_score := wind_score_of wind_speed in
  let humidity_score := humidity_score_of humidity in
  let penalty := 0 in
  let penalty := if is_rain_expected then penalty + 40 else penalty in
  let penalty := if negb is_temperature_optimal then penalty + 20 else penalty in
  let penalty := if negb is_wind_acceptable then penalty + 20 else penalty in
  let total_score :=
    (precip_score * WEIGHT_PRECIPITATION +
     temp_score * WEIGHT_TEMPERATURE +
     wind_score * WEIGHT_WIND +
     humidity_score * WEIGHT_HUMIDITY) - penalty in
  let final_score := Py.max 0 (Py.min 100 total_score) in
  Py.Return final_score.

(** *** Reason text.  The number formatting of the f-strings and
    [str.lower] are library functions, taken as parameters:
    [fmt0f x] is [format(x, '.0f')], [str_int n] is [str(n)]. *)

Section Reasons.
Variable fmt0f : R -> string.
Variable str_int : Z -> string.
Variable lower : string -> string.

Definition context_reasons (user_context : option UserContextMetrics) : list string :=
match user_context with
| None => []
| Some ctx =>
    match days_since_last_wash ctx with
    | None => []
    | Some days_since =>
        match is_interval_optimal ctx with
        | Some true =>
            ["Оптимальный интервал (" ++ str_int days_since ++ " дней с последней мойки)"]%string
        | _ =>
            if (days_since <? 7)%Z
            then ["Недавняя мойка (" ++ str_int days_since ++ " дней назад)"]%string
            else []
        end
    end
end.

Definition _generate_reason
    (is_rain_expected is_temperature_optimal is_wind_acceptable : bool)
    (precip_prob temp wind_speed : option R) (score : R)
    (user_context : option UserContextMetrics) : string :=
let reasons := [] in
let reasons :=
  match is_rain_expected, precip_prob with
  | true, Some p =>
      reasons ++ ["Высокая вероятность дождя (" ++ fmt0f (p * 100) ++ "%)"]%string
  | _, _ => reasons
  end in
let reasons :=
  if negb is_temperature_optimal then
    match temp with
    | Some t =>
        if Py.Rltb t 5
        then reasons ++ ["Низкая температура (" ++ fmt0f t ++ "°C)"]%string
        else if Py.Rltb 25 t
        then reasons ++ ["Высокая температура (" ++ fmt0f t ++ "°C)"]%string
        else reasons
    | None => reasons
    end
  else reasons in
let reasons :=
  match negb is_wind_acceptable, wind_speed with
  | true, Some w => reasons ++ ["Сильный ветер (" ++ fmt0f w ++ " км/ч)"]%string
  | _, _ => reasons
  end in
let reasons := reasons ++ context_reasons user_context in
let no_reasons := match reasons with [] => true | _ => false end in
if Py.Rleb 80 score then
  if no_reasons then "Отличные условия для мойки"%string
  else ("Хорошие условия, но " ++ lower (Py.join ", " reasons))%string
else if Py.Rleb 60 score then
  if negb no_reasons
  then ("Удовлетворительные условия, однако " ++ lower (Py.join ", " reasons))%string
  else "Удовлетворительные условия для мойки"%string
else if Py.Rleb 40 score then
  if negb no_reasons
  then ("Неблагоприятные условия: " ++ Py.join ", " reasons)%string
  else "Неблагоприятные условия"%string
else
  if negb no_reasons
  then ("Очень плохие условия: " ++ Py.join ", " reasons)%string
  else "Очень плохие условия"%string.

Definition adjust_for_context (score : R) (user_context : option UserContextMetrics) : R :=
match user_context with
| None => score
| Some ctx =>
    match days_since_last_wash ctx, is_interval_optimal ctx with
    | Some _, Some true => Py.min 100 (score + 10)
    | Some days_since, _ =>
        if (days_since <? 7)%Z then Py.max 0 (score - 20) else score
    | None, _ => score
    end
end.

Definition analyze_weather_day
    (weather_data : WeatherDay) (user_context : option UserContextMetrics)
  : Py.result AnalyzedDay :=
let temp := wd_temperature_avg weather_data in
let precip_prob := wd_precipitation_probability weather_data in
let precip_amount := wd_precipitation_amount weather_data in
let wind_speed := wd_wind_speed weather_data in
let humidity := wd_humidity weather_data in
let weather_desc :=
  match wd_weather_description weather_data with
  | Some v => v
  | None => Some EmptyString
  end in
let is_rain_expected :=
  match precip_prob with
  | Some p => Py.Rltb MIN_PRECIPITATION_THRESHOLD p
  | None => false
  end in
let is_temperature_optimal :=
  match temp with
  | Some t => Py.Rleb IDEAL_WASH_TEMPERATURE_MIN t && Py.Rleb t IDEAL_WASH_TEMPERATURE_MAX
  | None => false
  end in
let is_wind_acceptable :=
  match wind_speed with
  | Some w => Py.Rleb w WIND_SPEED_THRESHOLD
  | None => false
  end in
score <<- _calculate_score temp precip_prob wind_speed humidity
            is_rain_expected is_temperature_optimal is_wind_acceptable ;;
let score := adjust_for_context score user_context in
let reason := _generate_reason is_rain_expected is_temperature_optimal
                is_wind_acceptable precip_prob temp wind_speed score user_context in
Py.Return
  {| ad_date := wd_date weather_data;
     ad_temperature := temp;
     ad_precipitation_probability := precip_prob;
     ad_precipitation_amount := precip_amount;
     ad_wind_speed := wind_speed;
     ad_humidity := humidity;
     ad_weather_description := weather_desc;
     ad_is_rain_expected := is_rain_expected;
     ad_is_temperature_optimal := is_temperature_optimal;
     ad_is_wind_acceptable := is_wind_acceptable;
     ad_score := Some score;
     ad_reason := reason |}.
End Reasons.

(** *** Best day.  [sorted(days, key=..., reverse=True)] is stable: days
    with equal keys keep their order. *)

Definition score_key (x : AnalyzedDay) : R :=
match ad_score x with
| Some s => if Py.truthy (Some s) then s else 0
| None => 0
end.

Fixpoint insert_desc (x : AnalyzedDay) (sorted : list AnalyzedDay) : list AnalyzedDay :=
match sorted with
| [] => [x]
| y :: rest =>
    if Py.Rltb (score_key x) (score_key y)
    then y :: insert_desc x rest
    else x :: y :: rest
end.

Definition sorted_by_score_desc (days : list AnalyzedDay) : list AnalyzedDay :=
fold_right insert_desc [] days.

Definition min_acceptable_score : R := 60.

Definition is_acceptable (day : AnalyzedDay) : bool :=
match ad_score day with
| Some s => Py.truthy (Some s) && Py.Rleb min_acceptable_score s
| None => false
end.

Definition factors_of (day : AnalyzedDay) : Factors :=
{| f_is_rain_expected := ad_is_rain_expected day;
   f_is_temperature_optimal := ad_is_temperature_optimal day;
   f_is_wind_acceptable := ad_is_wind_acceptable day;
   f_humidity := ad_humidity day |}.

Section BestDay.
(** How pydantic reads the [date] string of a day ([None]: not a date). *)
Variable parse_date : string -> option Z.

Definition find_best_wash_day (analyzed_days : list AnalyzedDay)
  : Py.result (option WashRecommendationDay) :=
match analyzed_days with
| [] => Py.Return None
| _ =>
    let acceptable_days := filter is_acceptable analyzed_days in
    let acceptable_days :=
      match acceptable_days with
      | [] => analyzed_days
      | _ => acceptable_days
      end in
    let sorted_days := sorted_by_score_desc acceptable_days in
    match sorted_days with
    | [] => Py.Raise Py.IndexError
    | best_day :: _ =>
        r <<- new_WashRecommendationDay
                (parse_date (ad_date best_day))
                (Some (is_acceptable best_day))
                (Some (score_key best_day))
                (ad_temperature best_day)
                (ad_precipitation_probability best_day)
                (ad_wind_speed best_day)
                (ad_reason best_day)
                (factors_of best_day) ;;
        Py.Return (Some r)
    end
end.

Definition is_recommended_day (day : AnalyzedDay) : bool :=
match ad_score day with
| Some s => Py.Rleb min_acceptable_score s
| None => false
end.

Fixpoint generate_all_days_recommendations (analyzed_days : list AnalyzedDay)
  : Py.result (list WashRecommendationDay) :=
match analyzed_days with
| [] => Py.Return []
| day :: rest =>
    rec_day <<- new_WashRecommendationDay
                  (parse_date (ad_date day))
                  (Some (is_recommended_day day))
                  (Some (score_key day))
                  (ad_temperature day)
                  (ad_precipitation_probability day)
                  (ad_wind_speed day)
                  (ad_reason day)
                  (factors_of day) ;;
    recommendations <<- generate_all_days_recommendations rest ;;
    Py.Return (rec_day :: recommendations)
end.
End BestDay.
End Advisor.

(** ** wash_advisor_service/app/models.py

    [forecast_source], [raw_forecast_data] and [updated_at] play no part in
    what follows and are left out of the rows. *)

Module AdvisorModels.
Record WashRecommendation : Type := mkWashRecommendation {
  wr_id : string;
  wr_user_id : string;
  wr_location : string;
  wr_recommendation_date : Z;
  wr_temperature : option R;
  wr_precipitation_probability : option R;
  wr_precipitation_amount : option R;
  wr_wind_speed : option R;
  wr_humidity : option Z;
  wr_weather_description : option string;
  wr_score : option R;
  wr_is_recommended : bool;
  wr_reason : option string;
  wr_is_rain_expected : bool;
  wr_is_temperature_optimal : bool;
  wr_is_wind_acceptable : bool;
  wr_days_since_last_wash : option Z;
  wr_is_interval_optimal : option bool;
  wr_created_at : Z;
  wr_expires_at : option Z
}.

Record UserContext : Type := mkUserContext {
  uc_id : string;
  uc_user_id : string;
  uc_city : option string;
  uc_country : option string;
  uc_last_wash_date : option Z;
  uc_preferred_wash_interval : Z;
  uc_last_sync : option Z
}.

Record AdvisorDb : Type := mkAdvisorDb {
  wash_recommendations : list WashRecommendation;
  user_context : list UserContext
}.
End AdvisorModels.

(** ** wash_advisor_service/app/crud.py *)

Module AdvisorCrud.
Import AdvisorSettings AdvisorModels Advisor.

Record UserContextData : Type := mkUserContextData {
  cd_city : option string;
  cd_country : option string;
  cd_last_wash_date : option Z;
  cd_preferred_wash_interval : Z
}.

Section Env.
(** [datetime.now()] and the identifier drawn for the n-th row of a table. *)
Variable now : Z.
Variable generate_uuid : nat -> string.

Definition get_user_context (db : AdvisorDb) (user_id : string) : option UserContext :=
match Db.scalar_one_or_none
        (filter (fun c => String.eqb (uc_user_id c) user_id) (user_context db)) with
| Py.Return context => context
| Py.Raise _ => None
end.

Fixpoint update_context (user_id : string) (context_data : UserContextData)
    (rows : list UserContext) : list UserContext :=
match rows with
| [] => []
| c :: rest =>
    if String.eqb (uc_user_id c) user_id
    then {| uc_id := uc_id c;
            uc_user_id := uc_user_id c;
            uc_city := cd_city context_data;
            uc_country := cd_country context_data;
            uc_last_wash_date := cd_last_wash_date context_data;
            uc_preferred_wash_interval := cd_preferred_wash_interval context_data;
            uc_last_sync := Some now |} :: rest
    else c :: update_context user_id context_data rest
end.

(** [user_id] is a unique column: inserting a second row for a user fails,
    the session is rolled back to [db0] and the result is absent. *)
Definition create_or_update_user_context
    (db0 db : AdvisorDb) (user_id : string) (context_data : UserContextData)
  : AdvisorDb * option UserContext :=
match get_user_context db user_id with
| Some _ =>
    let db' := {| wash_recommendations := wash_recommendations db;
                  user_context := update_context user_id context_data (user_context db) |} in
    (db', get_user_context db' user_id)
| None =>
    if existsb (fun c => String.eqb (uc_user_id c) user_id) (user_context db)
    then (db0, None)
    else
      let context :=
        {| uc_id := generate_uuid (List.length (user_context db));
           uc_user_id := user_id;
           uc_city := cd_city context_data;
           uc_country := cd_country context_data;
           uc_last_wash_date := cd_last_wash_date context_data;
           uc_preferred_wash_interval := cd_preferred_wash_interval context_data;
           uc_last_sync := Some now |} in
      ({| wash_recommendations := wash_recommendations db;
          user_context := user_context db ++ [context] |}, Some context)
end.

Definition calculate_user_context (context : UserContext) : UserContextMetrics :=
match uc_last_wash_date context with
| None => {| days_since_last_wash := None; is_interval_optimal := None |}
| Some last_wash_date =>
    let days_since := (Db.date_of now - last_wash_date)%Z in
    let is_optimal := (uc_preferred_wash_interval context <=? days_since)%Z in
    {| days_since_last_wash := Some days_since; is_interval_optimal := Some is_optimal |}
end.

Definition cache_filter (cache_limit : Z) (user_id location : string)
    (r : WashRecommendation) : bool :=
String.eqb (wr_user_id r) user_id &&
String.eqb (wr_location r) location &&
(cache_limit <=? wr_created_at r)%Z &&
Bool.eqb (wr_is_recommended r) true.

Definition get_cached_recommendation
    (db : AdvisorDb) (user_id location : string) (days : Z)
  : option WashRecommendation :=
let cache_limit := (now - Db.timedelta_hours CACHE_RECOMMENDATION_HOURS)%Z in
let query :=
  rows <<- Db.limit 1
             (Db.order_by_desc wr_created_at
                (filter (cache_filter cache_limit user_id location)
                   (wash_recommendations db))) ;;
  Db.scalar_one_or_none rows in
match query with
| Py.Return recommendation => recommendation
| Py.Raise _ => None
end.

(** [a or b] on optional numbers *)
Definition or_else (a b : option R) : option R := if Py.truthy a then a else b.

Record AnalysisResults : Type := mkAnalysisResults {
  ar_is_recommended : bool;
  ar_score : R;
  ar_reason : string;
  ar_is_rain_expected : bool;
  ar_is_temperature_optimal : bool;
  ar_is_wind_acceptable : bool
}.

(** [weather_data] is a forecast day, or the empty dictionary. *)
Definition create_recommendation
    (db : AdvisorDb) (user_id location : string) (recommendation_date : Z)
    (weather_data : option WeatherDay) (analysis_results : AnalysisResults)
    (user_context : option UserContextMetrics)
  : AdvisorDb * option WashRecommendation :=
let get {B} (f : WeatherDay -> option B) : option B :=
  match weather_data with Some w => f w | None => None end in
let expires_at := (now + Db.timedelta_hours 24)%Z in
let temperature := or_else (get wd_temperature) (get wd_temperature_avg) in
let recommendation :=
  {| wr_id := generate_uuid (List.length (wash_recommendations db));
     wr_user_id := user_id;
     wr_location := location;
     wr_recommendation_date := recommendation_date;
     wr_temperature := temperature;
     wr_precipitation_probability := get wd_precipitation_probability;
     wr_precipitation_amount := get wd_precipitation_amount;
     wr_wind_speed := get wd_wind_speed;
     wr_humidity := get wd_humidity;
     wr_weather_description :=
       match get wd_weather_description with Some v => v | None => None end;
     wr_score := Some (ar_score analysis_results);
     wr_is_recommended := ar_is_recommended analysis_results;
     wr_reason := Some (ar_reason analysis_results);
     wr_is_rain_expected := ar_is_rain_expected analysis_results;
     wr_is_temperature_optimal := ar_is_temperature_optimal analysis_results;
     wr_is_wind_acceptable := ar_is_wind_acceptable analysis_results;
     wr_days_since_last_wash :=
       match user_context with Some c => days_since_last_wash c | None => None end;
     wr_is_interval_optimal :=
       match user_context with Some c => is_interval_optimal c | None => None end;
     wr_created_at := now;
     wr_expires_at := Some expires_at |} in
({| wash_recommendations := wash_recommendations db ++ [recommendation];
    user_context := AdvisorModels.user_context db |}, Some recommendation).
End Env.
End AdvisorCrud.

(** ** wash_advisor_service/app/main.py *)

Module AdvisorMain.
Import Http AdvisorSettings AdvisorSchemas AdvisorModels Advisor AdvisorCrud.

Record WashRecommendationRequest : Type := mkWashRecommendationRequest {
  req_user_id : string;
  req_days : Z;
  req_force_refresh : bool
}.

(** The profile returned by the User Service. *)
Record UserInfo : Type := mkUserInfo {
  ui_city : option string;
  ui_country : option string;
  ui_last_wash_date : option Z;
  ui_preferred_wash_interval : Z
}.

Section Endpoint.
Variable now : Z.
Variable generate_uuid : nat -> string.
Variable fmt0f : R -> string.
Variable str_int : Z -> string.
Variable lower : string -> string.
(** pydantic's reading of a date string, [date.fromisoformat] and
    [str(date)]. *)
Variable parse_date : string -> option Z.
Variable fromisoformat : string -> option Z.
Variable isoformat : Z -> string.
(** The two upstream services, through [api_client]. *)
Variable get_user_info : string -> option UserInfo.
Variable get_weather_forecast : string -> Z -> option (list WeatherDay).

Definition cached_day_of (cached_rec : WashRecommendation)
  : Py.result WashRecommendationDay :=
new_WashRecommendationDay
  (Some (wr_recommendation_date cached_rec))
  (Some (wr_is_recommended cached_rec))
  (wr_score cached_rec)
  (wr_temperature cached_rec)
  (wr_precipitation_probability cached_rec)
  (wr_wind_speed cached_rec)
  (match wr_reason cached_rec with Some r => r | None => EmptyString end)
  {| f_is_rain_expected := wr_is_rain_expected cached_rec;
     f_is_temperature_optimal := wr_is_temperature_optimal cached_rec;
     f_is_wind_acceptable := wr_is_wind_acceptable cached_rec;
     f_humidity := wr_humidity cached_rec |}.

(** The loop that pairs each analysed day with its forecast entry; the
    two lists have the same length. *)
Fixpoint convert_days
    (best_day_analysis : option WashRecommendationDay)
    (all_days_analysis : list WashRecommendationDay) (forecast_days : list WeatherDay)
    (all_days : list WashRecommendationDay) (best_day : option WashRecommendationDay)
  : Py.result (list WashRecommendationDay * option WashRecommendationDay) :=
match all_days_analysis with
| [] => Py.Return (all_days, best_day)
| day_analysis :: rest =>
    let day_data := hd_error forecast_days in
    let date :=
      match day_data with
      | Some d =>
          if String.eqb (wd_date d) EmptyString then Some (rd_date day_analysis)
          else fromisoformat (wd_date d)
      | None => Some (rd_date day_analysis)
      end in
    let get {B} (f : WeatherDay -> option B) : option B :=
      match day_data with Some w => f w | None => None end in
    match date with
    | None => Py.Raise Py.ValueError
    | Some _ =>
        wash_day <<- new_WashRecommendationDay date
                       (Some (rd_is_recommended day_analysis))
                       (Some (rd_score day_analysis))
                       (or_else (get wd_temperature_avg) (get wd_temperature))
                       (get wd_precipitation_probability)
                       (get wd_wind_speed)
                       (rd_reason day_analysis)
                       (rd_factors day_analysis) ;;
        let best_day :=
          match best_day_analysis with
          | Some b => if (rd_date day_analysis =? rd_date b)%Z then Some wash_day else best_day
          | None => best_day
          end in
        convert_days best_day_analysis rest (tl forecast_days)
          (all_days ++ [wash_day]) best_day
    end
end.

(** The loop that analyses the forecast days (lines 220-225); a day
    whose analysis raises ends the request. *)
Fixpoint analyze_days
    (forecast_days : list WeatherDay) (context_metrics : option UserContextMetrics)
  : Py.result (list AnalyzedDay) :=
match forecast_days with
| [] => Py.Return []
| day :: rest =>
    analysis <<- analyze_weather_day fmt0f str_int lower day context_metrics ;;
    analyzed_days <<- analyze_days rest context_metrics ;;
    Py.Return (analysis :: analyzed_days)
end.

Definition fresh_recommendation
    (db : AdvisorDb) (request : WashRecommendationRequest) (location : string)
    (context_metrics : option UserContextMetrics) (forecast_days : list WeatherDay)
  : Py.result (AdvisorDb * list WashRecommendationDay * option WashRecommendationDay) :=
analyzed_days <<- analyze_days forecast_days context_metrics ;;
best_day_analysis <<- find_best_wash_day parse_date analyzed_days ;;
all_days_analysis <<- generate_all_days_recommendations parse_date analyzed_days ;;
converted <<- convert_days best_day_analysis all_days_analysis forecast_days [] None ;;
let '(all_days, best_day) := converted in
match best_day with
| Some best =>
    let weather_day_data :=
      find (fun day => String.eqb (wd_date day) (isoformat (rd_date best))) forecast_days in
    let analysis_results :=
      {| ar_is_recommended := rd_is_recommended best;
         ar_score := rd_score best;
         ar_reason := rd_reason best;
         ar_is_rain_expected := f_is_rain_expected (rd_factors best);
         ar_is_temperature_optimal := f_is_temperature_optimal (rd_factors best);
         ar_is_wind_acceptable := f_is_wind_acceptable (rd_factors best) |} in
    let '(db', _) :=
      create_recommendation now generate_uuid db (req_user_id request) location
        (rd_date best) weather_day_data analysis_results context_metrics in
    Py.Return (db', all_days, best_day)
| None => Py.Return (db, all_days, best_day)
end.

(** POST /api/recommendations.  An error response leaves the store as it
    was before the request (the session is rolled back). *)
Definition get_wash_recommendation
    (db0 : AdvisorDb) (request : WashRecommendationRequest)
  : AdvisorDb * http WashRecommendationResponse :=
match get_user_info (req_user_id request) with
| None => (db0, HTTPException 404)
| Some user_info =>
    match ui_city user_info with
    | None => (db0, HTTPException 400)
    | Some location =>
        if String.eqb location EmptyString then (db0, HTTPException 400)
        else
          let context_data :=
            {| cd_city := ui_city user_info;
               cd_country := ui_country user_info;
               cd_last_wash_date := ui_last_wash_date user_info;
               cd_preferred_wash_interval := ui_preferred_wash_interval user_info |} in
          let '(db, user_context) :=
            create_or_update_user_context now generate_uuid db0 db0
              (req_user_id request) context_data in
          let context_metrics := option_map (calculate_user_context now) user_context in
          let cached_rec :=
            if negb (req_force_refresh request)
            then get_cached_recommendation now db (req_user_id request) location
                   (req_days request)
            else None in
          let respond best_day all_days cached :=
            {| resp_user_id := req_user_id request;
               resp_location := location;
               resp_days_since_last_wash :=
                 match context_metrics with
                 | Some c => days_since_last_wash c
                 | None => None
                 end;
               resp_is_interval_optimal :=
                 match context_metrics with
                 | Some c => is_interval_optimal c
                 | None => None
                 end;
               resp_best_day := best_day;
               resp_all_days := all_days;
               resp_cached := cached |} in
          match cached_rec with
          | None =>
              match get_weather_forecast location
                      (Z.min (req_days request) MAX_FORECAST_DAYS) with
              | None => (db0, HTTPException 404)
              | Some forecast_days =>
                  match fresh_recommendation db request location context_metrics
                          forecast_days with
                  | Py.Raise _ => (db0, HTTPException 500)
                  | Py.Return (db', all_days, best_day) =>
                      (db', OK (respond best_day all_days false))
                  end
              end
          | Some cached_rec =>
              match cached_day_of cached_rec with
              | Py.Raise _ => (db0, HTTPException 500)
              | Py.Return cached_day =>
                  let best_day :=
                    if wr_is_recommended cached_rec then Some cached_day else None in
                  let all_days := [cached_day] in
                  (db, OK (respond best_day all_days true))
              end
          end
    end
end.
End Endpoint.
End AdvisorMain.

(** ** Python values of the weather service

    The provider's JSON and the dictionaries passed between the parser and
    the CRUD layer.  A dictionary is the list of its entries (keys are
    distinct); [PDate] is a [datetime.date], as a day number. *)

Module PyVal.
Local Open Scope R_scope.

#[local] Set Warnings "-register-all".

Inductive pyval : Type :=
| PNone
| PBool (b : bool)
| PNum (x : R)
| PStr (s : string)
| PDate (d : Z)
| PList (items : list pyval)
| PDict (entries : list (string * pyval)).

Fixpoint lookup (key : string) (entries : list (string * pyval)) : option pyval :=
match entries with
| [] => None
| (k, v) :: rest => if String.eqb k key then Some v else lookup key rest
end.

(** [d.get(key, default)] *)
Definition get (d : pyval) (key : string) (default : pyval) : Py.result pyval :=
match d with
| PDict entries =>
    Py.Return (match lookup key entries with Some v => v | None => default end)
| _ => Py.Raise Py.AttributeError
end.

(** The items a [for] loop draws from a value. *)
Fixpoint chars (s : string) : list pyval :=
match s with
| EmptyString => []
| String c rest => PStr (String c EmptyString) :: chars rest
end.

Definition iterate (v : pyval) : Py.result (list pyval) :=
match v with
| PList items => Py.Return items
| PDict entries => Py.Return (map (fun kv => PStr (fst kv)) entries)
| PStr s => Py.Return (chars s)
| _ => Py.Raise Py.TypeError
end.

(** [s.replace('%', '')] *)
Fixpoint remove_percent (s : string) : string :=
match s with
| EmptyString => EmptyString
| String c rest =>
    if Ascii.eqb c "%"%char then remove_percent rest else String c (remove_percent rest)
end.

(** *** [float(s)].  A string of ASCII digits is read here; every other
    string is left to the parameter [float_other] ([None]: ValueError). *)

Definition digit_value (c : ascii) : option Z :=
let n := Z.of_nat (nat_of_ascii c) in
if ((48 <=? n) && (n <=? 57))%Z then Some (n - 48)%Z else None.

Fixpoint digits_value (acc : Z) (s : string) : option Z :=
match s with
| EmptyString => Some acc
| String c rest =>
    match digit_value c with
    | Some d => digits_value (10 * acc + d)%Z rest
    | None => None
    end
end.

Definition float_of_digits (s : string) : option R :=
match s with
| EmptyString => None
| _ => option_map IZR (digits_value 0 s)
end.

Definition float (float_other : string -> option R) (s : string) : option R :=
match float_of_digits s with
| Some x => Some x
| None => float_other s
end.
End PyVal.

(** ** weather_service/app/weather_client.py *)

Module WeatherClient.
Import PyVal.
Local Open Scope R_scope.

(** The weather fields of a day, as [day_data.get(...)] yields them. *)
Record WeatherFields : Type := mkWeatherFields {
  temperature_min : pyval;
  temperature_max : pyval;
  temperature_avg : pyval;
  precipitation_probability : pyval;
  precipitation_amount : pyval;
  weather_code : pyval;
  weather_description : pyval;
  wind_speed : pyval;
  humidity : pyval;
  sunrise : pyval;
  sunset : pyval;
  raw_data : pyval
}.

(** A day dictionary; [dd_date = None] when it has no ['date'] key. *)
Record DayData : Type := mkDayData {
  dd_date : option pyval;
  dd_fields : WeatherFields
}.

Record LocationData : Type := mkLocationData {
  ld_city_name : pyval;
  ld_country : pyval;
  ld_lat : pyval;
  ld_lon : pyval
}.

Record ParsedForecast : Type := mkParsedForecast {
  pf_location : LocationData;
  pf_forecast_days : list DayData;
  pf_raw_response : pyval
}.

Section Parser.
Variable float_other : string -> option R.

(** Lines 136-141: the provider's [daily_chance_of_rain]. *)
Definition chance_of_rain_of (day_info : pyval) : Py.result pyval :=
chance_of_rain <<- get day_info "daily_chance_of_rain" (PNum 0) ;;
match chance_of_rain with
| PStr s =>
    match PyVal.float float_other (remove_percent s) with
    | Some x => Py.Return (PNum x)
    | None => Py.Return (PNum 0)
    end
| _ => Py.Return chance_of_rain
end.

(** [chance_of_rain / 100.0] *)
Definition div_100 (chance_of_rain : pyval) : Py.result R :=
match chance_of_rain with
| PNum x => Py.Return (x / 100)
| PBool b => Py.Return ((if b then 1 else 0) / 100)
| _ => Py.Raise Py.TypeError
end.

(** The probability that the [day] dictionary of an entry normalizes to
    (lines 136-141 and 148 together). *)
Definition probability_of (day_info : pyval) : Py.result R :=
chance_of_rain <<- chance_of_rain_of day_info ;; div_100 chance_of_rain.

(** The body of the loop over [forecastday]. *)
Definition parse_day (day_data : pyval) : Py.result DayData :=
date_str <<- get day_data "date" PNone ;;
day_info <<- get day_data "day" (PDict []) ;;
astro_info <<- get day_data "astro" (PDict []) ;;
chance_of_rain <<- chance_of_rain_of day_info ;;
mintemp_c <<- get day_info "mintemp_c" PNone ;;
maxtemp_c <<- get day_info "maxtemp_c" PNone ;;
avgtemp_c <<- get day_info "avgtemp_c" PNone ;;
probability <<- div_100 chance_of_rain ;;
totalprecip_mm <<- get day_info "totalprecip_mm" (PNum 0) ;;
condition <<- get day_info "condition" (PDict []) ;;
code <<- get condition "code" PNone ;;
condition' <<- get day_info "condition" (PDict []) ;;
text <<- get condition' "text" PNone ;;
maxwind_kph <<- get day_info "maxwind_kph" PNone ;;
avghumidity <<- get day_info "avghumidity" PNone ;;
sunrise <<- get astro_info "sunrise" PNone ;;
sunset <<- get astro_info "sunset" PNone ;;
Py.Return
  {| dd_date := Some date_str;
     dd_fields :=
       {| temperature_min := mintemp_c;
          temperature_max := maxtemp_c;
          temperature_avg := avgtemp_c;
          precipitation_probability := PNum probability;
          precipitation_amount := totalprecip_mm;
          weather_code := code;
          weather_description := text;
          wind_speed := maxwind_kph;
          humidity := avghumidity;
          sunrise := sunrise;
          sunset := sunset;
          raw_data := day_data |} |}.

Fixpoint parse_days (forecast_days : list pyval) : Py.result (list DayData) :=
match forecast_days with
| [] => Py.Return []
| day_data :: rest =>
    parsed_day <<- parse_day day_data ;;
    parsed_days <<- parse_days rest ;;
    Py.Return (parsed_day :: parsed_days)
end.

Definition parse_forecast_data (raw_data : pyval) : ParsedForecast :=
let attempt :=
  location_data <<- get raw_data "location" (PDict []) ;;
  forecast <<- get raw_data "forecast" (PDict []) ;;
  forecastday <<- get forecast "forecastday" (PList []) ;;
  forecast_days <<- iterate forecastday ;;
  parsed_days <<- parse_days forecast_days ;;
  name <<- get location_data "name" (PStr "Unknown") ;;
  country <<- get location_data "country" (PStr "Unknown") ;;
  lat <<- get location_data "lat" (PNum 0) ;;
  lon <<- get location_data "lon" (PNum 0) ;;
  Py.Return
    {| pf_location :=
         {| ld_city_name := name; ld_country := country; ld_lat := lat; ld_lon := lon |};
       pf_forecast_days := parsed_days;
       pf_raw_response := raw_data |} in
match attempt with
| Py.Return result => result
| Py.Raise _ =>
    {| pf_location :=
         {| ld_city_name := PStr "Unknown"; ld_country := PStr "Unknown";
            ld_lat := PNum 0; ld_lon := PNum 0 |};
       pf_forecast_days := [];
       pf_raw_response := raw_data |}
end.
End Parser.
End WeatherClient.

(** ** weather_service/app/models.py and config.py *)

Module WeatherModels.
Import PyVal WeatherClient.

Record Location : Type := mkLocation {
  loc_id : string;
  loc_city_name : string;
  loc_country : option string;
  loc_lat : R;
  loc_lon : R
}.

(** [updated_at] is left out: nothing reads it. *)
Record WeatherForecast : Type := mkWeatherForecast {
  wf_id : string;
  wf_location_id : string;
  wf_date : Z;
  wf_fields : WeatherFields;
  wf_forecast_source : string;
  wf_is_cached : bool;
  wf_created_at : Z
}.

Record WeatherDb : Type := mkWeatherDb {
  locations : list Location;
  weather_forecasts : list WeatherForecast
}.
End WeatherModels.

(** ** weather_service/app/crud.py *)

Module WeatherCrud.
Import PyVal WeatherClient WeatherModels.

Record LocationCreate : Type := mkLocationCreate {
  lc_city_name : string;
  lc_country : option string;
  lc_lat : R;
  lc_lon : R
}.

Section Env.
(** [datetime.now()] and [settings.CACHE_TTL_HOURS] (1 unless the
    environment overrides it). *)
Variable now : Z.
Variable CACHE_TTL_HOURS : Z.
(** The column default [datetime.now()] of [created_at] is evaluated once,
    when models.py is imported. *)
Variable created_at_default : Z.
Variable generate_uuid : nat -> string.
(** [city_name ILIKE '%city%'] and
    [datetime.strptime(s, '%Y-%m-%d').date()] ([None]: ValueError). *)
Variable ilike_contains : string -> string -> bool.
Variable strptime_ymd : string -> option Z.

Definition get_location_by_city (db : WeatherDb) (city_name : string) : option Location :=
match Db.scalar_one_or_none
        (filter (fun l => ilike_contains (loc_city_name l) city_name) (locations db)) with
| Py.Return location => location
| Py.Raise _ => None
end.

Definition create_location (db : WeatherDb) (location_data : LocationCreate)
  : WeatherDb * option Location :=
match get_location_by_city db (lc_city_name location_data) with
| Some existing => (db, Some existing)
| None =>
    let location :=
      {| loc_id := generate_uuid (List.length (locations db));
         loc_city_name := lc_city_name location_data;
         loc_country := lc_country location_data;
         loc_lat := lc_lat location_data;
         loc_lon := lc_lon location_data |} in
    ({| locations := locations db ++ [location];
        weather_forecasts := weather_forecasts db |}, Some location)
end.

Definition cached_filter (cache_limit_date : Z) (location_id : string)
    (f : WeatherForecast) : bool :=
String.eqb (wf_location_id f) location_id &&
(Db.midnight cache_limit_date <=? wf_created_at f)%Z &&
Bool.eqb (wf_is_cached f) true.

Definition get_cached_forecast (db : WeatherDb) (location_id : string) (days : Z)
  : option (list WeatherForecast) :=
let cache_limit := (now - Db.timedelta_hours CACHE_TTL_HOURS)%Z in
let cache_limit_date := Db.date_of cache_limit in
let query :=
  Db.limit days
    (Db.order_by_asc wf_date
       (filter (cached_filter cache_limit_date location_id) (weather_forecasts db))) in
match query with
| Py.Return [] => None
| Py.Return forecasts => Some forecasts
| Py.Raise _ => None
end.

(** *** create_forecasts.  The rows collected in [forecasts] are the
    session's objects: a row that is updated later in the same call is seen
    updated in the returned list.  They are kept as positions in the table
    (rows are only appended or overwritten in place) and read at the end. *)

Definition same_day (location_id : string) (forecast_date : Z) (f : WeatherForecast) : bool :=
String.eqb (wf_location_id f) location_id && (wf_date f =? forecast_date)%Z.

Fixpoint position {A : Type} (p : A -> bool) (rows : list A) : option nat :=
match rows with
| [] => None
| r :: rest => if p r then Some O else option_map S (position p rest)
end.

Fixpoint update_at {A : Type} (i : nat) (f : A -> A) (rows : list A) : list A :=
match rows, i with
| [], _ => []
| r :: rest, O => f r :: rest
| r :: rest, S j => r :: update_at j f rest
end.

Definition overwrite (fields : WeatherFields) (existing_forecast : WeatherForecast)
  : WeatherForecast :=
{| wf_id := wf_id existing_forecast;
   wf_location_id := wf_location_id existing_forecast;
   wf_date := wf_date existing_forecast;
   wf_fields := fields;
   wf_forecast_source := wf_forecast_source existing_forecast;
   wf_is_cached := true;
   wf_created_at := wf_created_at existing_forecast |}.

(** The date of a day: [None] when the string does not parse (the day is
    skipped); a value that is neither a string nor a date makes the
    database refuse the statement. *)
Definition forecast_date_of (date_str : pyval) : Py.result (option Z) :=
match date_str with
| PStr s => Py.Return (strptime_ymd s)
| PDate d => Py.Return (Some d)
| _ => Py.Raise Py.DataError
end.

Definition upsert_day (location_id source : string) (table : list WeatherForecast)
    (forecast_date : Z) (fields : WeatherFields)
  : Py.result (list WeatherForecast * nat) :=
existing_forecast <<-
  Db.scalar_one_or_none (filter (same_day location_id forecast_date) table) ;;
match existing_forecast with
| Some _ =>
    match position (same_day location_id forecast_date) table with
    | Some i => Py.Return (update_at i (overwrite fields) table, i)
    | None => Py.Raise Py.IndexError
    end
| None =>
    let forecast :=
      {| wf_id := generate_uuid (List.length table);
         wf_location_id := location_id;
         wf_date := forecast_date;
         wf_fields := fields;
         wf_forecast_source := source;
         wf_is_cached := true;
         wf_created_at := created_at_default |} in
    Py.Return (table ++ [forecast], List.length table)
end.

Fixpoint create_forecasts_loop (location_id source : string)
    (forecast_days : list DayData) (table : list WeatherForecast) (forecasts : list nat)
  : Py.result (list WeatherForecast * list nat) :=
match forecast_days with
| [] => Py.Return (table, forecasts)
| day_data :: rest =>
    match dd_date day_data with
    | None => Py.Raise Py.KeyError
    | Some date_str =>
        parsed <<- forecast_date_of date_str ;;
        match parsed with
        | None => create_forecasts_loop location_id source rest table forecasts
        | Some forecast_date =>
            step <<- upsert_day location_id source table forecast_date
                       (dd_fields day_data) ;;
            create_forecasts_loop location_id source rest (fst step)
              (forecasts ++ [snd step])
        end
    end
end.

Definition rows_at (table : list WeatherForecast) (positions : list nat)
  : list WeatherForecast :=
flat_map (fun i => match nth_error table i with Some r => [r] | None => [] end) positions.

(** On an exception the session is rolled back to [db0] and the list is
    empty. *)
Definition create_forecasts (db0 db : WeatherDb) (location_id : string)
    (forecast_days : list DayData) (source : string)
  : WeatherDb * list WeatherForecast :=
match create_forecasts_loop location_id source forecast_days (weather_forecasts db) [] with
| Py.Return (table, forecasts) =>
    ({| locations := locations db; weather_forecasts := table |}, rows_at table forecasts)
| Py.Raise _ => (db0, [])
end.

Definition is_old (cache_limit_date : Z) (location_id : string) (f : WeatherForecast) : bool :=
String.eqb (wf_location_id f) location_id &&
(wf_created_at f <? Db.midnight cache_limit_date)%Z &&
Bool.eqb (wf_is_cached f) true.

Definition delete_old_forecasts (db : WeatherDb) (location_id : string) : WeatherDb * Z :=
let cache_limit := (now - Db.timedelta_hours CACHE_TTL_HOURS)%Z in
let cache_limit_date := Db.date_of cache_limit in
let old := filter (is_old cache_limit_date location_id) (weather_forecasts db) in
({| locations := locations db;
    weather_forecasts :=
      filter (fun f => negb (is_old cache_limit_date location_id f)) (weather_forecasts db) |},
 Z.of_nat (List.length old)).
End Env.
End WeatherCrud.

(** ** weather_service/app/main.py

    The request log ([log_api_request]) does not touch the forecast tables
    and is left out.  pydantic's validation and coercion of the location
    and of the response days are parameters; a failure is a 500. *)

Module WeatherMain.
Import Http PyVal WeatherClient WeatherModels WeatherCrud.

Record ForecastResponse : Type := mkForecastResponse {
  fr_location : Location;
  fr_forecast : list WeatherForecast;
  fr_cached : bool;
  fr_source : string
}.

Section Endpoint.
Variable now : Z.
Variable CACHE_TTL_HOURS : Z.
Variable created_at_default : Z.
Variable generate_uuid : nat -> string.
Variable ilike_contains : string -> string -> bool.
Variable strptime_ymd : string -> option Z.
Variable float_other : string -> option R.
(** The provider client ([None] when it was not initialised) and the
    pydantic models [LocationCreate] and [ForecastResponseDay]. *)
Variable weather_client : option (string -> Z -> option pyval).
Variable validate_location : LocationData -> Py.result LocationCreate.
Variable validate_response_day : WeatherForecast -> Py.result WeatherForecast.

(** Truthiness of the provider's answer: [None] and the empty dictionary
    are falsy. *)
Definition is_falsy (raw_data : option pyval) : bool :=
match raw_data with
| None => true
| Some (PDict []) => true
| Some _ => false
end.

Fixpoint response_days (rows : list WeatherForecast) : Py.result (list WeatherForecast) :=
match rows with
| [] => Py.Return []
| forecast :: rest =>
    day_data <<- validate_response_day forecast ;;
    forecast_days <<- response_days rest ;;
    Py.Return (day_data :: forecast_days)
end.

Definition respond (db0 db : WeatherDb) (location : Location)
    (forecasts_data : list WeatherForecast) (days : Z) (cached : bool)
  : WeatherDb * http ForecastResponse :=
match response_days (Py.slice_to forecasts_data days) with
| Py.Raise _ => (db0, HTTPException 500)
| Py.Return forecast_days =>
    (db, OK {| fr_location := location;
               fr_forecast := forecast_days;
               fr_cached := cached;
               fr_source := if cached then "cache" else "weatherapi.com" |})
end.

Definition fetch_fresh (db0 db : WeatherDb) (city : string) (days : Z)
  : WeatherDb * http ForecastResponse :=
match weather_client with
| None => (db0, HTTPException 503)
| Some get_forecast =>
    let raw_data := get_forecast city days in
    match raw_data with
    | None => (db0, HTTPException 404)
    | Some raw =>
        if is_falsy raw_data then (db0, HTTPException 404)
        else
          let parsed_data := parse_forecast_data float_other raw in
          match validate_location (pf_location parsed_data) with
          | Py.Raise _ => (db0, HTTPException 500)
          | Py.Return location_data =>
              match create_location generate_uuid ilike_contains db location_data with
              | (_, None) => (db0, HTTPException 500)
              | (db1, Some location) =>
                  let '(db2, forecasts_data) :=
                    create_forecasts created_at_default generate_uuid strptime_ymd
                      db0 db1 (loc_id location) (pf_forecast_days parsed_data)
                      "weatherapi" in
                  let '(db3, _) :=
                    delete_old_forecasts now CACHE_TTL_HOURS db2 (loc_id location) in
                  respond db0 db3 location forecasts_data days false
              end
          end
    end
end.

(** GET /api/weather?city=...&days=... *)
Definition get_weather_forecast (db0 : WeatherDb) (city : string) (days : Z)
  : WeatherDb * http ForecastResponse :=
if negb ((1 <=? days) && (days <=? 14))%Z then (db0, HTTPException 422)
else
  match get_location_by_city ilike_contains db0 city with
  | Some location =>
      match get_cached_forecast now CACHE_TTL_HOURS db0 (loc_id location) days with
      | Some cached_forecasts =>
          if (days <=? Z.of_nat (List.length cached_forecasts))%Z
          then respond db0 db0 location cached_forecasts days true
          else fetch_fresh db0 db0 city days
      | None => fetch_fresh db0 db0 city days
      end
  | None => fetch_fresh db0 db0 city days
  end.
End Endpoint.
End WeatherMain.

(** ** user_service/app/models.py, schemas.py and crud.py *)

Module UserCrud.

Record User : Type := mkUser {
  id : string;
  email : string;
  username : string;
  hashed_password : string;
  city : option string;
  country : option string;
  last_wash_date : option Z;
  preferred_wash_interval : Z;
  created_at : Z;
  updated_at : option Z
}.

Record UserCreate : Type := mkUserCreate {
  new_username : string;
  new_email : string;
  new_password : string;
  new_city : option string;
  new_country : option string;
  new_preferred_wash_interval : Z
}.

Section Env.
Variable now : Z.
Variable generate_uuid : nat -> string.
(** [hash_password]: the bcrypt hash drawn for a password ([None] when
    bcrypt raises). *)
Variable hash_password : string -> option string.

Definition get_user_by_username (users : list User) (name : string) : option User :=
match Db.scalar_one_or_none (filter (fun u => String.eqb (username u) name) users) with
| Py.Return user => user
| Py.Raise _ => None
end.

Definition get_user_by_email (users : list User) (address : string) : option User :=
match Db.scalar_one_or_none (filter (fun u => String.eqb (email u) address) users) with
| Py.Return user => user
| Py.Raise _ => None
end.

(** [id] is the primary key; [email] and [username] are unique columns. *)
Definition violates_unique (users : list User) (user : User) : bool :=
existsb (fun u => String.eqb (id u) (id user) ||
                  String.eqb (email u) (email user) ||
                  String.eqb (username u) (username user)) users.

(** [session.add(user); await session.commit()] *)
Definition add_and_commit (users : list User) (user : User) : Py.result (list User) :=
if violates_unique users user then Py.Raise Py.IntegrityError
else Py.Return (users ++ [user]).

Definition create_user (users : list User) (user_data : UserCreate)
  : list User * option User :=
match get_user_by_username users (new_username user_data) with
| Some _ => (users, None)
| None =>
    match get_user_by_email users (new_email user_data) with
    | Some _ => (users, None)
    | None =>
        match hash_password (new_password user_data) with
        | None => (users, None)
        | Some hashed =>
            let user :=
              {| id := generate_uuid (List.length users);
                 email := new_email user_data;
                 username := new_username user_data;
                 hashed_password := hashed;
                 city := new_city user_data;
                 country := new_country user_data;
                 last_wash_date := None;
                 preferred_wash_interval := new_preferred_wash_interval user_data;
                 created_at := Db.date_of now;
                 updated_at := None |} in
            match add_and_commit users user with
            | Py.Return users' => (users', Some user)
            | Py.Raise _ => (users, None)
            end
        end
    end
end.
End Env.
End UserCrud.

(** ** The scoring rules as the specification words them *)

Module ScoreSpec.
Local Open Scope R_scope.

Definition precip_subscore (p : option R) (s : R) : Prop :=
  match p with
  | None => s = 100
  | Some q => s = 100 * exp (-5 * q)
  end.

Definition temp_subscore (temp : option R) (s : R) : Prop :=
  match temp with
  | None => s = 50
  | Some t =>
      (15 <= t <= 22 /\ s = 100) \/
      ((10 <= t < 15 \/ 22 < t <= 25) /\ s = 80) \/
      ((5 <= t < 10 \/ 25 < t <= 30) /\ s = 60) \/
      (t < 5 /\ s = Rmax 0 (60 - (5 - t) * 10)) \/
      (30 < t /\ s = Rmax 0 (60 - (t - 30) * 10))
  end.

Definition wind_subscore (wind : option R) (s : R) : Prop :=
  match wind with
  | None => s = 100
  | Some w =>
      (w <= 15 /\ s = 100) \/
      (15 < w <= 25 /\ s = 80) \/
      (25 < w <= 35 /\ s = 50) \/
      (35 < w /\ s = 20)
  end.

Definition humidity_subscore (humidity : option Z) (s : R) : Prop :=
  match humidity with
  | None => s = 80
  | Some h =>
      ((40 <= h <= 60)%Z /\ s = 100) \/
      (((30 <= h < 40)%Z \/ (60 < h <= 70)%Z) /\ s = 80) \/
      (((20 <= h < 30)%Z \/ (70 < h <= 80)%Z) /\ s = 60) \/
      (((h < 20)%Z \/ (80 < h)%Z) /\ s = 40)
  end.

Definition penalty (rain_expected temperature_optimal wind_acceptable : bool) : R :=
  (if rain_expected then 40 else 0) +
  (if temperature_optimal then 0 else 20) +
  (if wind_acceptable then 0 else 20).

Definition clamp (x : R) : R := Rmax 0 (Rmin 100 x).

Definition weighted_total (ps ts ws hs pen : R) : R :=
  ps * 0.4 + ts * 0.3 + ws * 0.2 + hs * 0.1 - pen.
End ScoreSpec.

(** ** Best-day selection as the specification words it *)

Module BestDaySpec.
Import Advisor.
Local Open Scope R_scope.

(** The score of an analysed day (a missing score counts as 0). *)
Definition score_of (day : AnalyzedDay) : R :=
match ad_score day with
| Some s => s
| None => 0
end.

Definition at_least_60 (day : AnalyzedDay) : Prop :=
exists s, ad_score day = Some s /\ 60 <= s.

(** An analysed day as [analyze_weather_day] produces it: its date reads
    as a date and its score lies in [0,100]. *)
Definition well_formed (parse_date : string -> option Z) (day : AnalyzedDay) : Prop :=
(exists d, parse_date (ad_date day) = Some d) /\ 0 <= score_of day <= 100.
End BestDaySpec.

(** ** Sample data: one request against each service *)

Module Examples.
Import Http PyVal AdvisorSchemas AdvisorModels Advisor AdvisorCrud AdvisorMain.
Import WeatherClient WeatherModels WeatherCrud WeatherMain UserCrud.
Local Open Scope string_scope.

Definition uuid (n : nat) : string := "row-" ++ String (ascii_of_nat (48 + n)) "".
Definition no_format (x : R) : string := "".
Definition no_str (n : Z) : string := "".
Definition no_lower (s : string) : string := s.
Definition no_float (s : string) : option R := None.

(** 2024-01-20 is day 19742 of the epoch. *)
Definition iso_date (s : string) : option Z :=
if String.eqb s "2024-01-20" then Some 19742%Z
else if String.eqb s "2024-01-21" then Some 19743%Z
else None.
Definition iso_string (d : Z) : string :=
if (d =? 19742)%Z then "2024-01-20" else "2024-01-21".

(** Noon of 2024-01-20. *)
Definition noon : Z := (Db.midnight 19742 + 12 * Db.microseconds_per_hour)%Z.

(** *** Advisor: two analysed days below the threshold *)

Definition analysed (date : string) (score : R) (reason : string) : AnalyzedDay :=
{| ad_date := date;
   ad_temperature := Some 8%R;
   ad_precipitation_probability := Some 0.8%R;
   ad_precipitation_amount := None;
   ad_wind_speed := Some 20%R;
   ad_humidity := Some 85%Z;
   ad_weather_description := None;
   ad_is_rain_expected := true;
   ad_is_temperature_optimal := false;
   ad_is_wind_acceptable := true;
   ad_score := Some score;
   ad_reason := reason |}.

Definition day45 : AnalyzedDay := analysed "2024-01-20" 45%R "Плохие условия".
Definition day30 : AnalyzedDay := analysed "2024-01-21" 30%R "Очень плохие условия".

(** *** Advisor: a recommendation stored one hour ago *)

Definition stored_recommendation : WashRecommendation :=
{| wr_id := "rec-1";
   wr_user_id := "user-1";
   wr_location := "Moscow";
   wr_recommendation_date := 19743%Z;
   wr_temperature := Some 20%R;
   wr_precipitation_probability := Some 0.1%R;
   wr_precipitation_amount := None;
   wr_wind_speed := Some 10%R;
   wr_humidity := Some 50%Z;
   wr_weather_description := None;
   wr_score := Some 85%R;
   wr_is_recommended := true;
   wr_reason := Some "Отличные условия для мойки";
   wr_is_rain_expected := false;
   wr_is_temperature_optimal := true;
   wr_is_wind_acceptable := true;
   wr_days_since_last_wash := None;
   wr_is_interval_optimal := None;
   wr_created_at := (noon - Db.microseconds_per_hour)%Z;
   wr_expires_at := None |}.

Definition advisor_db : AdvisorDb :=
{| wash_recommendations := [stored_recommendation]; user_context := [] |}.

Definition user_service (user_id : string) : option UserInfo :=
Some {| ui_city := Some "Moscow";
        ui_country := Some "Russia";
        ui_last_wash_date := None;
        ui_preferred_wash_interval := 7 |}.

Definition no_weather (location : string) (days : Z) : option (list WeatherDay) := None.

Definition request : WashRecommendationRequest :=
{| req_user_id := "user-1"; req_days := 7; req_force_refresh := false |}.

Definition stored_day : WashRecommendationDay :=
{| rd_date := 19743%Z;
   rd_is_recommended := true;
   rd_score := 85%R;
   rd_temperature := Some 20%R;
   rd_precipitation_probability := Some 0.1%R;
   rd_wind_speed := Some 10%R;
   rd_reason := "Отличные условия для мойки";
   rd_factors := {| f_is_rain_expected := false;
                    f_is_temperature_optimal := true;
                    f_is_wind_acceptable := true;
                    f_humidity := Some 50%Z |} |}.

Definition sample_db_after : AdvisorDb :=
{| wash_recommendations := [stored_recommendation];
   user_context :=
     [{| uc_id := "row-0";
         uc_user_id := "user-1";
         uc_city := Some "Moscow";
         uc_country := Some "Russia";
         uc_last_wash_date := None;
         uc_preferred_wash_interval := 7;
         uc_last_sync := Some noon |}] |}.

Definition sample_response : WashRecommendationResponse :=
{| resp_user_id := "user-1";
   resp_location := "Moscow";
   resp_days_since_last_wash := None;
   resp_is_interval_optimal := None;
   resp_best_day := Some stored_day;
   resp_all_days := [stored_day];
   resp_cached := true |}.

(** *** Weather service: a location with two forecast rows written half an
    hour after midnight, read at noon *)

Definition no_fields : WeatherFields :=
{| temperature_min := PNone; temperature_max := PNone; temperature_avg := PNone;
   precipitation_probability := PNone; precipitation_amount := PNone;
   weather_code := PNone; weather_description := PNone; wind_speed := PNone;
   humidity := PNone; sunrise := PNone; sunset := PNone; raw_data := PNone |}.

Definition half_past_midnight : Z := (Db.midnight 19742 + 1800000000)%Z.

Definition forecast_row (row_id : string) (date : Z) : WeatherForecast :=
{| wf_id := row_id;
   wf_location_id := "loc-1";
   wf_date := date;
   wf_fields := no_fields;
   wf_forecast_source := "weatherapi";
   wf_is_cached := true;
   wf_created_at := half_past_midnight |}.

Definition moscow : Location :=
{| loc_id := "loc-1"; loc_city_name := "Moscow"; loc_country := Some "Russia";
   loc_lat := 55.7558%R; loc_lon := 37.6176%R |}.

Definition weather_db : WeatherDb :=
{| locations := [moscow];
   weather_forecasts := [forecast_row "f-1" 19742; forecast_row "f-2" 19743] |}.

Definition exact_city (stored asked : string) : bool := String.eqb stored asked.
Definition no_client : option (string -> Z -> option pyval) := None.
Definition any_location (l : LocationData) : Py.result LocationCreate :=
Py.Raise Py.ValidationError.
Definition any_day (f : WeatherForecast) : Py.result WeatherForecast := Py.Return f.

Definition weather_response : ForecastResponse :=
{| fr_location := moscow;
   fr_forecast := [forecast_row "f-1" 19742];
   fr_cached := true;
   fr_source := "cache" |}.

(** *** Weather service: one provider day, and the same day sent again *)

Definition provider_day : pyval :=
PDict [("date", PStr "2024-01-20");
       ("day", PDict [("avgtemp_c", PNum 20%R);
                      ("daily_chance_of_rain", PStr "60%")])].



Definition parsed_provider_day : DayData :=
{| dd_date := Some (PStr "2024-01-20");
   dd_fields :=
     {| temperature_min := PNone; temperature_max := PNone;
        temperature_avg := PNum 20%R;
        precipitation_probability := PNum (60 / 100)%R;
        precipitation_amount := PNum 0%R;
        weather_code := PNone; weather_description := PNone; wind_speed := PNone;
        humidity := PNone; sunrise := PNone; sunset := PNone;
        raw_data := provider_day |} |}.

Definition first_day : DayData :=
{| dd_date := Some (PStr "2024-01-20"); dd_fields := no_fields |}.


(** *** User service: one registered user *)

Definition bcrypt (password : string) : option string := Some "$2b$12$hash".

Definition alice : User :=
{| id := "user-1"; email := "alice@example.com"; username := "alice";
   hashed_password := "$2b$12$old"; city := Some "Moscow"; country := Some "Russia";
   last_wash_date := None; preferred_wash_interval := 7;
   created_at := 19000; updated_at := None |}.

Definition register (name address : string) : UserCreate :=
{| new_username := name; new_email := address; new_password := "secret1";
   new_city := None; new_country := Some "Unknown";
   new_preferred_wash_interval := 7 |}.
End Examples.

(** ** The rest of wash_advisor_service/app/crud.py and advisor.py *)

Module AdvisorRest.
Import AdvisorModels Advisor.

(** [get_user_recommendations]: the history of a user, newest first. *)
Definition get_user_recommendations (db : AdvisorDb) (user_id : string) (limit : Z)
  : list WashRecommendation :=
match Db.limit limit
        (Db.order_by_desc wr_created_at
           (filter (fun r => String.eqb (wr_user_id r) user_id)
              (wash_recommendations db))) with
| Py.Return recommendations => recommendations
| Py.Raise _ => []
end.

(** The days [find_best_wash_day] sorts: the acceptable ones, or all of
    them when none is acceptable. *)
Definition candidates (analyzed_days : list AnalyzedDay) : list AnalyzedDay :=
match filter is_acceptable analyzed_days with
| [] => analyzed_days
| acceptable_days => acceptable_days
end.

(** The record both [find_best_wash_day] and
    [generate_all_days_recommendations] build for a day whose date reads as
    [date] and whose score is valid. *)
Definition day_record (date : Z) (day : AnalyzedDay)
  : AdvisorSchemas.WashRecommendationDay :=
AdvisorSchemas.mkWashRecommendationDay date
  (Py.Rleb 60 (BestDaySpec.score_of day)) (BestDaySpec.score_of day)
  (ad_temperature day) (ad_precipitation_probability day) (ad_wind_speed day)
  (ad_reason day) (factors_of day).
End AdvisorRest.

(** ** The rest of weather_service/app/weather_client.py *)

Module WeatherClientRest.
Import PyVal WeatherClient.

(** Truthiness of a value. *)
Definition truthy (v : pyval) : bool :=
match v with
| PNone => false
| PBool b => b
| PNum x => negb (Py.Reqb x 0)
| PStr s => negb (String.eqb s EmptyString)
| PDate _ => true
| PList items => match items with [] => false | _ => true end
| PDict entries => match entries with [] => false | _ => true end
end.

(** [key in data] *)
Definition contains (key : string) (data : pyval) : Py.result bool :=
match data with
| PDict entries =>
    Py.Return (match lookup key entries with Some _ => true | None => false end)
| PList items =>
    Py.Return (existsb (fun v => match v with PStr s => String.eqb s key | _ => false end)
                 items)
| PStr s => Py.Return (Py.contains key s)
| _ => Py.Raise Py.TypeError
end.

(** [data[key]] for a string key *)
Definition getitem (data : pyval) (key : string) : Py.result pyval :=
match data with
| PDict entries =>
    match lookup key entries with
    | Some v => Py.Return v
    | None => Py.Raise Py.KeyError
    end
| _ => Py.Raise Py.TypeError
end.

Definition _validate_response (data : pyval) : Py.result bool :=
has_location <<- contains "location" data ;;
if negb has_location then Py.Return false
else
  has_forecast <<- contains "forecast" data ;;
  if negb has_forecast then Py.Return false
  else
    location <<- getitem data "location" ;;
    has_name <<- contains "name" location ;;
    if negb has_name then Py.Return false
    else
      forecast <<- getitem data "forecast" ;;
      has_days <<- contains "forecastday" forecast ;;
      if negb has_days then Py.Return false
      else
        forecast' <<- getitem data "forecast" ;;
        forecastday <<- getitem forecast' "forecastday" ;;
        if negb (truthy forecastday) then Py.Return false
        else Py.Return true.

(** What one request to the provider can come to: a response (its status
    and the result of [response.json()]), a timeout, a transport error,
    or any other exception. *)
Inductive outcome : Type :=
| Response (status_code : Z) (json : Py.result pyval)
| TimeoutException
| RequestError
| OtherException.

(** What a call of [get_forecast] did: its result, the number of requests
    it sent and the seconds it slept between them. *)
Record ForecastCall : Type := mkForecastCall {
  fc_result : option pyval;
  fc_requests : nat;
  fc_sleeps : list Z
}.

Section Client.
(** [self.api_key] and the outcome of the n-th request of the call. *)
Variable api_key : option string.
Variable provider : nat -> outcome.

Fixpoint get_forecast_loop (attempts : list Z) (requests : nat) (sleeps : list Z)
  : ForecastCall :=
match attempts with
| [] => mkForecastCall None requests sleeps
| attempt :: rest =>
    let sent := S requests in
    let retry :=
      if (attempt <? 2)%Z
      then get_forecast_loop rest sent (sleeps ++ [2 ^ attempt])%Z
      else get_forecast_loop rest sent sleeps in
    match provider requests with
    | Response status_code json =>
        if (status_code =? 200)%Z then
          match (data <<- json ;;
                 valid <<- _validate_response data ;;
                 Py.Return (data, valid)) with
          | Py.Return (data, true) => mkForecastCall (Some data) sent sleeps
          | Py.Return (_, false) => get_forecast_loop rest sent sleeps
          | Py.Raise _ => mkForecastCall None sent sleeps
          end
        else if (status_code =? 400)%Z || (status_code =? 401)%Z ||
                (status_code =? 403)%Z || (status_code =? 404)%Z
        then mkForecastCall None sent sleeps
        else if (attempt <? 2)%Z
        then get_forecast_loop rest sent (sleeps ++ [2 ^ attempt])%Z
        else mkForecastCall None sent sleeps
    | TimeoutException => retry
    | RequestError => retry
    | OtherException => mkForecastCall None sent sleeps
    end
end.

Definition get_forecast : ForecastCall :=
match api_key with
| None => mkForecastCall None O []
| Some key =>
    if String.eqb key EmptyString then mkForecastCall None O []
    else get_forecast_loop [0; 1; 2]%Z O []
end.
End Client.
End WeatherClientRest.

(** ** The rest of weather_service/app/crud.py and models.py *)

Module WeatherCrudRest.
Import WeatherModels.
Local Open Scope R_scope.

Definition get_location_by_id (db : WeatherDb) (location_id : string) : option Location :=
match Db.scalar_one_or_none
        (filter (fun l => String.eqb (loc_id l) location_id) (locations db)) with
| Py.Return location => location
| Py.Raise _ => None
end.

(** [requested_at] is a [Date] column: the day of the request. *)
Record ApiRequestLog : Type := mkApiRequestLog {
  al_id : string;
  al_location : string;
  al_requested_at : Z;
  al_endpoint : string;
  al_response_status : option Z;
  al_response_time_ms : option Z;
  al_was_cached : bool;
  al_error_message : option string
}.

Record RequestStats : Type := mkRequestStats {
  total_requests : Z;
  cached_requests : Z;
  error_requests : Z;
  cache_hit_rate : R;
  time_period_hours : Z
}.

Section Env.
Variable now : Z.
Variable generate_uuid : nat -> string.
(** [requested_at >= time_limit] as the database decides it for a [Date]
    column and a datetime bound: the driver settles whether the day
    stands for its midnight or the bound is cut to its day. *)
Variable at_or_after : Z -> Z -> bool.

Definition log_api_request (logs : list ApiRequestLog) (location endpoint : string)
    (response_status response_time_ms : option Z) (was_cached : bool)
    (error_message : option string)
  : list ApiRequestLog * option ApiRequestLog :=
let log :=
  {| al_id := generate_uuid (List.length logs);
     al_location := location;
     al_requested_at := Db.date_of now;
     al_endpoint := endpoint;
     al_response_status := response_status;
     al_response_time_ms := response_time_ms;
     al_was_cached := was_cached;
     al_error_message := error_message |} in
(logs ++ [log], Some log).

Definition in_period (time_limit : Z) (log : ApiRequestLog) : bool :=
at_or_after (al_requested_at log) time_limit.

Definition is_error (log : ApiRequestLog) : bool :=
match al_response_status log with
| Some status => (400 <=? status)%Z
| None => false
end.

Definition get_request_stats (logs : list ApiRequestLog) (hours : Z) : RequestStats :=
let time_limit := (now - Db.timedelta_hours hours)%Z in
let total_requests :=
  Z.of_nat (List.length (filter (in_period time_limit) logs)) in
let cached_requests :=
  Z.of_nat (List.length
              (filter (fun l => in_period time_limit l && Bool.eqb (al_was_cached l) true)
                 logs)) in
let error_requests :=
  Z.of_nat (List.length (filter (fun l => in_period time_limit l && is_error l) logs)) in
{| total_requests := total_requests;
   cached_requests := cached_requests;
   error_requests := error_requests;
   cache_hit_rate :=
     if (0 <? total_requests)%Z then IZR cached_requests / IZR total_requests else 0;
   time_period_hours := hours |}.
End Env.
End WeatherCrudRest.

(** ** The rest of user_service/app/crud.py, and main.py *)

Module UserRest.
Import Http UserCrud.

Section Env.
Variable now : Z.
Variable generate_uuid : nat -> string.
Variable hash_password : string -> option string.
(** [bcrypt.checkpw] on a password and a stored hash. *)
Variable checkpw : string -> string -> Py.result bool.

Definition verify_password (plain_password hashed : string) : bool :=
match checkpw plain_password hashed with
| Py.Return ok => ok
| Py.Raise _ => false
end.

Definition get_user_by_id (users : list User) (user_id : string) : option User :=
match Db.scalar_one_or_none (filter (fun u => String.eqb (id u) user_id) users) with
| Py.Return user => user
| Py.Raise _ => None
end.

Definition get_all_users (users : list User) : list User :=
Db.order_by_desc created_at users.

Definition authenticate_user (users : list User) (name password : string) : option User :=
match get_user_by_username users name with
| None => None
| Some user =>
    if negb (verify_password password (hashed_password user)) then None
    else Some user
end.

(** Assigning [last_wash_date] on the loaded row; the commit writes the
    row, and stamps [updated_at], only when the value changed. *)
Definition set_last_wash_date (wash_date : Z) (user : User) : User :=
if match last_wash_date user with
   | Some d => (d =? wash_date)%Z
   | None => false
   end
then user
else {| id := id user;
        email := email user;
        username := username user;
        hashed_password := hashed_password user;
        city := city user;
        country := country user;
        last_wash_date := Some wash_date;
        preferred_wash_interval := preferred_wash_interval user;
        created_at := created_at user;
        updated_at := Some (Db.date_of now) |}.

Definition update_last_wash_date (users : list User) (user_id : string) (wash_date : Z)
  : list User * bool :=
match get_user_by_id users user_id with
| None => (users, false)
| Some _ =>
    (map (fun u => if String.eqb (id u) user_id then set_last_wash_date wash_date u else u)
         users, true)
end.

(** *** The endpoints.  What is raised inside a handler's [try] is either
    an [HTTPException] or another exception. *)

Inductive raised : Type :=
| HTTPError (status_code : Z)
| Error (e : Py.exc).

(** [except Exception as e: raise HTTPException(500)] alone. *)
Definition except_exception {A : Type} (body : raised + A) : http A :=
match body with
| inl _ => HTTPException 500
| inr a => OK a
end.

(** [except HTTPException: raise] before [except Exception]. *)
Definition except_http_first {A : Type} (body : raised + A) : http A :=
match body with
| inl (HTTPError status_code) => HTTPException status_code
| inl (Error _) => HTTPException 500
| inr a => OK a
end.

Variable UserResponse : Type.
Variable from_orm : User -> Py.result UserResponse.
(** [create_access_token] for a username and a user id. *)
Variable create_access_token : string -> string -> Py.result string.

Definition respond_with (user : User) : raised + UserResponse :=
match from_orm user with
| Py.Return response => inr response
| Py.Raise e => inl (Error e)
end.

(** POST /api/users *)
Definition post_user (users : list User) (user_data : UserCreate)
  : list User * http UserResponse :=
let '(users', user) := create_user now generate_uuid hash_password users user_data in
(users',
 except_exception
   match user with
   | None => inl (HTTPError 400)
   | Some u => respond_with u
   end).

(** POST /api/auth/login *)
Definition login (users : list User) (name password : string) : http string :=
except_http_first
  match authenticate_user users name password with
  | None => inl (HTTPError 401)
  | Some user =>
      match create_access_token (username user) (id user) with
      | Py.Return token => inr token
      | Py.Raise e => inl (Error e)
      end
  end.

(** GET /api/users/{user_id} *)
Definition get_user (users : list User) (user_id : string) : http UserResponse :=
except_http_first
  match get_user_by_id users user_id with
  | None => inl (HTTPError 404)
  | Some user => respond_with user
  end.

(** PUT /api/users/{user_id}/wash-date, for the user the token names. *)
Definition update_wash_date (users : list User) (current_user_id user_id : string)
    (wash_date : Z) : list User * http UserResponse :=
if negb (String.eqb current_user_id user_id)
then (users, except_http_first (inl (HTTPError 403)))
else
  let '(users', success) := update_last_wash_date users user_id wash_date in
  (users',
   except_http_first
     (if negb success then inl (HTTPError 404)
      else
        match get_user_by_id users' user_id with
        | None => inl (Error Py.AttributeError)
        | Some user => respond_with user
        end)).
End Env.
End UserRest.

(** ** Sample data for the further properties *)

Module MoreExamples.
Import Http PyVal AdvisorSchemas AdvisorModels Advisor AdvisorCrud AdvisorMain.
Import WeatherClient WeatherModels WeatherCrud WeatherMain UserCrud Examples.
Import WeatherCrudRest.
Local Open Scope string_scope.

(** *** Advisor: a cold rainy day, and a forced request for it *)

Definition rainy_day : WeatherDay :=
{| wd_date := "2024-01-20";
   wd_temperature_avg := Some 8%R;
   wd_temperature := None;
   wd_precipitation_probability := Some 0.8%R;
   wd_precipitation_amount := None;
   wd_wind_speed := Some 20%R;
   wd_humidity := Some 85%Z;
   wd_weather_description := None |}.

Definition rainy_forecast (location : string) (days : Z) : option (list WeatherDay) :=
Some [rainy_day].

Definition forced_request : WashRecommendationRequest :=
{| req_user_id := "user-1"; req_days := 7; req_force_refresh := true |}.

Definition moscow_user : UserInfo :=
{| ui_city := Some "Moscow";
   ui_country := Some "Russia";
   ui_last_wash_date := None;
   ui_preferred_wash_interval := 7 |}.

Definition profile : UserContextData :=
{| cd_city := Some "Moscow";
   cd_country := Some "Russia";
   cd_last_wash_date := Some 19740%Z;
   cd_preferred_wash_interval := 7 |}.

(** *** Weather service: the provider response by its entries *)

Definition provider_forecast : list (string * pyval) :=
[("forecastday", PList [provider_day])].

Definition provider_entries : list (string * pyval) :=
[("location", PDict [("name", PStr "Moscow"); ("country", PStr "Russia")]);
 ("forecast", PDict provider_forecast)].

(** *** Weather service: cities *)

Definition london : LocationCreate :=
{| lc_city_name := "London"; lc_country := Some "UK"; lc_lat := 51.5%R; lc_lon := 0%R |}.

Definition moscow_again : LocationCreate :=
{| lc_city_name := "Moscow"; lc_country := Some "Russia";
   lc_lat := 55.7558%R; lc_lon := 37.6176%R |}.

Definition moscow_oblast : Location :=
{| loc_id := "loc-2"; loc_city_name := "Moscow Oblast"; loc_country := Some "Russia";
   loc_lat := 55.5%R; loc_lon := 37.5%R |}.

(** A case-sensitive stand-in for [ILIKE '%city%']. *)
Definition substring_city (stored asked : string) : bool := Py.contains asked stored.

Definition two_moscows : WeatherDb :=
{| locations := [moscow; moscow_oblast]; weather_forecasts := [] |}.

Definition no_forecasts : WeatherDb :=
{| locations := [moscow]; weather_forecasts := [] |}.

Definition undated_day : DayData := {| dd_date := None; dd_fields := no_fields |}.


(** *** Weather service: a provider that answers with three days *)

Definition iso_date3 (s : string) : option Z :=
if String.eqb s "2024-01-22" then Some 19744%Z else iso_date s.

Definition dated (date : string) : pyval := PDict [("date", PStr date)].

Definition three_day_response : pyval :=
PDict [("location", PDict [("name", PStr "Moscow"); ("country", PStr "Russia")]);
       ("forecast",
        PDict [("forecastday",
                PList [dated "2024-01-20"; dated "2024-01-21"; dated "2024-01-22"])])].

Definition generous_client : option (string -> Z -> option pyval) :=
Some (fun city days => Some three_day_response).

Definition named_location (l : LocationData) : Py.result LocationCreate :=
match ld_city_name l, ld_country l, ld_lat l, ld_lon l with
| PStr name, PStr country, PNum lat, PNum lon =>
    Py.Return {| lc_city_name := name; lc_country := Some country;
                 lc_lat := lat; lc_lon := lon |}
| _, _, _, _ => Py.Raise Py.ValidationError
end.

Definition sparse_fields (date : string) : WeatherFields :=
{| temperature_min := PNone; temperature_max := PNone; temperature_avg := PNone;
   precipitation_probability := PNum (0 / 100)%R; precipitation_amount := PNum 0%R;
   weather_code := PNone; weather_description := PNone; wind_speed := PNone;
   humidity := PNone; sunrise := PNone; sunset := PNone; raw_data := dated date |}.

Definition fresh_row (row_id : string) (date : Z) (date_str : string) : WeatherForecast :=
{| wf_id := row_id;
   wf_location_id := "loc-1";
   wf_date := date;
   wf_fields := sparse_fields date_str;
   wf_forecast_source := "weatherapi";
   wf_is_cached := true;
   wf_created_at := half_past_midnight |}.

Definition three_rows : list WeatherForecast :=
[fresh_row "row-0" 19742 "2024-01-20"; fresh_row "row-1" 19743 "2024-01-21";
 fresh_row "row-2" 19744 "2024-01-22"].

Definition two_day_answer : ForecastResponse :=
{| fr_location := moscow;
   fr_forecast := [fresh_row "row-0" 19742 "2024-01-20"; fresh_row "row-1" 19743 "2024-01-21"];
   fr_cached := false;
   fr_source := "weatherapi.com" |}.

(** *** Weather service: two logged requests of 2024-01-20 *)

Definition logged (row_id : string) (status : Z) (was_cached : bool) : ApiRequestLog :=
{| al_id := row_id;
   al_location := "Moscow";
   al_requested_at := 19742%Z;
   al_endpoint := "/api/weather";
   al_response_status := Some status;
   al_response_time_ms := None;
   al_was_cached := was_cached;
   al_error_message := None |}.

Definition sample_logs : list ApiRequestLog :=
[logged "log-1" 200 true; logged "log-2" 404 false].

(** The comparison when the bound is cut to its day. *)
Definition day_at_or_after (day time_limit : Z) : bool :=
(Db.date_of time_limit <=? day)%Z.

(** *** User service: bob, registered after alice *)

Definition bob : User :=
{| id := "row-1"; email := "bob@example.com"; username := "bob";
   hashed_password := "$2b$12$hash"; city := None; country := Some "Unknown";
   last_wash_date := None; preferred_wash_interval := 7;
   created_at := Db.date_of noon; updated_at := None |}.

Definition accepts_secret1 (password hashed : string) : Py.result bool :=
Py.Return (String.eqb password "secret1").
End MoreExamples.

(** * Proofs *)

Section PyFacts.
Local Open Scope R_scope.

Lemma Rleb_true (a b : R) : Py.Rleb a b = true <-> a <= b.
Proof. unfold Py.Rleb; destruct (Rle_dec a b); split; intros; try easy; lra. Qed.

Lemma Rleb_false (a b : R) : Py.Rleb a b = false <-> b < a.
Proof. unfold Py.Rleb; destruct (Rle_dec a b); split; intros; try easy; lra. Qed.

Lemma Rltb_true (a b : R) : Py.Rltb a b = true <-> a < b.
Proof. unfold Py.Rltb; destruct (Rlt_dec a b); split; intros; try easy; lra. Qed.

Lemma Rltb_false (a b : R) : Py.Rltb a b = false <-> b <= a.
Proof. unfold Py.Rltb; destruct (Rlt_dec a b); split; intros; try easy; lra. Qed.

Lemma py_max_Rmax (a b : R) : Py.max a b = Rmax a b.
Proof.
  unfold Py.max, Py.Rltb, Rmax.
  destruct (Rlt_dec a b), (Rle_dec a b); try reflexivity; lra.
Qed.

Lemma py_min_Rmin (a b : R) : Py.min a b = Rmin a b.
Proof.
  unfold Py.min, Py.Rltb, Rmin.
  destruct (Rlt_dec b a), (Rle_dec a b); try reflexivity; lra.
Qed.

Lemma clamp_bounds (x : R) : 0 <= ScoreSpec.clamp x <= 100.
Proof.
  unfold ScoreSpec.clamp, Rmax, Rmin.
  destruct (Rle_dec 100 x); destruct (Rle_dec 0 _); lra.
Qed.
End PyFacts.

Ltac conjs := repeat match goal with |- _ /\ _ => split end.

(** ** The per-day score *)

Section ScoreProofs.
Import Advisor.
Local Open Scope R_scope.

Ltac split_bools :=
  repeat match goal with
  | H : andb _ _ = true |- _ => apply andb_true_iff in H; destruct H
  | H : andb _ _ = false |- _ => apply andb_false_iff in H
  | H : orb _ _ = true |- _ => apply orb_true_iff in H
  | H : orb _ _ = false |- _ => apply orb_false_iff in H; destruct H
  | H : Py.Rleb _ _ = true |- _ => apply Rleb_true in H
  | H : Py.Rleb _ _ = false |- _ => apply Rleb_false in H
  | H : Py.Rltb _ _ = true |- _ => apply Rltb_true in H
  | H : Py.Rltb _ _ = false |- _ => apply Rltb_false in H
  end.

Lemma temp_score_of_spec (temp : option R) :
  ScoreSpec.temp_subscore temp (temp_score_of temp).
Proof.
  destruct temp as [t|]; simpl; [|reflexivity].
  destruct (Py.Rleb 15 t && Py.Rleb t 22) eqn:E1.
  { split_bools. left. split; [lra | reflexivity]. }
  destruct ((Py.Rleb 10 t && Py.Rltb t 15) || (Py.Rltb 22 t && Py.Rleb t 25)) eqn:E2.
  { split_bools. right; left. split; [|reflexivity].
    destruct E2 as [E2|E2]; split_bools; lra. }
  destruct ((Py.Rleb 5 t && Py.Rltb t 10) || (Py.Rltb 25 t && Py.Rleb t 30)) eqn:E3.
  { split_bools. right; right; left. split; [|reflexivity].
    destruct E3 as [E3|E3]; split_bools; lra. }
  destruct (Py.Rltb t 5) eqn:E4.
  { split_bools. right; right; right; left. rewrite py_max_Rmax. split; [lra | reflexivity]. }
  right; right; right; right. rewrite py_max_Rmax. split; [|reflexivity].
  split_bools.
  destruct E1 as [E1|E1], H as [H|H], H1 as [H1|H1], H0 as [H0|H0], H2 as [H2|H2];
    split_bools; lra.
Qed.

Lemma wind_score_of_spec (wind : option R) :
  ScoreSpec.wind_subscore wind (wind_score_of wind).
Proof.
  destruct wind as [w|]; simpl; [|reflexivity].
  destruct (Py.Rleb w 15) eqn:E1; [split_bools; left; split; [lra | reflexivity]|].
  destruct (Py.Rleb w 25) eqn:E2; [split_bools; right; left; split; [lra | reflexivity]|].
  destruct (Py.Rleb w 35) eqn:E3; split_bools.
  - right; right; left; split; [lra | reflexivity].
  - right; right; right; split; [lra | reflexivity].
Qed.

Lemma humidity_score_of_spec (humidity : option Z) :
  ScoreSpec.humidity_subscore humidity (humidity_score_of humidity).
Proof.
  destruct humidity as [h|]; simpl; [|reflexivity].
  destruct ((40 <=? h) && (h <=? 60))%Z eqn:E1.
  { left; split; [lia | reflexivity]. }
  destruct (((30 <=? h) && (h <? 40)) || ((60 <? h) && (h <=? 70)))%Z eqn:E2.
  { right; left; split; [lia | reflexivity]. }
  destruct (((20 <=? h) && (h <? 30)) || ((70 <? h) && (h <=? 80)))%Z eqn:E3.
  { right; right; left; split; [lia | reflexivity]. }
  right; right; right; split; [lia | reflexivity].
Qed.

Lemma exp_returns (x : R) : x <= Py.EXP_MAX -> Py.exp x = Py.Return (exp x).
Proof.
  intros H. unfold Py.exp.
  replace (Py.Rltb Py.EXP_MAX x) with false by (symmetry; apply Rltb_false; exact H).
  reflexivity.
Qed.

Lemma exp_raises (x : R) : Py.EXP_MAX < x -> Py.exp x = Py.Raise Py.OverflowError.
Proof.
  intros H. unfold Py.exp.
  replace (Py.Rltb Py.EXP_MAX x) with true by (symmetry; apply Rltb_true; exact H).
  reflexivity.
Qed.

Lemma precip_score_of_spec (p : option R) (s : R) :
  precip_score_of p = Py.Return s -> ScoreSpec.precip_subscore p s.
Proof.
  destruct p as [q|]; simpl.
  - unfold Py.exp. destruct (Py.Rltb Py.EXP_MAX (-5 * q)); simpl; [discriminate|].
    intros H. inversion H. reflexivity.
  - intros H. inversion H. reflexivity.
Qed.

(** The precipitation sub-score where [math.exp] does not overflow. *)
Lemma precip_score_of_returns (p : option R) :
  (forall q, p = Some q -> -5 * q <= Py.EXP_MAX) ->
  precip_score_of p
  = Py.Return (match p with Some q => 100 * exp (-5 * q) | None => 100 end).
Proof.
  intros H. destruct p as [q|]; simpl; [|reflexivity].
  rewrite exp_returns by (apply H; reflexivity). reflexivity.
Qed.

Lemma penalty_spec (rain topt wacc : bool) :
  (let penalty := 0 in
   let penalty := if rain then penalty + 40 else penalty in
   let penalty := if negb topt then penalty + 20 else penalty in
   let penalty := if negb wacc then penalty + 20 else penalty in
   penalty) = ScoreSpec.penalty rain topt wacc.
Proof. unfold ScoreSpec.penalty; destruct rain, topt, wacc; simpl; lra. Qed.

(** Where [math.exp] does not overflow, the score is the clamp of the
    weighted sub-scores less the penalty. *)
Lemma calculate_score_clamp
    (temp precip_prob wind_speed : option R) (humidity : option Z)
    (is_rain_expected is_temperature_optimal is_wind_acceptable : bool) :
  (forall q, precip_prob = Some q -> -5 * q <= Py.EXP_MAX) ->
  _calculate_score temp precip_prob wind_speed humidity
    is_rain_expected is_temperature_optimal is_wind_acceptable =
  Py.Return
    (ScoreSpec.clamp
       (ScoreSpec.weighted_total
          (match precip_prob with Some q => 100 * exp (-5 * q) | None => 100 end)
          (temp_score_of temp) (wind_score_of wind_speed)
          (humidity_score_of humidity)
          (ScoreSpec.penalty is_rain_expected is_temperature_optimal
             is_wind_acceptable))).
Proof.
  intros Hp. unfold _calculate_score.
  rewrite (precip_score_of_returns precip_prob Hp). cbn [Py.bind].
  rewrite py_max_Rmax, py_min_Rmin.
  unfold ScoreSpec.clamp, ScoreSpec.weighted_total.
  rewrite <- penalty_spec. cbv zeta.
  unfold AdvisorSettings.WEIGHT_PRECIPITATION, AdvisorSettings.WEIGHT_TEMPERATURE,
    AdvisorSettings.WEIGHT_WIND, AdvisorSettings.WEIGHT_HUMIDITY.
  reflexivity.
Qed.

(** Where it overflows, the exception leaves the function. *)
Lemma calculate_score_overflow
    (temp precip_prob wind_speed : option R) (humidity : option Z)
    (is_rain_expected is_temperature_optimal is_wind_acceptable : bool) (q : R) :
  precip_prob = Some q -> Py.EXP_MAX < -5 * q ->
  _calculate_score temp precip_prob wind_speed humidity
    is_rain_expected is_temperature_optimal is_wind_acceptable
  = Py.Raise Py.OverflowError.
Proof.
  intros -> Hq. unfold _calculate_score, precip_score_of.
  rewrite (exp_raises _ Hq). reflexivity.
Qed.

(** The banded definitions determine each sub-score. *)
Lemma temp_subscore_functional (temp : option R) (s1 s2 : R) :
  ScoreSpec.temp_subscore temp s1 -> ScoreSpec.temp_subscore temp s2 -> s1 = s2.
Proof.
  destruct temp as [t|]; simpl; [|congruence].
  intros [[? ?]|[[? ?]|[[? ?]|[[? ?]|[? ?]]]]] [[? ?]|[[? ?]|[[? ?]|[[? ?]|[? ?]]]]];
    subst; try reflexivity; exfalso;
    repeat match goal with H : _ \/ _ |- _ => destruct H end; lra.
Qed.

Lemma wind_subscore_functional (wind : option R) (s1 s2 : R) :
  ScoreSpec.wind_subscore wind s1 -> ScoreSpec.wind_subscore wind s2 -> s1 = s2.
Proof.
  destruct wind as [w|]; simpl; [|congruence].
  intros [[? ?]|[[? ?]|[[? ?]|[? ?]]]] [[? ?]|[[? ?]|[[? ?]|[? ?]]]];
    subst; try reflexivity; exfalso; lra.
Qed.

Lemma humidity_subscore_functional (humidity : option Z) (s1 s2 : R) :
  ScoreSpec.humidity_subscore humidity s1 -> ScoreSpec.humidity_subscore humidity s2 ->
  s1 = s2.
Proof.
  destruct humidity as [h|]; simpl; [|congruence].
  intros [[? ?]|[[? ?]|[[? ?]|[? ?]]]] [[? ?]|[[? ?]|[[? ?]|[? ?]]]];
    subst; try reflexivity; exfalso; lia.
Qed.

Lemma precip_subscore_functional (p : option R) (s1 s2 : R) :
  ScoreSpec.precip_subscore p s1 -> ScoreSpec.precip_subscore p s2 -> s1 = s2.
Proof. destruct p; simpl; congruence. Qed.

(** C1: wherever [math.exp] does not overflow (the precipitation
    probability is absent, or -5 times it is at most 709.78...: the
    probability is at least about -141.96), the per-day score is returned
    and is the clamp to [0,100] of the weighted sum of the four sub-scores
    (precipitation times 0.4, temperature times 0.3, wind times 0.2,
    humidity times 0.1, each as the banded definitions give it, with
    defaults 100/50/100/80) minus the additive penalty (40 for expected
    rain, 20 for a non-optimal temperature, 20 for unacceptable wind); in
    particular it lies in [0,100].  For a lower probability no score is
    returned: the call raises OverflowError. *)
Theorem calculate_score_spec
    (temp precip_prob wind_speed : option R) (humidity : option Z)
    (is_rain_expected is_temperature_optimal is_wind_acceptable : bool) :
  let result := _calculate_score temp precip_prob wind_speed humidity
                  is_rain_expected is_temperature_optimal is_wind_acceptable in
  (exists ps ts ws hs : R,
      ScoreSpec.precip_subscore precip_prob ps /\
      ScoreSpec.temp_subscore temp ts /\
      ScoreSpec.wind_subscore wind_speed ws /\
      ScoreSpec.humidity_subscore humidity hs) /\
  ((forall q, precip_prob = Some q -> -5 * q <= Py.EXP_MAX) ->
   exists score,
     result = Py.Return score /\
     (forall ps ts ws hs : R,
        ScoreSpec.precip_subscore precip_prob ps ->
        ScoreSpec.temp_subscore temp ts ->
        ScoreSpec.wind_subscore wind_speed ws ->
        ScoreSpec.humidity_subscore humidity hs ->
        score = ScoreSpec.clamp
                  (ScoreSpec.weighted_total ps ts ws hs
                     (ScoreSpec.penalty is_rain_expected is_temperature_optimal
                        is_wind_acceptable))) /\
     0 <= score <= 100) /\
  (forall q, precip_prob = Some q -> Py.EXP_MAX < -5 * q ->
             result = Py.Raise Py.OverflowError).
Proof.
  intros result.
  assert (Hps : ScoreSpec.precip_subscore precip_prob
                  (match precip_prob with Some q => 100 * exp (-5 * q) | None => 100 end))
    by (destruct precip_prob; reflexivity).
  split; [|split].
  - exists (match precip_prob with Some q => 100 * exp (-5 * q) | None => 100 end),
      (temp_score_of temp), (wind_score_of wind_speed), (humidity_score_of humidity).
    repeat split; auto using temp_score_of_spec, wind_score_of_spec, humidity_score_of_spec.
  - intros Hrange.
    assert (Hs := calculate_score_clamp temp precip_prob wind_speed humidity
                    is_rain_expected is_temperature_optimal is_wind_acceptable Hrange).
    fold result in Hs. eexists. split; [exact Hs|]. split; [|apply clamp_bounds].
    intros ps ts ws hs Hp Ht Hw Hh.
    rewrite (precip_subscore_functional _ _ _ Hp Hps).
    rewrite (temp_subscore_functional _ _ _ Ht (temp_score_of_spec temp)).
    rewrite (wind_subscore_functional _ _ _ Hw (wind_score_of_spec wind_speed)).
    rewrite (humidity_subscore_functional _ _ _ Hh (humidity_score_of_spec humidity)).
    reflexivity.
  - intros q Hq Hover. subst result. apply (calculate_score_overflow _ _ _ _ _ _ _ q Hq Hover).
Qed.

(** A precipitation probability of -200: the banded definitions still
    give a precipitation sub-score, but the code returns no score at
    all. *)
Lemma calculate_score_overflow_counterexample :
  ScoreSpec.precip_subscore (Some (-200)) (100 * exp (-5 * -200)) /\
  _calculate_score (Some 20) (Some (-200)) (Some 10) (Some 50%Z) false true true
  = Py.Raise Py.OverflowError.
Proof.
  split; [reflexivity|].
  apply (calculate_score_overflow _ _ _ _ _ _ _ (-200)); [reflexivity|].
  unfold Py.EXP_MAX. lra.
Qed.
End ScoreProofs.

(** ** Queries: ordering and limits *)

Section DbFacts.
Context {A : Type}.
Variable key : A -> Z.

Lemma insert_desc_In (x a : A) (l : list A) :
  In x (Db.insert_desc key a l) <-> x = a \/ In x l.
Proof.
  induction l as [|y l IH]; simpl.
  - intuition.
  - destruct (key a <? key y)%Z; simpl; rewrite ?IH; intuition.
Qed.

Lemma order_by_desc_In (x : A) (l : list A) :
  In x (Db.order_by_desc key l) <-> In x l.
Proof.
  induction l as [|a l IH]; simpl; [tauto|].
  unfold Db.order_by_desc in *. simpl.
  rewrite insert_desc_In, IH. intuition.
Qed.

(** The first row of a descending order has the greatest key. *)
Lemma insert_desc_head (a : A) (l : list A) :
  (forall h, hd_error l = Some h -> forall x, In x l -> (key x <= key h)%Z) ->
  forall h, hd_error (Db.insert_desc key a l) = Some h ->
  forall x, In x (Db.insert_desc key a l) -> (key x <= key h)%Z.
Proof.
  intros Hl h Hh x Hx. apply insert_desc_In in Hx.
  destruct l as [|y l]; simpl in *.
  - inversion Hh; subst. destruct Hx as [->|[]]. lia.
  - specialize (Hl y eq_refl).
    destruct (key a <? key y)%Z eqn:E; simpl in Hh; inversion Hh; subst.
    + apply Z.ltb_lt in E. destruct Hx as [->|Hx]; [lia | apply Hl; exact Hx].
    + apply Z.ltb_ge in E. destruct Hx as [->|Hx]; [lia|].
      specialize (Hl x Hx). lia.
Qed.

Lemma order_by_desc_head (l : list A) (h : A) :
  hd_error (Db.order_by_desc key l) = Some h ->
  In h l /\ forall x, In x l -> (key x <= key h)%Z.
Proof.
  intros Hh. split.
  - apply order_by_desc_In. destruct (Db.order_by_desc key l); inversion Hh; subst.
    now left.
  - intros x Hx. apply order_by_desc_In in Hx. revert h Hh x Hx.
    induction l as [|a l IH]; simpl.
    + intros h Hh; inversion Hh.
    + unfold Db.order_by_desc in *. simpl. apply insert_desc_head. exact IH.
Qed.

Lemma order_by_desc_nil (l : list A) :
  Db.order_by_desc key l = [] -> l = [].
Proof.
  destruct l as [|a l]; [reflexivity|]. intros H.
  assert (Hin : In a (Db.order_by_desc key (a :: l))) by (apply order_by_desc_In; now left).
  rewrite H in Hin. destruct Hin.
Qed.
End DbFacts.

(** ** The recommendation cache *)

Section CacheProofs.
Import AdvisorSettings AdvisorModels AdvisorCrud.
Variable now : Z.

Lemma limit_one_head {A : Type} (rows : list A) :
  (rows0 <<- Db.limit 1 rows ;; Db.scalar_one_or_none rows0) = Py.Return (hd_error rows).
Proof. destruct rows as [|a [|b rows]]; reflexivity. Qed.

Lemma get_cached_recommendation_head (db : AdvisorDb) (user_id location : string) (days : Z) :
  get_cached_recommendation now db user_id location days =
  hd_error (Db.order_by_desc wr_created_at
              (filter (cache_filter (now - Db.timedelta_hours CACHE_RECOMMENDATION_HOURS)
                         user_id location)
                 (wash_recommendations db))).
Proof. unfold get_cached_recommendation. rewrite limit_one_head. reflexivity. Qed.

Lemma cache_filter_true (limit : Z) (user_id location : string) (r : WashRecommendation) :
  cache_filter limit user_id location r = true <->
  wr_user_id r = user_id /\ wr_location r = location /\
  (limit <= wr_created_at r)%Z /\ wr_is_recommended r = true.
Proof.
  unfold cache_filter. rewrite !andb_true_iff, !String.eqb_eq, Z.leb_le, Bool.eqb_true_iff.
  tauto.
Qed.

(** A cache hit is a stored row of the user and location, inside the
    window and flagged recommended. *)
Lemma get_cached_recommendation_sound (db : AdvisorDb) (user_id location : string)
    (days : Z) (r : WashRecommendation) :
  get_cached_recommendation now db user_id location days = Some r ->
  In r (wash_recommendations db) /\
  cache_filter (now - Db.timedelta_hours CACHE_RECOMMENDATION_HOURS) user_id location r = true.
Proof.
  rewrite get_cached_recommendation_head. intros H.
  apply order_by_desc_head in H. destruct H as [H _].
  apply filter_In in H. exact H.
Qed.

(** C4: the cache lookup returns the most recent stored recommendation of
    the user and location that was created within the cache window (24
    hours before now) and is flagged recommended, and nothing when no row
    qualifies; a row that is not flagged recommended is never returned. *)
Theorem get_cached_recommendation_spec
    (db : AdvisorDb) (user_id location : string) (days : Z) :
  let cache_limit := (now - Db.timedelta_hours CACHE_RECOMMENDATION_HOURS)%Z in
  let qualifies r :=
    wr_user_id r = user_id /\ wr_location r = location /\
    (cache_limit <= wr_created_at r)%Z /\ wr_is_recommended r = true in
  CACHE_RECOMMENDATION_HOURS = 24%Z /\
  match get_cached_recommendation now db user_id location days with
  | Some r =>
      In r (wash_recommendations db) /\ qualifies r /\
      forall r', In r' (wash_recommendations db) -> qualifies r' ->
                 (wr_created_at r' <= wr_created_at r)%Z
  | None =>
      forall r', In r' (wash_recommendations db) -> ~ qualifies r'
  end.
Proof.
  intros cache_limit qualifies. split; [reflexivity|].
  rewrite get_cached_recommendation_head.
  destruct (hd_error _) as [r|] eqn:H.
  - apply order_by_desc_head in H. destruct H as [Hin Hmax].
    apply filter_In in Hin. destruct Hin as [Hin Hq].
    split; [exact Hin|]. split; [apply cache_filter_true; exact Hq|].
    intros r' Hin' Hq'. apply Hmax. apply filter_In. split; [exact Hin'|].
    apply cache_filter_true. exact Hq'.
  - intros r' Hin' Hq'.
    assert (Hnil : Db.order_by_desc wr_created_at
              (filter (cache_filter cache_limit user_id location)
                 (wash_recommendations db)) = []).
    { destruct (Db.order_by_desc _ _); [reflexivity | discriminate H]. }
    apply order_by_desc_nil in Hnil.
    assert (Hf : In r' (filter (cache_filter cache_limit user_id location)
                          (wash_recommendations db))).
    { apply filter_In. split; [exact Hin'|]. apply cache_filter_true. exact Hq'. }
    rewrite Hnil in Hf. destruct Hf.
Qed.
End CacheProofs.

(** ** POST /api/recommendations served from the cache *)

Section AdvisorEndpointProofs.
Import Http AdvisorSettings AdvisorSchemas AdvisorModels Advisor AdvisorCrud AdvisorMain.
Variable now : Z.
Variable generate_uuid : nat -> string.
Variable fmt0f : R -> string.
Variable str_int : Z -> string.
Variable lower : string -> string.
Variable parse_date : string -> option Z.
Variable fromisoformat : string -> option Z.
Variable isoformat : Z -> string.
Variable get_user_info : string -> option UserInfo.
Variable get_weather_forecast : string -> Z -> option (list WeatherDay).

(** C9: a response served from the cache lists exactly one day, the day
    built from the cached row, and that day is also its best day: the
    cache lookup only returns rows flagged recommended, so [best_day] is
    never absent on a cache hit. *)
Theorem cache_hit_response
    (db0 db : AdvisorDb) (request : WashRecommendationRequest)
    (resp : WashRecommendationResponse) :
  get_wash_recommendation now generate_uuid fmt0f str_int lower parse_date
    fromisoformat isoformat get_user_info get_weather_forecast db0 request
    = (db, OK resp) ->
  resp_cached resp = true ->
  exists cached_rec cached_day,
    get_cached_recommendation now db (req_user_id request) (resp_location resp)
      (req_days request) = Some cached_rec /\
    wr_is_recommended cached_rec = true /\
    cached_day_of cached_rec = Py.Return cached_day /\
    rd_date cached_day = wr_recommendation_date cached_rec /\
    resp_all_days resp = [cached_day] /\
    resp_best_day resp = Some cached_day.
Proof.
  unfold get_wash_recommendation.
  destruct (get_user_info (req_user_id request)) as [user_info|]; [|discriminate].
  destruct (ui_city user_info) as [location|]; [|discriminate].
  destruct (String.eqb location EmptyString); [discriminate|].
  destruct (create_or_update_user_context _ _ _ _ _ _) as [db1 user_context].
  destruct (negb (req_force_refresh request)).
  - destruct (get_cached_recommendation now db1 (req_user_id request) location
                (req_days request)) as [cached_rec|] eqn:Hc.
    + destruct (cached_day_of cached_rec) as [cached_day|e] eqn:Hd; [|discriminate].
      intros H _. inversion H; subst; clear H. simpl.
      pose proof (get_cached_recommendation_sound _ _ _ _ _ _ Hc) as [_ Hq].
      apply cache_filter_true in Hq. destruct Hq as (_ & _ & _ & Hrec).
      exists cached_rec, cached_day. rewrite Hrec.
      repeat split; try assumption; try reflexivity.
      unfold cached_day_of, new_WashRecommendationDay in Hd.
      destruct (wr_score cached_rec); [|discriminate].
      destruct (_ && _); inversion Hd; reflexivity.
    + destruct (get_weather_forecast _ _); [|discriminate].
      destruct (fresh_recommendation _ _ _ _ _ _ _ _ _ _ _ _ _) as [[[? ?] ?]|]; [|discriminate].
      intros H Hcached. inversion H; subst. discriminate Hcached.
  - destruct (get_weather_forecast _ _); [|discriminate].
    destruct (fresh_recommendation _ _ _ _ _ _ _ _ _ _ _ _ _) as [[[? ?] ?]|]; [|discriminate].
    intros H Hcached. inversion H; subst. discriminate Hcached.
Qed.
End AdvisorEndpointProofs.

(** ** GET /api/weather: the size of the forecast list *)

Section WeatherEndpointProofs.
Import Http PyVal WeatherClient WeatherModels WeatherCrud WeatherMain.
Variable now : Z.
Variable CACHE_TTL_HOURS : Z.
Variable created_at_default : Z.
Variable generate_uuid : nat -> string.
Variable ilike_contains : string -> string -> bool.
Variable strptime_ymd : string -> option Z.
Variable float_other : string -> option R.
Variable weather_client : option (string -> Z -> option pyval).
Variable validate_location : LocationData -> Py.result LocationCreate.
Variable validate_response_day : WeatherForecast -> Py.result WeatherForecast.

Lemma slice_to_firstn {A : Type} (xs : list A) (n : Z) :
  (0 <= n)%Z -> Py.slice_to xs n = firstn (Z.to_nat n) xs.
Proof. intros Hn. unfold Py.slice_to. apply Z.leb_le in Hn. now rewrite Hn. Qed.

Lemma response_days_length (rows out : list WeatherForecast) :
  response_days validate_response_day rows = Py.Return out ->
  List.length out = List.length rows.
Proof.
  revert out. induction rows as [|r rows IH]; simpl; intros out H.
  - inversion H. reflexivity.
  - destruct (validate_response_day r); simpl in H; [|discriminate].
    destruct (response_days validate_response_day rows) as [l|]; simpl in H; [|discriminate].
    inversion H. simpl. f_equal. now apply IH.
Qed.

Lemma response_days_rows (rows out : list WeatherForecast) :
  response_days validate_response_day rows = Py.Return out ->
  Forall2 (fun row entry => validate_response_day row = Py.Return entry) rows out.
Proof.
  revert out. induction rows as [|r rows IH]; simpl; intros out H.
  - inversion H. constructor.
  - destruct (validate_response_day r) as [entry|] eqn:Hr; simpl in H; [|discriminate].
    destruct (response_days validate_response_day rows) as [l|]; simpl in H; [|discriminate].
    inversion H. constructor; [exact Hr | now apply IH].
Qed.

Lemma respond_truncates (db0 db db' : WeatherDb) (location : Location)
    (forecasts_data : list WeatherForecast) (days : Z) (cached : bool)
    (resp : ForecastResponse) :
  (0 <= days)%Z ->
  respond validate_response_day db0 db location forecasts_data days cached = (db', OK resp) ->
  fr_cached resp = cached /\ fr_location resp = location /\
  response_days validate_response_day (firstn (Z.to_nat days) forecasts_data)
    = Py.Return (fr_forecast resp).
Proof.
  intros Hd. unfold respond. rewrite (slice_to_firstn _ _ Hd).
  destruct (response_days _ _) as [out|]; [|discriminate].
  intros H. inversion H. repeat split; reflexivity.
Qed.

(** A fresh answer is built from the rows that the upsert of the
    provider's days returned. *)
Lemma fetch_fresh_truncates (db0 db db' : WeatherDb) (city : string) (days : Z)
    (resp : ForecastResponse) :
  (0 <= days)%Z ->
  fetch_fresh now CACHE_TTL_HOURS created_at_default generate_uuid ilike_contains
    strptime_ymd float_other weather_client validate_location validate_response_day
    db0 db city days = (db', OK resp) ->
  exists get_forecast raw location_data db1 location,
    weather_client = Some get_forecast /\
    get_forecast city days = Some raw /\
    validate_location (pf_location (parse_forecast_data float_other raw))
    = Py.Return location_data /\
    create_location generate_uuid ilike_contains db location_data = (db1, Some location) /\
    fr_cached resp = false /\ fr_location resp = location /\
    response_days validate_response_day
      (firstn (Z.to_nat days)
         (snd (create_forecasts created_at_default generate_uuid strptime_ymd db0 db1
                 (loc_id location)
                 (pf_forecast_days (parse_forecast_data float_other raw)) "weatherapi")))
    = Py.Return (fr_forecast resp).
Proof.
  intros Hd. unfold fetch_fresh.
  destruct weather_client as [get_forecast|]; [|discriminate].
  destruct (get_forecast city days) as [raw|] eqn:Hraw; [|discriminate].
  destruct (is_falsy (Some raw)); [discriminate|].
  destruct (validate_location _) as [location_data|] eqn:Hvalid; [|discriminate].
  destruct (create_location _ _ _ _) as [db1 [location|]] eqn:Hlocation; [|discriminate].
  destruct (create_forecasts _ _ _ _ _ _ _ _) as [db2 forecasts_data] eqn:Hcreate.
  destruct (delete_old_forecasts _ _ _ _) as [db3 deleted].
  intros H. destruct (respond_truncates _ _ _ _ _ _ _ _ Hd H) as (Hc & Hl & Hrows).
  exists get_forecast, raw, location_data, db1, location.
  rewrite Hcreate. repeat split; auto.
Qed.

(** C10: a 200 response to a request with [days = N] carries at most N
    forecast entries.  The entries are built, row by row and in order,
    from the first N of the rows that the request worked with, which are
    the rows of the cache lookup when the response is marked cached and
    the rows returned by the upsert of the provider's days otherwise;
    rows beyond the first N are left out. *)
Theorem forecast_response_truncated
    (db0 db : WeatherDb) (city : string) (days : Z) (resp : ForecastResponse) :
  get_weather_forecast now CACHE_TTL_HOURS created_at_default generate_uuid
    ilike_contains strptime_ymd float_other weather_client validate_location
    validate_response_day db0 city days = (db, OK resp) ->
  (Z.of_nat (List.length (fr_forecast resp)) <= days)%Z /\
  exists forecasts_data,
    response_days validate_response_day (firstn (Z.to_nat days) forecasts_data)
      = Py.Return (fr_forecast resp) /\
    Forall2 (fun row entry => validate_response_day row = Py.Return entry)
            (firstn (Z.to_nat days) forecasts_data) (fr_forecast resp) /\
    List.length (fr_forecast resp)
    = Nat.min (Z.to_nat days) (List.length forecasts_data) /\
    ((fr_cached resp = true /\
      exists location,
        get_location_by_city ilike_contains db0 city = Some location /\
        get_cached_forecast now CACHE_TTL_HOURS db0 (loc_id location) days
        = Some forecasts_data /\
        fr_location resp = location) \/
     (fr_cached resp = false /\
      exists get_forecast raw location_data db1 location,
        weather_client = Some get_forecast /\
        get_forecast city days = Some raw /\
        validate_location (pf_location (parse_forecast_data float_other raw))
        = Py.Return location_data /\
        create_location generate_uuid ilike_contains db0 location_data
        = (db1, Some location) /\
        fr_location resp = location /\
        forecasts_data
        = snd (create_forecasts created_at_default generate_uuid strptime_ymd db0 db1
                 (loc_id location)
                 (pf_forecast_days (parse_forecast_data float_other raw))
                 "weatherapi"))).
Proof.
  unfold get_weather_forecast.
  destruct ((1 <=? days) && (days <=? 14))%Z eqn:Hrange; simpl; [|discriminate].
  apply andb_true_iff in Hrange. destruct Hrange as [Hlo _]. apply Z.leb_le in Hlo.
  assert (Hd : (0 <= days)%Z) by lia.
  intros H.
  assert (Hfresh :
            fetch_fresh now CACHE_TTL_HOURS created_at_default generate_uuid ilike_contains
              strptime_ymd float_other weather_client validate_location
              validate_response_day db0 db0 city days = (db, OK resp) ->
            exists forecasts_data,
              response_days validate_response_day (firstn (Z.to_nat days) forecasts_data)
              = Py.Return (fr_forecast resp) /\
              ((fr_cached resp = true /\
                exists location,
                  get_location_by_city ilike_contains db0 city = Some location /\
                  get_cached_forecast now CACHE_TTL_HOURS db0 (loc_id location) days
                  = Some forecasts_data /\
                  fr_location resp = location) \/
               (fr_cached resp = false /\
                exists get_forecast raw location_data db1 location,
                  weather_client = Some get_forecast /\
                  get_forecast city days = Some raw /\
                  validate_location (pf_location (parse_forecast_data float_other raw))
                  = Py.Return location_data /\
                  create_location generate_uuid ilike_contains db0 location_data
                  = (db1, Some location) /\
                  fr_location resp = location /\
                  forecasts_data
                  = snd (create_forecasts created_at_default generate_uuid strptime_ymd
                           db0 db1 (loc_id location)
                           (pf_forecast_days (parse_forecast_data float_other raw))
                           "weatherapi")))).
  { intros Hrun.
    destruct (fetch_fresh_truncates _ _ _ _ _ _ Hd Hrun)
      as (get_forecast & raw & location_data & db1 & location
          & Hclient & Hraw & Hvalid & Hlocation & Hcached & Hloc & Hrows).
    eexists. split; [exact Hrows|]. right. split; [exact Hcached|].
    exists get_forecast, raw, location_data, db1, location. repeat split; auto. }
  assert (Hex : exists forecasts_data,
              response_days validate_response_day (firstn (Z.to_nat days) forecasts_data)
              = Py.Return (fr_forecast resp) /\
              ((fr_cached resp = true /\
                exists location,
                  get_location_by_city ilike_contains db0 city = Some location /\
                  get_cached_forecast now CACHE_TTL_HOURS db0 (loc_id location) days
                  = Some forecasts_data /\
                  fr_location resp = location) \/
               (fr_cached resp = false /\
                exists get_forecast raw location_data db1 location,
                  weather_client = Some get_forecast /\
                  get_forecast city days = Some raw /\
                  validate_location (pf_location (parse_forecast_data float_other raw))
                  = Py.Return location_data /\
                  create_location generate_uuid ilike_contains db0 location_data
                  = (db1, Some location) /\
                  fr_location resp = location /\
                  forecasts_data
                  = snd (create_forecasts created_at_default generate_uuid strptime_ymd
                           db0 db1 (loc_id location)
                           (pf_forecast_days (parse_forecast_data float_other raw))
                           "weatherapi")))).
  { destruct (get_location_by_city _ _ _) as [location|] eqn:Hlocation;
      [|exact (Hfresh H)].
    destruct (get_cached_forecast _ _ _ _ _) as [cached_forecasts|] eqn:Hcache;
      [|exact (Hfresh H)].
    destruct (days <=? _)%Z; [|exact (Hfresh H)].
    destruct (respond_truncates _ _ _ _ _ _ _ _ Hd H) as (Hc & Hl & Hrows).
    exists cached_forecasts. split; [exact Hrows|]. left. split; [exact Hc|].
    exists location. repeat split; auto. }
  clear Hfresh.
  destruct Hex as (forecasts_data & Hrows & Hfrom).
  assert (Hlen : List.length (fr_forecast resp)
                 = Nat.min (Z.to_nat days) (List.length forecasts_data)).
  { rewrite (response_days_length _ _ Hrows). apply length_firstn. }
  split; [lia|].
  exists forecasts_data.
  split; [exact Hrows|]. split; [apply response_days_rows; exact Hrows|].
  split; [exact Hlen | exact Hfrom].
Qed.
End WeatherEndpointProofs.

(** ** Registration *)

Section UserProofs.
Import UserCrud.
Variable now : Z.
Variable generate_uuid : nat -> string.
Variable hash_password : string -> option string.

Lemma scalar_one_or_none_some {A : Type} (rows : list A) (r : A) :
  Db.scalar_one_or_none rows = Py.Return (Some r) -> rows = [r].
Proof. destruct rows as [|a [|b rows]]; simpl; intros H; inversion H; reflexivity. Qed.

Lemma filter_nil_none {A : Type} (p : A -> bool) (rows : list A) :
  (forall r, In r rows -> p r = false) -> filter p rows = [].
Proof.
  induction rows as [|a rows IH]; simpl; intros H; [reflexivity|].
  rewrite (H a (or_introl eq_refl)). apply IH. intros r Hr. apply H. now right.
Qed.

Lemma violates_unique_true (users : list User) (user : User) :
  (exists u, In u users /\ (email u = email user \/ username u = username user)) ->
  violates_unique users user = true.
Proof.
  intros (u & Hin & Hdup). unfold violates_unique. apply existsb_exists.
  exists u. split; [exact Hin|].
  destruct Hdup as [H|H]; rewrite H, String.eqb_refl; simpl;
    rewrite ?orb_true_r; reflexivity.
Qed.

Lemma violates_unique_false (users : list User) (user : User) :
  (forall u, In u users ->
     id u <> id user /\ email u <> email user /\ username u <> username user) ->
  violates_unique users user = false.
Proof.
  intros H. unfold violates_unique.
  destruct (existsb _ users) eqn:E; [|reflexivity].
  apply existsb_exists in E. destruct E as (u & Hin & Hu).
  destruct (H u Hin) as (H1 & H2 & H3).
  apply String.eqb_neq in H1, H2, H3. rewrite H1, H2, H3 in Hu. discriminate.
Qed.

(** C7: registration returns nothing and leaves the store as it is when
    the username or the email is already taken; otherwise it stores one new
    row, with the drawn identifier and the hashed password, and returns it. *)
Theorem create_user_spec (users : list User) (user_data : UserCreate) :
  ((exists u, In u users /\
              (username u = new_username user_data \/ email u = new_email user_data)) ->
   create_user now generate_uuid hash_password users user_data = (users, None)) /\
  (forall hashed,
     (forall u, In u users ->
                username u <> new_username user_data /\ email u <> new_email user_data) ->
     hash_password (new_password user_data) = Some hashed ->
     (forall u, In u users -> id u <> generate_uuid (List.length users)) ->
     exists user,
       create_user now generate_uuid hash_password users user_data
         = (users ++ [user], Some user) /\
       id user = generate_uuid (List.length users) /\
       hashed_password user = hashed /\
       username user = new_username user_data /\
       email user = new_email user_data /\
       city user = new_city user_data /\
       country user = new_country user_data /\
       preferred_wash_interval user = new_preferred_wash_interval user_data /\
       last_wash_date user = None).
Proof.
  split.
  - intros Hdup. unfold create_user.
    destruct (get_user_by_username users (new_username user_data)); [reflexivity|].
    destruct (get_user_by_email users (new_email user_data)); [reflexivity|].
    destruct (hash_password (new_password user_data)) as [hashed|]; [|reflexivity].
    unfold add_and_commit. rewrite violates_unique_true; [reflexivity|].
    destruct Hdup as (u & Hin & Hu). exists u. split; [exact Hin|]. simpl. tauto.
  - intros hashed Hfree Hhash Hfresh. unfold create_user.
    unfold get_user_by_username, get_user_by_email.
    rewrite (filter_nil_none (fun u => String.eqb (username u) (new_username user_data))).
    2:{ intros u Hu. apply String.eqb_neq. apply (Hfree u Hu). }
    rewrite (filter_nil_none (fun u => String.eqb (email u) (new_email user_data))).
    2:{ intros u Hu. apply String.eqb_neq. apply (Hfree u Hu). }
    simpl. rewrite Hhash. unfold add_and_commit.
    rewrite violates_unique_false.
    2:{ intros u Hu. simpl. destruct (Hfree u Hu). split; [apply (Hfresh u Hu)|]. tauto. }
    eexists. split; [reflexivity|]. simpl. repeat split; reflexivity.
Qed.
End UserProofs.

(** ** The provider's chance of rain *)

Section ParserProofs.
Import PyVal WeatherClient.
Local Open Scope R_scope.
Variable float_other : string -> option R.


Lemma parse_day_probability (day_data : pyval) (parsed_day : DayData) :
  parse_day float_other day_data = Py.Return parsed_day ->
  raw_data (dd_fields parsed_day) = day_data /\
  exists day_info p,
    PyVal.get day_data "day" (PDict []) = Py.Return day_info /\
    probability_of float_other day_info = Py.Return p /\
    precipitation_probability (dd_fields parsed_day) = PNum p.
Proof.
  unfold parse_day, probability_of.
  destruct (PyVal.get day_data "date" PNone); simpl; [|discriminate].
  destruct (PyVal.get day_data "day" (PDict [])) as [day_info|]; simpl; [|discriminate].
  destruct (PyVal.get day_data "astro" (PDict [])) as [astro_info|]; simpl; [|discriminate].
  destruct (chance_of_rain_of float_other day_info) as [c|] eqn:Hc; simpl; [|discriminate].
  destruct (PyVal.get day_info "mintemp_c" PNone); simpl; [|discriminate].
  destruct (PyVal.get day_info "maxtemp_c" PNone); simpl; [|discriminate].
  destruct (PyVal.get day_info "avgtemp_c" PNone); simpl; [|discriminate].
  destruct (div_100 c) as [p|] eqn:Hp; simpl; [|discriminate].
  repeat (match goal with
          | |- context [Py.bind ?m _] =>
              destruct m; simpl; [|discriminate]
          end).
  intros H. inversion H; subst; clear H. simpl. split; [reflexivity|].
  exists day_info, p. rewrite Hc. simpl. repeat split; auto.
Qed.

Lemma parse_days_In (forecast_days : list pyval) (parsed_days : list DayData)
    (parsed_day : DayData) :
  parse_days float_other forecast_days = Py.Return parsed_days ->
  In parsed_day parsed_days ->
  exists day_data, In day_data forecast_days /\
                   parse_day float_other day_data = Py.Return parsed_day.
Proof.
  revert parsed_days. induction forecast_days as [|d rest IH]; simpl; intros out H Hin.
  - inversion H; subst. destruct Hin.
  - destruct (parse_day float_other d) as [pd|] eqn:Hd; simpl in H; [|discriminate].
    destruct (parse_days float_other rest) as [pds|]; simpl in H; [|discriminate].
    inversion H; subst. destruct Hin as [<-|Hin].
    + exists d. split; [now left | exact Hd].
    + destruct (IH pds eq_refl Hin) as (x & Hx & Hp). exists x. split; [now right | exact Hp].
Qed.

(** Every day of the parser's result comes from the loop body. *)
Lemma parse_forecast_data_days (raw : pyval) (parsed_day : DayData) :
  In parsed_day (pf_forecast_days (parse_forecast_data float_other raw)) ->
  parse_day float_other (raw_data (dd_fields parsed_day)) = Py.Return parsed_day.
Proof.
  unfold parse_forecast_data.
  destruct (PyVal.get raw "location" (PDict [])) as [location_data|]; simpl; [|intros []].
  destruct (PyVal.get raw "forecast" (PDict [])) as [forecast|]; simpl; [|intros []].
  destruct (PyVal.get forecast "forecastday" (PList [])) as [forecastday|]; simpl; [|intros []].
  destruct (iterate forecastday) as [forecast_days|]; simpl; [|intros []].
  destruct (parse_days float_other forecast_days) as [parsed_days|] eqn:Hdays; simpl;
    [|intros []].
  destruct (PyVal.get location_data "name" _); simpl; [|intros []].
  destruct (PyVal.get location_data "country" _); simpl; [|intros []].
  destruct (PyVal.get location_data "lat" _); simpl; [|intros []].
  destruct (PyVal.get location_data "lon" _); simpl; [|intros []].
  intros Hin. destruct (parse_days_In _ _ _ Hdays Hin) as (day_data & _ & Hparse).
  destruct (parse_day_probability _ _ Hparse) as [Hraw _]. rewrite Hraw. exact Hparse.
Qed.

End ParserProofs.

(** ** Best-day selection *)

Section BestDayProofs.
Import AdvisorSchemas Advisor BestDaySpec.
Local Open Scope R_scope.
Variable parse_date : string -> option Z.

Lemma Reqb_false (a b : R) : Py.Reqb a b = false <-> a <> b.
Proof. unfold Py.Reqb; destruct (Req_dec_T a b); split; intros; try easy. Qed.

Lemma score_key_score_of (day : AnalyzedDay) : score_key day = score_of day.
Proof.
  unfold score_key, score_of, Py.truthy, Py.Reqb.
  destruct (ad_score day) as [s|]; [|reflexivity].
  destruct (Req_dec_T s 0); simpl; [symmetry; assumption | reflexivity].
Qed.

Lemma is_acceptable_at_least_60 (day : AnalyzedDay) :
  is_acceptable day = true <-> at_least_60 day.
Proof.
  unfold is_acceptable, at_least_60, min_acceptable_score, Py.truthy.
  destruct (ad_score day) as [s|].
  - rewrite andb_true_iff, negb_true_iff, Reqb_false, Rleb_true. split.
    + intros [_ H]. exists s. split; [reflexivity | exact H].
    + intros (s' & Hs & H). inversion Hs; subst. split; lra.
  - split; [discriminate|]. intros (s & Hs & _). discriminate.
Qed.

Lemma is_acceptable_score (day : AnalyzedDay) :
  is_acceptable day = Py.Rleb 60 (score_key day).
Proof.
  destruct (is_acceptable day) eqn:E; symmetry.
  - apply is_acceptable_at_least_60 in E. destruct E as (s & Hs & H).
    apply Rleb_true. rewrite score_key_score_of. unfold score_of. rewrite Hs. exact H.
  - apply Rleb_false. rewrite score_key_score_of.
    unfold is_acceptable, min_acceptable_score, Py.truthy, score_of in *.
    destruct (ad_score day) as [s|]; [|lra].
    apply andb_false_iff in E. destruct E as [E|E].
    + apply negb_false_iff in E. unfold Py.Reqb in E.
      destruct (Req_dec_T s 0); [lra | discriminate].
    + apply Rleb_false in E. exact E.
Qed.

Lemma advisor_insert_desc_In (x a : AnalyzedDay) (l : list AnalyzedDay) :
  In x (insert_desc a l) <-> x = a \/ In x l.
Proof.
  induction l as [|y l IH]; simpl.
  - intuition.
  - destruct (Py.Rltb (score_key a) (score_key y)); simpl; rewrite ?IH; intuition.
Qed.

Lemma sorted_by_score_desc_In (x : AnalyzedDay) (l : list AnalyzedDay) :
  In x (sorted_by_score_desc l) <-> In x l.
Proof.
  induction l as [|a l IH]; simpl; [tauto|].
  unfold sorted_by_score_desc in *. simpl.
  rewrite advisor_insert_desc_In, IH. intuition.
Qed.

Lemma advisor_insert_desc_head (a : AnalyzedDay) (l : list AnalyzedDay) :
  (forall h, hd_error l = Some h -> forall x, In x l -> score_key x <= score_key h) ->
  forall h, hd_error (insert_desc a l) = Some h ->
  forall x, In x (insert_desc a l) -> score_key x <= score_key h.
Proof.
  intros Hl h Hh x Hx. apply advisor_insert_desc_In in Hx.
  destruct l as [|y l]; simpl in *.
  - inversion Hh; subst. destruct Hx as [->|[]]. lra.
  - specialize (Hl y eq_refl).
    destruct (Py.Rltb (score_key a) (score_key y)) eqn:E; simpl in Hh; inversion Hh; subst.
    + apply Rltb_true in E. destruct Hx as [->|Hx]; [lra | apply Hl; exact Hx].
    + apply Rltb_false in E. destruct Hx as [->|Hx]; [lra|].
      specialize (Hl x Hx). lra.
Qed.

Lemma sorted_by_score_desc_max (l : list AnalyzedDay) (h : AnalyzedDay) :
  hd_error (sorted_by_score_desc l) = Some h ->
  forall x, In x (sorted_by_score_desc l) -> score_key x <= score_key h.
Proof.
  revert h. induction l as [|a l IH]; simpl.
  - intros h Hh; inversion Hh.
  - unfold sorted_by_score_desc in *. simpl. apply advisor_insert_desc_head. exact IH.
Qed.

(** The first day of the sorted list is one of the days and no day scores
    higher. *)
Lemma sorted_by_score_desc_head (l : list AnalyzedDay) :
  l <> [] ->
  exists best rest,
    sorted_by_score_desc l = best :: rest /\ In best l /\
    forall x, In x l -> score_key x <= score_key best.
Proof.
  intros Hne.
  destruct (sorted_by_score_desc l) as [|best rest] eqn:E.
  - destruct l as [|a l]; [congruence|].
    assert (Hin : In a (sorted_by_score_desc (a :: l)))
      by (apply sorted_by_score_desc_In; now left).
    rewrite E in Hin. destruct Hin.
  - exists best, rest. split; [reflexivity|]. split.
    + apply sorted_by_score_desc_In. rewrite E. now left.
    + intros x Hx. apply (sorted_by_score_desc_max l).
      * rewrite E. reflexivity.
      * apply sorted_by_score_desc_In. exact Hx.
Qed.
Lemma new_day_valid (date : Z) (b : bool) (score : R) (t p w : option R)
    (reason : string) (factors : Factors) :
  0 <= score <= 100 ->
  new_WashRecommendationDay (Some date) (Some b) (Some score) t p w reason factors
  = Py.Return (mkWashRecommendationDay date b score t p w reason factors).
Proof.
  intros [H0 H1]. unfold new_WashRecommendationDay.
  apply Rleb_true in H0. apply Rleb_true in H1. rewrite H0, H1. reflexivity.
Qed.

(** What the function returns once the best day is known. *)
Lemma find_best_of (days chosen rest : list AnalyzedDay) (best : AnalyzedDay) (date : Z) :
  days <> [] ->
  (match filter is_acceptable days with [] => days | acceptable => acceptable end) = chosen ->
  sorted_by_score_desc chosen = best :: rest ->
  parse_date (ad_date best) = Some date ->
  0 <= score_key best <= 100 ->
  find_best_wash_day parse_date days =
  Py.Return (Some (mkWashRecommendationDay date (Py.Rleb 60 (score_key best))
                     (score_key best) (ad_temperature best)
                     (ad_precipitation_probability best) (ad_wind_speed best)
                     (ad_reason best) (factors_of best))).
Proof.
  intros Hne Hchosen Hsorted Hdate Hscore.
  unfold find_best_wash_day. destruct days as [|d days]; [congruence|].
  cbv zeta.
  match goal with
  | |- context [sorted_by_score_desc ?l] =>
      replace l with chosen
        by (rewrite <- Hchosen; destruct (filter is_acceptable (d :: days)); reflexivity)
  end.
  rewrite Hsorted, Hdate, is_acceptable_score.
  rewrite new_day_valid by exact Hscore. reflexivity.
Qed.

(** C2: from a non-empty list of analysed days the function returns a day
    of greatest score among those scoring at least 60, or of greatest score
    among all days when none reaches 60; the returned day is flagged
    recommended exactly when its score is at least 60.  Two days scoring
    45 and 30 give the 45 day, not recommended. *)
Theorem find_best_wash_day_spec (analyzed_days : list AnalyzedDay) :
  (analyzed_days <> [] ->
   (forall day, In day analyzed_days -> well_formed parse_date day) ->
   exists best r,
     find_best_wash_day parse_date analyzed_days = Py.Return (Some r) /\
     In best analyzed_days /\
     parse_date (ad_date best) = Some (rd_date r) /\
     rd_score r = score_of best /\
     rd_reason r = ad_reason best /\
     rd_is_recommended r = Py.Rleb 60 (rd_score r) /\
     ((exists day, In day analyzed_days /\ at_least_60 day) ->
      at_least_60 best /\
      forall day, In day analyzed_days -> at_least_60 day -> score_of day <= score_of best) /\
     (~ (exists day, In day analyzed_days /\ at_least_60 day) ->
      forall day, In day analyzed_days -> score_of day <= score_of best)) /\
  (forall d45 d30 date,
     ad_score d45 = Some 45 -> ad_score d30 = Some 30 ->
     parse_date (ad_date d45) = Some date ->
     exists r,
       find_best_wash_day parse_date [d45; d30] = Py.Return (Some r) /\
       rd_date r = date /\ rd_score r = 45 /\ rd_reason r = ad_reason d45 /\
       rd_is_recommended r = false).
Proof.
  split.
  - intros Hne Hwf.
    set (chosen := match filter is_acceptable analyzed_days with
                   | [] => analyzed_days
                   | acceptable => acceptable
                   end).
    assert (Hsub : forall x, In x chosen -> In x analyzed_days).
    { subst chosen. destruct (filter is_acceptable analyzed_days) eqn:E; [tauto|].
      intros x Hx. rewrite <- E in Hx. apply filter_In in Hx. tauto. }
    assert (Hcne : chosen <> []).
    { subst chosen. destruct (filter is_acceptable analyzed_days); congruence. }
    destruct (sorted_by_score_desc_head chosen Hcne) as (best & rest & Hs & Hin & Hmax).
    destruct (Hwf best (Hsub best Hin)) as [[date Hdate] Hrange].
    rewrite <- score_key_score_of in Hrange.
    exists best. eexists. split.
    { eapply find_best_of; try eassumption. reflexivity. }
    simpl. rewrite <- score_key_score_of.
    repeat split; try reflexivity; try assumption.
    + apply Hsub; exact Hin.
    + apply is_acceptable_at_least_60.
      destruct H as (day & Hday & H60). apply is_acceptable_at_least_60 in H60.
      subst chosen. destruct (filter is_acceptable analyzed_days) eqn:E.
      * assert (Hf : In day (filter is_acceptable analyzed_days))
          by (apply filter_In; tauto).
        rewrite E in Hf. destruct Hf.
      * rewrite <- E in Hin. apply filter_In in Hin. tauto.
    + intros day Hday H60. rewrite <- !score_key_score_of. apply Hmax.
      apply is_acceptable_at_least_60 in H60.
      assert (Hf : In day (filter is_acceptable analyzed_days)) by (apply filter_In; tauto).
      subst chosen. destruct (filter is_acceptable analyzed_days); [destruct Hf | exact Hf].
    + intros Hnone day Hday. rewrite <- !score_key_score_of. apply Hmax.
      subst chosen. destruct (filter is_acceptable analyzed_days) as [|a l] eqn:E;
        [exact Hday|].
      exfalso. apply Hnone. exists a. split.
      * assert (Hf : In a (filter is_acceptable analyzed_days)) by (rewrite E; now left).
        apply filter_In in Hf. tauto.
      * apply is_acceptable_at_least_60.
        assert (Hf : In a (filter is_acceptable analyzed_days)) by (rewrite E; now left).
        apply filter_In in Hf. tauto.
  - intros d45 d30 date H45 H30 Hdate.
    assert (K45 : score_key d45 = 45) by (rewrite score_key_score_of; unfold score_of; now rewrite H45).
    assert (K30 : score_key d30 = 30) by (rewrite score_key_score_of; unfold score_of; now rewrite H30).
    assert (A45 : is_acceptable d45 = false)
      by (rewrite is_acceptable_score, K45; apply Rleb_false; lra).
    assert (A30 : is_acceptable d30 = false)
      by (rewrite is_acceptable_score, K30; apply Rleb_false; lra).
    eexists. split.
    { eapply (find_best_of [d45; d30] [d45; d30] [d30] d45 date).
      - discriminate.
      - simpl. rewrite A45, A30. reflexivity.
      - unfold sorted_by_score_desc. simpl. rewrite K45, K30.
        assert (E : Py.Rltb 45 30 = false) by (apply Rltb_false; lra).
        rewrite E. reflexivity.
      - exact Hdate.
      - rewrite K45. lra. }
    simpl. rewrite K45. repeat split; try reflexivity.
    apply Rleb_false. lra.
Qed.
End BestDayProofs.

(** ** The ideal day *)

Section IdealDayProofs.
Import AdvisorSettings Advisor.
Local Open Scope R_scope.
Variable fmt0f : R -> string.
Variable str_int : Z -> string.
Variable lower : string -> string.

(** [exp(-0.5)] lies between 1/2 and 1. *)
Lemma exp_minus_half_bounds : 1 / 2 <= exp (-5 * 0.1) < 1.
Proof.
  replace (-5 * 0.1) with (- (1 / 2)) by lra.
  pose proof (exp_pos (1 / 2)) as Hpos.
  pose proof (exp_pos (- (1 / 2))) as Hneg.
  assert (Hinv : exp (- (1 / 2)) * exp (1 / 2) = 1).
  { rewrite <- exp_plus. replace (- (1 / 2) + 1 / 2) with 0 by lra. apply exp_0. }
  assert (Hsq : exp (1 / 2) * exp (1 / 2) <= 3).
  { rewrite <- exp_plus. replace (1 / 2 + 1 / 2) with 1 by lra. apply exp_le_3. }
  assert (Hgt : 1 < exp (1 / 2)).
  { pose proof (exp_increasing 0 (1 / 2)) as H. rewrite exp_0 in H. apply H. lra. }
  split; nra.
Qed.

(** Where [math.exp] does not overflow, the analysis returns a day of
    the forecast day's date with a score in [0,100], with or without user
    context. *)
Lemma analyze_weather_day_score_range
    (weather_data : WeatherDay) (user_context : option UserContextMetrics) :
  (forall p, wd_precipitation_probability weather_data = Some p ->
             -5 * p <= Py.EXP_MAX) ->
  exists day score,
    analyze_weather_day fmt0f str_int lower weather_data user_context = Py.Return day /\
    ad_score day = Some score /\
    0 <= score <= 100 /\
    ad_date day = wd_date weather_data.
Proof.
  intros Hrange. unfold analyze_weather_day.
  rewrite calculate_score_clamp by exact Hrange. cbn [Py.bind].
  eexists. eexists. split; [reflexivity|]. cbn [ad_score ad_date].
  split; [reflexivity|]. split; [|reflexivity].
  match goal with
  | |- _ <= adjust_for_context ?s _ <= _ =>
      assert (Hs : 0 <= s <= 100) by apply clamp_bounds;
      generalize dependent s
  end.
  intros s Hs. unfold adjust_for_context.
  destruct user_context as [ctx|]; [|exact Hs].
  destruct (days_since_last_wash ctx) as [days_since|]; [|exact Hs].
  destruct (is_interval_optimal ctx) as [[|]|].
  - rewrite py_min_Rmin. unfold Rmin. destruct (Rle_dec 100 (s + 10)); lra.
  - destruct (days_since <? 7)%Z; [|exact Hs].
    rewrite py_max_Rmax. unfold Rmax. destruct (Rle_dec 0 (s - 20)); lra.
  - destruct (days_since <? 7)%Z; [|exact Hs].
    rewrite py_max_Rmax. unfold Rmax. destruct (Rle_dec 0 (s - 20)); lra.
Qed.

(** Where it overflows, the analysis raises, with or without user
    context. *)
Lemma analyze_weather_day_overflow
    (weather_data : WeatherDay) (user_context : option UserContextMetrics) (p : R) :
  wd_precipitation_probability weather_data = Some p -> Py.EXP_MAX < -5 * p ->
  analyze_weather_day fmt0f str_int lower weather_data user_context
  = Py.Raise Py.OverflowError.
Proof.
  intros Hp Hover. unfold analyze_weather_day.
  rewrite (calculate_score_overflow _ _ _ _ _ _ _ p Hp Hover). reflexivity.
Qed.

(** C3: a day with temperature 20, precipitation probability 0.1, wind
    10 km/h and humidity 50 %, analysed without user context, expects no
    rain, has an optimal temperature and acceptable wind, scores at least
    80 and is explained as excellent conditions. *)
Theorem ideal_day_analysis
    (date : string) (temperature amount : option R) (description : option (option string)) :
  let day := {| wd_date := date;
                wd_temperature_avg := Some 20;
                wd_temperature := temperature;
                wd_precipitation_probability := Some 0.1;
                wd_precipitation_amount := amount;
                wd_wind_speed := Some 10;
                wd_humidity := Some 50%Z;
                wd_weather_description := description |} in
  exists analysis,
    analyze_weather_day fmt0f str_int lower day None = Py.Return analysis /\
    ad_is_rain_expected analysis = false /\
    ad_is_temperature_optimal analysis = true /\
    ad_is_wind_acceptable analysis = true /\
    (exists score, ad_score analysis = Some score /\ 80 <= score <= 100) /\
    ad_reason analysis = "Отличные условия для мойки"%string /\
    Py.contains "Отличные условия для мойки" (ad_reason analysis) = true.
Proof.
  intros day.
  assert (Hrain : Py.Rltb MIN_PRECIPITATION_THRESHOLD 0.1 = false).
  { apply Rltb_false. unfold MIN_PRECIPITATION_THRESHOLD. lra. }
  assert (Htemp : Py.Rleb IDEAL_WASH_TEMPERATURE_MIN 20
                  && Py.Rleb 20 IDEAL_WASH_TEMPERATURE_MAX = true).
  { apply andb_true_iff.
    split; apply Rleb_true; unfold IDEAL_WASH_TEMPERATURE_MIN, IDEAL_WASH_TEMPERATURE_MAX; lra. }
  assert (Hwind : Py.Rleb 10 WIND_SPEED_THRESHOLD = true).
  { apply Rleb_true. unfold WIND_SPEED_THRESHOLD. lra. }
  pose (score := ScoreSpec.clamp
                   (ScoreSpec.weighted_total (100 * exp (-5 * 0.1))
                      (temp_score_of (Some 20)) (wind_score_of (Some 10))
                      (humidity_score_of (Some 50%Z))
                      (ScoreSpec.penalty false true true))).
  assert (Hrun : _calculate_score (Some 20) (Some 0.1) (Some 10) (Some 50%Z) false true true
                 = Py.Return score).
  { apply calculate_score_clamp. intros q Hq. inversion Hq; subst q.
    unfold Py.EXP_MAX. lra. }
  assert (Hscore : 80 <= score <= 100).
  { subst score.
    assert (Ht : temp_score_of (Some 20) = 100).
    { unfold temp_score_of.
      assert (E : Py.Rleb 15 20 && Py.Rleb 20 22 = true)
        by (apply andb_true_iff; split; apply Rleb_true; lra).
      rewrite E. reflexivity. }
    assert (Hw : wind_score_of (Some 10) = 100).
    { unfold wind_score_of.
      assert (E : Py.Rleb 10 15 = true) by (apply Rleb_true; lra).
      rewrite E. reflexivity. }
    assert (Hh : humidity_score_of (Some 50%Z) = 100) by reflexivity.
    pose proof exp_minus_half_bounds as He.
    rewrite Ht, Hw, Hh.
    unfold ScoreSpec.clamp, ScoreSpec.weighted_total,
      ScoreSpec.penalty, Rmax, Rmin.
    destruct (Rle_dec 100 _); destruct (Rle_dec 0 _); lra. }
  subst day. unfold analyze_weather_day.
  cbn [wd_temperature_avg wd_precipitation_probability wd_wind_speed wd_humidity].
  rewrite Hrain, Htemp, Hwind, Hrun. cbn [Py.bind adjust_for_context].
  eexists. split; [reflexivity|].
  cbn [ad_is_rain_expected ad_is_temperature_optimal ad_is_wind_acceptable ad_score
       ad_reason].
  assert (Hreason : _generate_reason fmt0f str_int lower false true true (Some 0.1)
                      (Some 20) (Some 10) score None
                    = "Отличные условия для мойки"%string).
  { unfold _generate_reason. cbn [negb context_reasons app].
    assert (H80 : Py.Rleb 80 score = true) by (apply Rleb_true; lra).
    rewrite H80. reflexivity. }
  rewrite Hreason.
  conjs; try reflexivity.
  exists score. split; [reflexivity | exact Hscore].
Qed.
End IdealDayProofs.

(** ** Forecast upsert *)

Section UpsertProofs.
Import PyVal WeatherClient WeatherModels WeatherCrud.
Variable created_at_default : Z.
Variable generate_uuid : nat -> string.
Variable strptime_ymd : string -> option Z.

Section Rows.
Context {A : Type}.
Variables (p : A -> bool) (f : A -> A).

(** Overwriting the first row that matches [p]. *)
Lemma position_first (t : list A) (r : A) (rest : list A) :
  filter p t = r :: rest ->
  exists i, position p t = Some i /\ nth_error t i = Some r /\
            nth_error (update_at i f t) i = Some (f r) /\
            List.length (update_at i f t) = List.length t.
Proof.
  induction t as [|a t IH]; simpl; [discriminate|].
  destruct (p a) eqn:E.
  - intros H. inversion H; subst. exists O. repeat split; reflexivity.
  - intros H. destruct (IH H) as (i & Hp & Hn & Hu & Hl).
    exists (S i). rewrite Hp. simpl. repeat split; auto.
Qed.

Lemma filter_update_same (t : list A) (r : A) (rest : list A) (i : nat) :
  (forall x, p (f x) = p x) ->
  filter p t = r :: rest -> position p t = Some i ->
  filter p (update_at i f t) = f r :: rest.
Proof.
  intros Hpf. revert i. induction t as [|a t IH]; simpl; [discriminate|].
  intros i. destruct (p a) eqn:E.
  - intros H Hi. inversion H; subst. inversion Hi; subst. simpl.
    rewrite Hpf, E. reflexivity.
  - intros H Hi. destruct (position p t) as [j|]; [|discriminate].
    inversion Hi; subst. simpl. rewrite E. apply IH; auto.
Qed.

Lemma filter_update_other (q : A -> bool) (t : list A) (i : nat) :
  (forall x, q (f x) = q x) ->
  (forall x, q x = true -> p x = false) ->
  position p t = Some i ->
  filter q (update_at i f t) = filter q t.
Proof.
  intros Hqf Hqp. revert i. induction t as [|a t IH]; simpl; [discriminate|].
  intros i. destruct (p a) eqn:E.
  - intros Hi. inversion Hi; subst. simpl. rewrite Hqf.
    destruct (q a) eqn:Q; [|reflexivity]. rewrite (Hqp a Q) in E. discriminate.
  - intros Hi. destruct (position p t) as [j|]; [|discriminate].
    inversion Hi; subst. simpl. rewrite (IH j eq_refl). reflexivity.
Qed.
End Rows.

Lemma same_day_overwrite (location_id : string) (d : Z) (fields : WeatherFields)
    (r : WeatherForecast) :
  same_day location_id d (overwrite fields r) = same_day location_id d r.
Proof. reflexivity. Qed.

Lemma same_day_other (location_id : string) (d d' : Z) (r : WeatherForecast) :
  d' <> d -> same_day location_id d' r = true -> same_day location_id d r = false.
Proof.
  unfold same_day. intros Hd H. apply andb_true_iff in H. destruct H as [_ H].
  apply Z.eqb_eq in H. apply andb_false_iff. right. apply Z.eqb_neq. lia.
Qed.

(** One step of the loop on a table that holds at most one row for the
    day: afterwards it holds exactly one, with the day's fields. *)
Lemma upsert_day_result (location_id source : string) (table table' : list WeatherForecast)
    (d : Z) (fields : WeatherFields) (i : nat) :
  upsert_day created_at_default generate_uuid location_id source table d fields
    = Py.Return (table', i) ->
  (exists row,
      filter (same_day location_id d) table' = [row] /\
      nth_error table' i = Some row /\
      wf_fields row = fields /\ wf_is_cached row = true /\
      (forall old, filter (same_day location_id d) table = [old] ->
                   row = overwrite fields old /\
                   List.length table' = List.length table)) /\
  (forall d', d' <> d ->
      filter (same_day location_id d') table' = filter (same_day location_id d') table).
Proof.
  unfold upsert_day.
  destruct (filter (same_day location_id d) table) as [|old [|old' rest]] eqn:E; simpl.
  - intros H. inversion H; subst; clear H. split.
    + eexists. rewrite filter_app, E. simpl.
      unfold same_day at 1. simpl. rewrite String.eqb_refl, Z.eqb_refl. simpl.
      conjs; try reflexivity.
      * rewrite nth_error_app2 by lia. rewrite Nat.sub_diag. reflexivity.
      * intros old Hold. discriminate Hold.
    + intros d' Hd. rewrite filter_app. simpl.
      unfold same_day at 2. simpl.
      replace (d =? d')%Z with false by (symmetry; apply Z.eqb_neq; lia).
      rewrite andb_false_r. apply app_nil_r.
  - destruct (position_first (same_day location_id d) (overwrite fields) table old [] E)
      as (j & Hp & Hn & Hu & Hl).
    rewrite Hp. intros H. inversion H; subst; clear H. split.
    + exists (overwrite fields old). conjs; try reflexivity.
      * apply filter_update_same; auto.
      * exact Hu.
      * intros old0 H. inversion H; subst. split; [reflexivity | exact Hl].
    + intros d' Hd.
      apply (filter_update_other (same_day location_id d)); auto.
      intros x. apply same_day_other. exact Hd.
  - discriminate.
Qed.
Local Abbreviation loop :=
  (create_forecasts_loop created_at_default generate_uuid strptime_ymd).





End UpsertProofs.

(** ** The sample requests *)

Section Samples.
Import Http PyVal AdvisorSchemas AdvisorModels Advisor AdvisorCrud AdvisorMain.
Import WeatherClient WeatherModels WeatherCrud WeatherMain UserCrud BestDaySpec Examples.
Import MoreExamples.

Lemma stored_day_valid : cached_day_of stored_recommendation = Py.Return stored_day.
Proof.
  unfold cached_day_of, stored_recommendation, new_WashRecommendationDay.
  cbn [wr_score wr_recommendation_date wr_is_recommended].
  assert (E : Py.Rleb 0 85 && Py.Rleb 85 100 = true)
    by (apply andb_true_iff; split; apply Rleb_true; lra).
  rewrite E. reflexivity.
Qed.

Lemma sample_cache_hit :
  get_wash_recommendation noon uuid no_format no_str no_lower iso_date iso_date
    iso_string user_service no_weather advisor_db request
  = (sample_db_after, OK sample_response).
Proof.
  unfold get_wash_recommendation. cbn [user_service ui_city].
  cbn -[cached_day_of noon Db.timedelta_hours get_cached_recommendation].
  replace (get_cached_recommendation noon _ "user-1" "Moscow" 7)
    with (Some stored_recommendation) by reflexivity.
  rewrite stored_day_valid. reflexivity.
Qed.

(** The sample request is served from the cache, with the stored day as
    its only day and as its best day. *)
Lemma cache_hit_response_witness :
  exists cached_rec cached_day,
    get_cached_recommendation noon sample_db_after (req_user_id request)
      (resp_location sample_response) (req_days request) = Some cached_rec /\
    wr_is_recommended cached_rec = true /\
    cached_day_of cached_rec = Py.Return cached_day /\
    rd_date cached_day = wr_recommendation_date cached_rec /\
    resp_all_days sample_response = [cached_day] /\
    resp_best_day sample_response = Some cached_day.
Proof.
  apply (cache_hit_response noon uuid no_format no_str no_lower iso_date iso_date
           iso_string user_service no_weather advisor_db sample_db_after request
           sample_response).
  - exact sample_cache_hit.
  - reflexivity.
Defined.

(** Of the two sample days the one scoring 45 is returned, not
    recommended. *)
Lemma find_best_wash_day_witness :
  (exists best r,
      find_best_wash_day iso_date [day45; day30] = Py.Return (Some r) /\
      In best [day45; day30] /\
      iso_date (ad_date best) = Some (rd_date r) /\
      rd_score r = score_of best /\
      rd_reason r = ad_reason best /\
      rd_is_recommended r = Py.Rleb 60 (rd_score r) /\
      ((exists day, In day [day45; day30] /\ at_least_60 day) ->
       at_least_60 best /\
       forall day, In day [day45; day30] -> at_least_60 day ->
                   (score_of day <= score_of best)%R) /\
      (~ (exists day, In day [day45; day30] /\ at_least_60 day) ->
       forall day, In day [day45; day30] -> (score_of day <= score_of best)%R)) /\
  (exists r,
      find_best_wash_day iso_date [day45; day30] = Py.Return (Some r) /\
      rd_date r = 19742%Z /\ rd_score r = 45%R /\ rd_reason r = ad_reason day45 /\
      rd_is_recommended r = false).
Proof.
  split.
  - apply (proj1 (find_best_wash_day_spec iso_date [day45; day30])).
    + discriminate.
    + intros day [<-|[<-|[]]];
        (split; [eexists; reflexivity
                | cbv [score_of day45 day30 analysed ad_score]; lra]).
  - apply (proj2 (find_best_wash_day_spec iso_date [day45; day30]) day45 day30 19742%Z);
      reflexivity.
Defined.

(** A second registration of alice's name is refused; bob is stored. *)
Lemma create_user_witness :
  create_user noon uuid bcrypt [alice] (register "alice" "other@example.com")
    = ([alice], None) /\
  exists user,
    create_user noon uuid bcrypt [alice] (register "bob" "bob@example.com")
      = ([alice] ++ [user], Some user) /\
    id user = uuid 1 /\
    hashed_password user = "$2b$12$hash"%string /\
    username user = "bob"%string /\
    email user = "bob@example.com"%string /\
    city user = None /\
    country user = Some "Unknown"%string /\
    preferred_wash_interval user = 7%Z /\
    last_wash_date user = None.
Proof.
  split.
  - apply (proj1 (create_user_spec noon uuid bcrypt [alice]
                    (register "alice" "other@example.com"))).
    exists alice. split; [now left | left; reflexivity].
  - apply (proj2 (create_user_spec noon uuid bcrypt [alice]
                    (register "bob" "bob@example.com")) "$2b$12$hash"%string).
    + intros u [<-|[]]. split; discriminate.
    + reflexivity.
    + intros u [<-|[]]. discriminate.
Defined.



Lemma sample_weather_request :
  get_weather_forecast noon 1 half_past_midnight uuid exact_city iso_date no_float
    no_client any_location any_day weather_db "Moscow" 1
  = (weather_db, OK weather_response).
Proof. reflexivity. Qed.

Lemma sample_fresh_request :
  get_weather_forecast noon 1 half_past_midnight uuid exact_city iso_date3 no_float
    generous_client named_location any_day no_forecasts "Moscow" 2
  = ({| locations := [moscow]; weather_forecasts := three_rows |}, OK two_day_answer).
Proof. reflexivity. Qed.

(** The provider answers a request for two days with three: three rows
    are stored and returned by the upsert, and the response carries the
    first two. *)
Lemma forecast_response_truncated_witness :
  exists forecasts_data,
    forecasts_data = three_rows /\
    fr_forecast two_day_answer = firstn 2 forecasts_data /\
    List.length (fr_forecast two_day_answer) = 2%nat.
Proof.
  destruct (forecast_response_truncated noon 1 half_past_midnight uuid exact_city
              iso_date3 no_float generous_client named_location any_day no_forecasts
              {| locations := [moscow]; weather_forecasts := three_rows |}
              "Moscow" 2 two_day_answer sample_fresh_request)
    as (_ & forecasts_data & _ & _ & Hlen & [(Hcached & _)|(_ & Hfresh)]).
  - discriminate Hcached.
  - destruct Hfresh as (get_forecast & raw & location_data & db1 & location
                        & Hclient & Hraw & Hvalid & Hlocation & _ & Hdata).
    injection Hclient as <-. injection Hraw as <-.
    injection Hvalid as <-. injection Hlocation as <- <-.
    exists forecasts_data. rewrite Hdata. repeat split; reflexivity.
Defined.




(** ** The forecast cache window *)

Lemma order_by_asc_In {A : Type} (key : A -> Z) (x : A) (l : list A) :
  In x (Db.order_by_asc key l) <-> In x l.
Proof.
  assert (Hins : forall a s, In x (Db.insert_asc key a s) <-> x = a \/ In x s).
  { intros a s. induction s as [|y s IH]; simpl; [intuition|].
    destruct (key y <? key a)%Z; simpl; rewrite ?IH; intuition. }
  induction l as [|a l IH]; simpl; [tauto|].
  unfold Db.order_by_asc in *. simpl. rewrite Hins, IH. intuition.
Qed.


(** C5 (the code at the failing input): at noon, with a TTL of one hour,
    the rows written at half past midnight, eleven and a half hours
    earlier, are still returned as cached. *)
Theorem get_cached_forecast_stale_hit :
  (half_past_midnight < noon - Db.timedelta_hours 1)%Z /\
  get_cached_forecast noon 1 weather_db "loc-1" 10
  = Some [forecast_row "f-1" 19742; forecast_row "f-2" 19743].
Proof. split; reflexivity. Qed.
End Samples.

(** * Further properties of the code *)

(** From here on a lemma depends on the section variables its statement
    names, and on no other. *)
#[local] Set Default Proof Using "Type".

(** ** Scoring *)

Section ScoringFacts.
Import AdvisorSettings AdvisorSchemas Advisor BestDaySpec.
Local Open Scope R_scope.
Variable fmt0f : R -> string.
Variable str_int : Z -> string.
Variable lower : string -> string.

Lemma temp_score_of_range (temp : option R) : 0 <= temp_score_of temp <= 100.
Proof.
  pose proof (temp_score_of_spec temp) as H.
  destruct temp as [t|]; unfold ScoreSpec.temp_subscore in H; [|rewrite H; lra].
  destruct H as [[_ H]|[[_ H]|[[_ H]|[[Ht H]|[Ht H]]]]]; rewrite H; try lra;
    unfold Rmax; destruct (Rle_dec _ _); lra.
Qed.

Lemma wind_score_of_range (wind : option R) : 0 <= wind_score_of wind <= 100.
Proof.
  destruct wind as [w|]; simpl; [|lra].
  repeat match goal with
         | |- context [if ?c then _ else _] => destruct c
         end; lra.
Qed.

Lemma humidity_score_of_range (humidity : option Z) : 0 <= humidity_score_of humidity <= 100.
Proof.
  destruct humidity as [h|]; simpl; [|lra].
  repeat match goal with
         | |- context [if ?c then _ else _] => destruct c
         end; lra.
Qed.

(** [exp(-5p)] is below 0.4 once p exceeds 0.3. *)
Lemma exp_rain_bound (p : R) : 0.3 < p -> 0 < exp (-5 * p) < 0.4.
Proof.
  intros Hp. split; [apply exp_pos|].
  assert (H1 : exp (-5 * p) < exp (- (3 / 2))) by (apply exp_increasing; lra).
  pose proof (exp_ineq1 (3 / 2)) as H2.
  assert (H3 : exp (- (3 / 2)) * exp (3 / 2) = 1).
  { rewrite <- exp_plus. replace (- (3 / 2) + 3 / 2) with 0 by lra. apply exp_0. }
  pose proof (exp_pos (- (3 / 2))) as H4.
  assert (H5 : 1 + 3 / 2 < exp (3 / 2)) by (apply H2; lra).
  nra.
Qed.

Lemma adjust_for_context_bounds (score : R) (user_context : option UserContextMetrics) :
  0 <= score <= 100 ->
  0 <= adjust_for_context score user_context <= 100 /\
  score - 20 <= adjust_for_context score user_context <= score + 10.
Proof.
  intros Hs. unfold adjust_for_context.
  destruct user_context as [ctx|]; [|lra].
  destruct (days_since_last_wash ctx) as [days_since|]; [|lra].
  destruct (is_interval_optimal ctx) as [[|]|];
    try (destruct (days_since <? 7)%Z; [|lra]);
    rewrite ?py_min_Rmin, ?py_max_Rmax; unfold Rmin, Rmax;
    destruct (Rle_dec _ _); lra.
Qed.

(** X2: a day on which rain is expected (precipitation probability above
    0.3) scores below 46 whatever the other readings and the user context
    are; it is never an acceptable day and never flagged recommended. *)
Theorem rain_expected_never_recommended
    (weather_data : WeatherDay) (user_context : option UserContextMetrics) (p : R) :
  wd_precipitation_probability weather_data = Some p ->
  0.3 < p ->
  exists analysis,
    analyze_weather_day fmt0f str_int lower weather_data user_context
    = Py.Return analysis /\
    ad_is_rain_expected analysis = true /\
    (exists score, ad_score analysis = Some score /\ 0 <= score < 46) /\
    is_acceptable analysis = false /\
    is_recommended_day analysis = false.
Proof.
  intros Hp Hgt.
  assert (Hrange : forall q, wd_precipitation_probability weather_data = Some q ->
                             -5 * q <= Py.EXP_MAX).
  { intros q Hq. rewrite Hp in Hq. inversion Hq; subst q. unfold Py.EXP_MAX. lra. }
  unfold analyze_weather_day.
  rewrite calculate_score_clamp by exact Hrange. cbn [Py.bind].
  eexists. split; [reflexivity|].
  cbn [ad_is_rain_expected].
  assert (Hrain : match wd_precipitation_probability weather_data with
                  | Some p => Py.Rltb MIN_PRECIPITATION_THRESHOLD p
                  | None => false
                  end = true).
  { rewrite Hp. apply Rltb_true. unfold MIN_PRECIPITATION_THRESHOLD. exact Hgt. }
  match goal with
  | |- _ /\ (exists score, ad_score ?a = _ /\ _) /\ _ =>
      assert (Hscore : exists score, ad_score a = Some score /\ 0 <= score < 46)
  end.
  { cbn [ad_score]. eexists. split; [reflexivity|].
    rewrite Hp.
    assert (E : Py.Rltb MIN_PRECIPITATION_THRESHOLD p = true)
      by (apply Rltb_true; unfold MIN_PRECIPITATION_THRESHOLD; exact Hgt).
    rewrite E.
    match goal with
    | |- _ <= adjust_for_context ?s _ < _ =>
        assert (Hs : 0 <= s < 36);
        [| pose proof (adjust_for_context_bounds s user_context ltac:(lra)); lra]
    end.
    pose proof (temp_score_of_range (wd_temperature_avg weather_data)).
    pose proof (wind_score_of_range (wd_wind_speed weather_data)).
    pose proof (humidity_score_of_range (wd_humidity weather_data)).
    pose proof (exp_rain_bound p Hgt).
    unfold ScoreSpec.clamp, ScoreSpec.weighted_total, ScoreSpec.penalty, Rmax, Rmin.
    destruct (match wd_temperature_avg weather_data with Some _ => _ | None => _ end);
      destruct (match wd_wind_speed weather_data with Some _ => _ | None => _ end);
      destruct (Rle_dec 100 _); destruct (Rle_dec 0 _); lra. }
  split; [exact Hrain|]. split; [exact Hscore|].
  destruct Hscore as (score & Hs & Hscore).
  unfold is_acceptable, is_recommended_day, min_acceptable_score. rewrite Hs.
  assert (E : Py.Rleb 60 score = false) by (apply Rleb_false; lra).
  rewrite E. rewrite andb_false_r. split; reflexivity.
Qed.

(** X3: the user context moves the score of a day by a bounded step: an
    optimal wash interval never lowers it and adds at most 10, a wash
    less than 7 days ago (interval not optimal) never raises it and takes
    at most 20, and any other context leaves it as it is.  The context
    plays no part in whether the analysis returns: with and without it
    the analysis returns wherever [math.exp] does not overflow, and
    raises OverflowError otherwise. *)
Theorem context_adjustment
    (weather_data : WeatherDay) (ctx : UserContextMetrics) :
  let plain := analyze_weather_day fmt0f str_int lower weather_data None in
  let adjusted := analyze_weather_day fmt0f str_int lower weather_data (Some ctx) in
  (exists p, wd_precipitation_probability weather_data = Some p /\
             Py.EXP_MAX < -5 * p /\
             plain = Py.Raise Py.OverflowError /\
             adjusted = Py.Raise Py.OverflowError) \/
  ((forall p, wd_precipitation_probability weather_data = Some p ->
              -5 * p <= Py.EXP_MAX) /\
   exists day day' base score,
     plain = Py.Return day /\ adjusted = Py.Return day' /\
     ad_score day = Some base /\
     ad_score day' = Some score /\
     match days_since_last_wash ctx, is_interval_optimal ctx with
     | Some _, Some true => base <= score <= base + 10 /\ score = Rmin 100 (base + 10)
     | Some days_since, _ =>
         if (days_since <? 7)%Z
         then base - 20 <= score <= base /\ score = Rmax 0 (base - 20)
         else score = base
     | None, _ => score = base
     end).
Proof.
  intros plain adjusted.
  assert (Hcases : (exists p, wd_precipitation_probability weather_data = Some p /\
                              Py.EXP_MAX < -5 * p) \/
                   (forall p, wd_precipitation_probability weather_data = Some p ->
                              -5 * p <= Py.EXP_MAX)).
  { destruct (wd_precipitation_probability weather_data) as [p|];
      [|right; intros q Hq; discriminate Hq].
    destruct (Rlt_dec Py.EXP_MAX (-5 * p)) as [H|H].
    - left. exists p. split; [reflexivity | exact H].
    - right. intros q Hq. inversion Hq; subst q. lra. }
  destruct Hcases as [(p & Hp & Hover)|Hrange].
  - left. exists p. subst plain adjusted.
    rewrite !(analyze_weather_day_overflow fmt0f str_int lower weather_data _ p Hp Hover).
    auto.
  - right. split; [exact Hrange|]. subst plain adjusted.
    unfold analyze_weather_day.
    rewrite calculate_score_clamp by exact Hrange. cbn [Py.bind].
    eexists. eexists. eexists. eexists.
    split; [reflexivity|]. split; [reflexivity|]. cbn [ad_score].
    split; [reflexivity|]. split; [reflexivity|].
    match goal with
    | |- context [adjust_for_context ?s None] =>
        assert (Hs : 0 <= s <= 100) by apply clamp_bounds;
        generalize dependent s
    end.
    intros s Hs. unfold adjust_for_context.
    destruct (days_since_last_wash ctx) as [days_since|]; [|reflexivity].
    destruct (is_interval_optimal ctx) as [[|]|].
    + rewrite py_min_Rmin. split; [|reflexivity].
      unfold Rmin. destruct (Rle_dec _ _); lra.
    + destruct (days_since <? 7)%Z; [|reflexivity].
      rewrite py_max_Rmax. split; [|reflexivity].
      unfold Rmax. destruct (Rle_dec _ _); lra.
    + destruct (days_since <? 7)%Z; [|reflexivity].
      rewrite py_max_Rmax. split; [|reflexivity].
      unfold Rmax. destruct (Rle_dec _ _); lra.
Qed.
End ScoringFacts.

(** ** The list of all days and the choice among equals *)

Section AllDaysFacts.
Import AdvisorSchemas Advisor BestDaySpec AdvisorRest.
Local Open Scope R_scope.
Variable parse_date : string -> option Z.

Lemma is_recommended_day_score (day : AnalyzedDay) :
  is_recommended_day day = Py.Rleb 60 (score_of day).
Proof.
  unfold is_recommended_day, score_of, min_acceptable_score.
  destruct (ad_score day); [reflexivity|].
  symmetry. apply Rleb_false. lra.
Qed.

Lemma generate_all_cons (day : AnalyzedDay) (rest : list AnalyzedDay) (date : Z)
    (recs : list WashRecommendationDay) :
  parse_date (ad_date day) = Some date ->
  0 <= score_of day <= 100 ->
  generate_all_days_recommendations parse_date rest = Py.Return recs ->
  generate_all_days_recommendations parse_date (day :: rest)
  = Py.Return (day_record date day :: recs).
Proof.
  intros Hdate Hscore Hrest. simpl.
  rewrite Hdate, is_recommended_day_score, score_key_score_of.
  rewrite new_day_valid by exact Hscore. simpl. rewrite Hrest. reflexivity.
Qed.

Lemma generate_all_well_formed (analyzed_days : list AnalyzedDay) :
  (forall day, In day analyzed_days -> well_formed parse_date day) ->
  exists recs,
    generate_all_days_recommendations parse_date analyzed_days = Py.Return recs /\
    Forall2 (fun day r => exists date, parse_date (ad_date day) = Some date /\
                                       r = day_record date day)
            analyzed_days recs.
Proof.
  induction analyzed_days as [|day rest IH]; intros Hwf.
  - exists []. split; [reflexivity | constructor].
  - destruct IH as (recs & Hrecs & Hall); [intros d Hd; apply Hwf; now right|].
    destruct (Hwf day (or_introl eq_refl)) as [[date Hdate] Hscore].
    exists (day_record date day :: recs). split.
    + apply generate_all_cons; assumption.
    + constructor; [exists date; split; [exact Hdate | reflexivity] | exact Hall].
Qed.

(** X4: for analysed days with readable dates and scores in [0,100] the
    list of all days has one record per day, in the same order, carrying
    the day's score, reason and readings and flagged recommended exactly
    when the score is at least 60; if the date of any day cannot be read,
    the whole list fails with a validation error. *)
Theorem all_days_recommendations (analyzed_days : list AnalyzedDay) :
  ((forall day, In day analyzed_days -> well_formed parse_date day) ->
   exists recs,
     generate_all_days_recommendations parse_date analyzed_days = Py.Return recs /\
     List.length recs = List.length analyzed_days /\
     Forall2 (fun day r => exists date, parse_date (ad_date day) = Some date /\
                                        r = day_record date day)
             analyzed_days recs) /\
  ((exists day, In day analyzed_days /\ parse_date (ad_date day) = None) ->
   generate_all_days_recommendations parse_date analyzed_days
   = Py.Raise Py.ValidationError).
Proof.
  split.
  - intros Hwf. destruct (generate_all_well_formed analyzed_days Hwf) as (recs & Hr & Hall).
    exists recs. split; [exact Hr|]. split; [|exact Hall].
    symmetry. eapply Forall2_length. exact Hall.
  - induction analyzed_days as [|day rest IH]; intros (bad & Hin & Hbad); [destruct Hin|].
    simpl. destruct (parse_date (ad_date day)) as [date|] eqn:Hdate.
    + destruct Hin as [->|Hin]; [congruence|].
      unfold new_WashRecommendationDay.
      destruct (Py.Rleb 0 (score_key day) && Py.Rleb (score_key day) 100);
        [|reflexivity].
      simpl. rewrite IH by (exists bad; tauto). reflexivity.
    + reflexivity.
Qed.

(** X5: the best day is one of the records of the list of all days: the
    two functions build the same record for the chosen day. *)
Theorem best_day_among_all_days (analyzed_days : list AnalyzedDay) :
  analyzed_days <> [] ->
  (forall day, In day analyzed_days -> well_formed parse_date day) ->
  exists best recs,
    find_best_wash_day parse_date analyzed_days = Py.Return (Some best) /\
    generate_all_days_recommendations parse_date analyzed_days = Py.Return recs /\
    In best recs.
Proof.
  intros Hne Hwf.
  destruct (generate_all_well_formed analyzed_days Hwf) as (recs & Hr & Hall).
  assert (Hcne : candidates analyzed_days <> []).
  { unfold candidates. destruct (filter is_acceptable analyzed_days); congruence. }
  assert (Hsub : forall x, In x (candidates analyzed_days) -> In x analyzed_days).
  { unfold candidates. destruct (filter is_acceptable analyzed_days) eqn:E; [tauto|].
    intros x Hx. rewrite <- E in Hx. apply filter_In in Hx. tauto. }
  destruct (sorted_by_score_desc_head _ Hcne) as (day & rest & Hs & Hin & _).
  apply Hsub in Hin.
  destruct (Hwf day Hin) as [[date Hdate] Hscore].
  exists (day_record date day), recs. split; [|split; [exact Hr|]].
  - unfold day_record. rewrite <- score_key_score_of.
    eapply find_best_of; try eassumption; [reflexivity|].
    rewrite score_key_score_of. exact Hscore.
  - clear - Hall Hin Hdate. induction Hall as [|d r ds rs Hd _ IH]; [destruct Hin|].
    destruct Hin as [->|Hin]; [|right; apply IH; exact Hin].
    left. destruct Hd as (date' & Hd' & ->). congruence.
Qed.

(** Among the sorted days the first is the earliest day of greatest
    score. *)
Lemma sorted_head_first_max (l : list AnalyzedDay) (h : AnalyzedDay)
    (rest : list AnalyzedDay) :
  sorted_by_score_desc l = h :: rest ->
  exists pre post,
    l = pre ++ h :: post /\
    (forall x, In x pre -> score_key x < score_key h) /\
    (forall x, In x post -> score_key x <= score_key h).
Proof.
  revert h rest. induction l as [|a l IH]; intros h rest Hs; [discriminate|].
  unfold sorted_by_score_desc in *. simpl in Hs.
  destruct (fold_right insert_desc [] l) as [|y ys] eqn:E.
  - simpl in Hs. inversion Hs; subst.
    assert (l = []) as ->.
    { destruct l as [|b l]; [reflexivity|].
      assert (Hin : In b (sorted_by_score_desc (b :: l)))
        by (apply sorted_by_score_desc_In; now left).
      unfold sorted_by_score_desc in Hin. rewrite E in Hin. destruct Hin. }
    exists [], []. split; [reflexivity|]. split; intros x [].
  - simpl in Hs. destruct (IH y ys eq_refl) as (pre & post & Hl & Hpre & Hpost).
    destruct (Py.Rltb (score_key a) (score_key y)) eqn:Hlt; inversion Hs; subst.
    + apply Rltb_true in Hlt. exists (a :: pre), post. split; [reflexivity|]. split.
      * intros x [<-|Hx]; [exact Hlt | apply Hpre; exact Hx].
      * exact Hpost.
    + apply Rltb_false in Hlt. exists [], (pre ++ y :: post).
      split; [reflexivity|]. split; [intros x []|].
      intros x Hx. apply in_app_or in Hx. destruct Hx as [Hx|[<-|Hx]].
      * specialize (Hpre x Hx). lra.
      * exact Hlt.
      * specialize (Hpost x Hx). lra.
Qed.

(** X6: of several days sharing the greatest score the one that comes
    first in the forecast is chosen: every candidate before the chosen day
    scores strictly less, every candidate after it scores no more. *)
Theorem best_day_first_among_equals (analyzed_days : list AnalyzedDay) :
  analyzed_days <> [] ->
  (forall day, In day analyzed_days -> well_formed parse_date day) ->
  exists pre best post date,
    candidates analyzed_days = pre ++ best :: post /\
    (forall day, In day pre -> score_of day < score_of best) /\
    (forall day, In day post -> score_of day <= score_of best) /\
    parse_date (ad_date best) = Some date /\
    find_best_wash_day parse_date analyzed_days
    = Py.Return (Some (day_record date best)).
Proof.
  intros Hne Hwf.
  assert (Hcne : candidates analyzed_days <> []).
  { unfold candidates. destruct (filter is_acceptable analyzed_days); congruence. }
  assert (Hsub : forall x, In x (candidates analyzed_days) -> In x analyzed_days).
  { unfold candidates. destruct (filter is_acceptable analyzed_days) eqn:E; [tauto|].
    intros x Hx. rewrite <- E in Hx. apply filter_In in Hx. tauto. }
  destruct (sorted_by_score_desc_head _ Hcne) as (best & rest & Hs & Hin & _).
  destruct (sorted_head_first_max _ _ _ Hs) as (pre & post & Hl & Hpre & Hpost).
  destruct (Hwf best (Hsub best Hin)) as [[date Hdate] Hscore].
  exists pre, best, post, date. split; [exact Hl|].
  split; [intros d Hd; rewrite <- !score_key_score_of; apply Hpre; exact Hd|].
  split; [intros d Hd; rewrite <- !score_key_score_of; apply Hpost; exact Hd|].
  split; [exact Hdate|].
  unfold day_record. rewrite <- score_key_score_of.
  apply (find_best_of parse_date analyzed_days (candidates analyzed_days) rest best date);
    try assumption; [reflexivity|].
  rewrite score_key_score_of. exact Hscore.
Qed.
End AllDaysFacts.

(** ** The reason text *)

Section ReasonFacts.
Import Advisor.
Local Open Scope R_scope.
Variable fmt0f : R -> string.
Variable str_int : Z -> string.
Variable lower : string -> string.

Lemma prefix_nil (s : string) : String.prefix EmptyString s = true.
Proof. destruct s; reflexivity. Qed.

(** A prefix of [u] is a prefix of [u ++ t]. *)
Lemma prefix_append_l (s u t : string) :
  String.prefix s u = true -> String.prefix s (u ++ t) = true.
Proof.
  revert s. induction u as [|c u IH]; intros s H.
  - destruct s; [apply prefix_nil | discriminate H].
  - destruct s as [|a s]; [reflexivity|]. simpl in *.
    destruct (ascii_dec a c); [apply IH; exact H | exact H].
Qed.

(** X7: the explanation of a day opens with the phrase of its score band:
    below 40 "very bad conditions", from 40 "unfavourable conditions",
    from 60 "satisfactory conditions", from 80 either exactly "excellent
    conditions for a wash" or "good conditions, but" followed by the
    clauses; when rain is not expected, the temperature is optimal, the
    wind is acceptable and there is no user context, the text is the bare
    phrase of the band. *)
Theorem reason_follows_score_band
    (is_rain_expected is_temperature_optimal is_wind_acceptable : bool)
    (precip_prob temp wind_speed : option R) (score : R)
    (user_context : option UserContextMetrics) :
  let reason := _generate_reason fmt0f str_int lower is_rain_expected
                  is_temperature_optimal is_wind_acceptable precip_prob temp
                  wind_speed score user_context in
  (80 <= score ->
     reason = "Отличные условия для мойки"%string \/
     String.prefix "Хорошие условия, но " reason = true) /\
  (60 <= score < 80 -> String.prefix "Удовлетворительные условия" reason = true) /\
  (40 <= score < 60 -> String.prefix "Неблагоприятные условия" reason = true) /\
  (score < 40 -> String.prefix "Очень плохие условия" reason = true) /\
  (is_rain_expected = false -> is_temperature_optimal = true ->
   is_wind_acceptable = true -> user_context = None ->
   reason = if Py.Rleb 80 score then "Отличные условия для мойки"%string
            else if Py.Rleb 60 score then "Удовлетворительные условия для мойки"%string
            else if Py.Rleb 40 score then "Неблагоприятные условия"%string
            else "Очень плохие условия"%string).
Proof.
  intros reason.
  assert (Hbare : is_rain_expected = false -> is_temperature_optimal = true ->
                  is_wind_acceptable = true -> user_context = None ->
                  reason = if Py.Rleb 80 score then "Отличные условия для мойки"%string
                           else if Py.Rleb 60 score
                                then "Удовлетворительные условия для мойки"%string
                           else if Py.Rleb 40 score then "Неблагоприятные условия"%string
                           else "Очень плохие условия"%string).
  { intros -> -> -> ->. subst reason. unfold _generate_reason. simpl.
    destruct (Py.Rleb 80 score), (Py.Rleb 60 score), (Py.Rleb 40 score); reflexivity. }
  split; [|split; [|split; [|split; [|exact Hbare]]]]; clear Hbare;
    subst reason; unfold _generate_reason;
    match goal with
    | |- context [Py.join ", " ?l] => generalize l
    end; intros reasons.
  - intros H. apply Rleb_true in H. rewrite H.
    destruct reasons; [left; reflexivity | right; apply prefix_append_l; reflexivity].
  - intros [H1 H2].
    apply Rleb_true in H1. assert (H3 : Py.Rleb 80 score = false) by (apply Rleb_false; lra).
    rewrite H3, H1. destruct reasons; [reflexivity | apply prefix_append_l; reflexivity].
  - intros [H1 H2].
    apply Rleb_true in H1.
    assert (H3 : Py.Rleb 80 score = false) by (apply Rleb_false; lra).
    assert (H4 : Py.Rleb 60 score = false) by (apply Rleb_false; lra).
    rewrite H3, H4, H1. destruct reasons; [reflexivity | apply prefix_append_l; reflexivity].
  - intros H.
    assert (H3 : Py.Rleb 80 score = false) by (apply Rleb_false; lra).
    assert (H4 : Py.Rleb 60 score = false) by (apply Rleb_false; lra).
    assert (H5 : Py.Rleb 40 score = false) by (apply Rleb_false; lra).
    rewrite H3, H4, H5. destruct reasons; [reflexivity | apply prefix_append_l; reflexivity].
Qed.
(** X1: the analysis of a day either raises OverflowError, which it does
    exactly when the day has a precipitation probability so low that
    [math.exp] overflows, or returns a day that carries a score between
    0 and 100, with or without user context, on which the two tests the
    advisor applies agree: the day passes the filter of the best-day
    search exactly when the list of all days flags it as recommended,
    that is when its score is at least 60. *)
Theorem analysed_day_score
    (weather_data : WeatherDay) (user_context : option UserContextMetrics) :
  let result := analyze_weather_day fmt0f str_int lower weather_data user_context in
  (exists p, wd_precipitation_probability weather_data = Some p /\
             Py.EXP_MAX < -5 * p /\
             result = Py.Raise Py.OverflowError) \/
  ((forall p, wd_precipitation_probability weather_data = Some p ->
              -5 * p <= Py.EXP_MAX) /\
   exists day score,
     result = Py.Return day /\
     ad_score day = Some score /\ 0 <= score <= 100 /\
     score_key day = score /\
     is_acceptable day = Py.Rleb 60 score /\
     is_recommended_day day = Py.Rleb 60 score).
Proof.
  intros result.
  assert (Hcases : (exists p, wd_precipitation_probability weather_data = Some p /\
                              Py.EXP_MAX < -5 * p) \/
                   (forall p, wd_precipitation_probability weather_data = Some p ->
                              -5 * p <= Py.EXP_MAX)).
  { destruct (wd_precipitation_probability weather_data) as [p|];
      [|right; intros q Hq; discriminate Hq].
    destruct (Rlt_dec Py.EXP_MAX (-5 * p)) as [H|H].
    - left. exists p. split; [reflexivity | exact H].
    - right. intros q Hq. inversion Hq; subst q. lra. }
  destruct Hcases as [(p & Hp & Hover)|Hrange].
  - left. exists p. subst result.
    rewrite (analyze_weather_day_overflow fmt0f str_int lower weather_data _ p Hp Hover).
    auto.
  - right. split; [exact Hrange|].
    destruct (analyze_weather_day_score_range fmt0f str_int lower weather_data
                user_context Hrange) as (day & score & Hday & Hscore & Hbounds & _).
    exists day, score.
    assert (Hkey : score_key day = score).
    { rewrite score_key_score_of. unfold BestDaySpec.score_of. rewrite Hscore. reflexivity. }
    split; [exact Hday|]. split; [exact Hscore|]. split; [exact Hbounds|].
    split; [exact Hkey|]. split.
    + rewrite is_acceptable_score, Hkey. reflexivity.
    + rewrite is_recommended_day_score, <- score_key_score_of, Hkey. reflexivity.
Qed.
End ReasonFacts.

(** ** Recommendations: store, cache and history *)

Section RecommendationFacts.
Import AdvisorSettings AdvisorModels Advisor AdvisorCrud AdvisorRest.
Variable generate_uuid : nat -> string.

(** X8: a recommendation stored at [now] and flagged recommended is a
    cache hit for its user and location at any later time within 24 hours
    (the lookup returns a recommended row at least as recent), while a
    stored recommendation that is not flagged recommended changes no
    cache lookup at all. *)
Theorem stored_recommendation_and_cache
    (now : Z) (db : AdvisorDb) (user_id location : string) (recommendation_date : Z)
    (weather_data : option WeatherDay) (analysis_results : AnalysisResults)
    (user_context : option UserContextMetrics) :
  let stored := create_recommendation now generate_uuid db user_id location
                  recommendation_date weather_data analysis_results user_context in
  (ar_is_recommended analysis_results = true ->
   forall later days,
     (now <= later <= now + Db.timedelta_hours CACHE_RECOMMENDATION_HOURS)%Z ->
     exists r,
       get_cached_recommendation later (fst stored) user_id location days = Some r /\
       wr_is_recommended r = true /\ (now <= wr_created_at r)%Z) /\
  (ar_is_recommended analysis_results = false ->
   forall later user_id' location' days,
     get_cached_recommendation later (fst stored) user_id' location' days
     = get_cached_recommendation later db user_id' location' days).
Proof.
  intros stored. split.
  - intros Hrec later days Hlater.
    rewrite get_cached_recommendation_head.
    destruct (snd stored) as [row|] eqn:Hrow; [|discriminate Hrow].
    assert (Hin : In row
              (filter (cache_filter (later - Db.timedelta_hours CACHE_RECOMMENDATION_HOURS)
                         user_id location)
                 (wash_recommendations (fst stored)))).
    { subst stored. unfold create_recommendation in *. cbn [fst snd wash_recommendations] in *.
      inversion Hrow; subst row; clear Hrow.
      apply filter_In. split; [apply in_or_app; right; now left|].
      apply cache_filter_true. cbn [wr_user_id wr_location wr_created_at wr_is_recommended].
      repeat split; try assumption. lia. }
    destruct (hd_error _) as [r|] eqn:Hhd.
    + apply order_by_desc_head in Hhd. destruct Hhd as [Hr Hmax].
      exists r. split; [reflexivity|].
      specialize (Hmax row Hin).
      apply filter_In in Hr. destruct Hr as [_ Hr]. apply cache_filter_true in Hr.
      split; [tauto|].
      subst stored. unfold create_recommendation in Hrow. cbn [snd] in Hrow.
      inversion Hrow; subst row. cbn in Hmax. exact Hmax.
    + exfalso.
      match type of Hhd with hd_error ?l = None =>
        assert (Hnil : l = []) by (destruct l; [reflexivity | discriminate Hhd])
      end.
      apply order_by_desc_nil in Hnil. rewrite Hnil in Hin. destruct Hin.
  - intros Hrec later user_id' location' days.
    rewrite !get_cached_recommendation_head.
    subst stored. unfold create_recommendation. cbn [fst wash_recommendations].
    rewrite filter_app. cbn [filter].
    unfold cache_filter at 2. cbn [wr_is_recommended]. rewrite Hrec.
    cbn [Bool.eqb]. rewrite andb_false_r. rewrite app_nil_r. reflexivity.
Qed.

Lemma order_by_desc_length {A : Type} (key : A -> Z) (l : list A) :
  List.length (Db.order_by_desc key l) = List.length l.
Proof.
  assert (Hins : forall a s, List.length (Db.insert_desc key a s) = S (List.length s)).
  { intros a s. induction s as [|y s IH]; simpl; [reflexivity|].
    destruct (key a <? key y)%Z; simpl; [rewrite IH|]; reflexivity. }
  induction l as [|a l IH]; [reflexivity|].
  unfold Db.order_by_desc in *. simpl. rewrite Hins, IH. reflexivity.
Qed.

Lemma insert_desc_sorted {A : Type} (key : A -> Z) (a : A) (s : list A) :
  StronglySorted (fun x y => (key y <= key x)%Z) s ->
  StronglySorted (fun x y => (key y <= key x)%Z) (Db.insert_desc key a s).
Proof.
  induction s as [|y s IH]; simpl; intros Hs.
  - constructor; [constructor | constructor].
  - apply StronglySorted_inv in Hs. destruct Hs as [Hs Hy].
    destruct (key a <? key y)%Z eqn:E.
    + apply Z.ltb_lt in E. constructor; [apply IH; exact Hs|].
      apply Forall_forall. intros x Hx. apply insert_desc_In in Hx.
      destruct Hx as [->|Hx]; [lia|].
      rewrite Forall_forall in Hy. apply Hy. exact Hx.
    + apply Z.ltb_ge in E. constructor; [constructor; assumption|].
      constructor; [exact E|].
      rewrite Forall_forall in *. intros x Hx. specialize (Hy x Hx). lia.
Qed.

Lemma order_by_desc_sorted {A : Type} (key : A -> Z) (l : list A) :
  StronglySorted (fun x y => (key y <= key x)%Z) (Db.order_by_desc key l).
Proof.
  induction l as [|a l IH]; [constructor|].
  unfold Db.order_by_desc in *. simpl. apply insert_desc_sorted. exact IH.
Qed.

Lemma firstn_sorted {A : Type} (R : A -> A -> Prop) (n : nat) (l : list A) :
  StronglySorted R l -> StronglySorted R (firstn n l).
Proof.
  revert n. induction l as [|a l IH]; intros n Hs; [rewrite firstn_nil; constructor|].
  destruct n; [constructor|]. simpl.
  apply StronglySorted_inv in Hs. destruct Hs as [Hs Ha].
  constructor; [apply IH; exact Hs|].
  rewrite Forall_forall in *. intros x Hx. apply Ha.
  rewrite <- (firstn_skipn n l). apply in_or_app. now left.
Qed.

(** X9: the history of a user lists only stored recommendations of that
    user, newest first, and as many of them as the limit allows: the
    smaller of the limit and the number of the user's rows; a negative
    limit gives an empty history. *)
Theorem user_history (db : AdvisorDb) (user_id : string) (limit : Z) :
  let history := get_user_recommendations db user_id limit in
  let own := filter (fun r => String.eqb (wr_user_id r) user_id) (wash_recommendations db) in
  (forall r, In r history -> In r (wash_recommendations db) /\ wr_user_id r = user_id) /\
  StronglySorted (fun r r' => (wr_created_at r' <= wr_created_at r)%Z) history /\
  ((0 <= limit)%Z -> List.length history = Nat.min (Z.to_nat limit) (List.length own)) /\
  ((limit < 0)%Z -> history = []) /\
  (forall r r', In r history -> In r' own -> ~ In r' history ->
                (wr_created_at r' <= wr_created_at r)%Z).
Proof.
  intros history own. subst history. unfold get_user_recommendations, Db.limit.
  fold own.
  destruct (limit <? 0)%Z eqn:E.
  - apply Z.ltb_lt in E.
    conjs; [intros r [] | constructor | intros; lia | reflexivity | intros r r' []].
  - apply Z.ltb_ge in E. conjs.
    + intros r Hr.
      assert (Hr' : In r (Db.order_by_desc wr_created_at own))
        by (rewrite <- (firstn_skipn (Z.to_nat limit)); apply in_or_app; now left).
      apply order_by_desc_In in Hr'. apply filter_In in Hr'.
      destruct Hr' as [H1 H2]. apply String.eqb_eq in H2. tauto.
    + apply firstn_sorted. apply order_by_desc_sorted.
    + intros _. rewrite length_firstn, order_by_desc_length. reflexivity.
    + intros; lia.
    + intros r r' Hr Hown Hout.
      pose proof (order_by_desc_sorted wr_created_at own) as Hs.
      assert (Hr' : In r' (Db.order_by_desc wr_created_at own))
        by (apply order_by_desc_In; exact Hown).
      rewrite <- (firstn_skipn (Z.to_nat limit)) in Hr', Hs.
      apply in_app_or in Hr'. destruct Hr' as [Hr'|Hr']; [contradiction|].
      revert Hs Hr Hr'. generalize (firstn (Z.to_nat limit) (Db.order_by_desc wr_created_at own)).
      generalize (skipn (Z.to_nat limit) (Db.order_by_desc wr_created_at own)).
      intros tail head Hs Hr Hr'. induction head as [|h head IH]; [destruct Hr|].
      simpl in Hs. apply StronglySorted_inv in Hs. destruct Hs as [Hs Hh].
      destruct Hr as [->|Hr]; [|apply IH; assumption].
      rewrite Forall_forall in Hh. apply Hh. apply in_or_app. now right.
Qed.
End RecommendationFacts.

(** ** The user context table *)

Section UserContextFacts.
Import AdvisorModels Advisor AdvisorCrud.
Variable now : Z.
Variable generate_uuid : nat -> string.

Local Abbreviation of_user user_id := (fun c => String.eqb (uc_user_id c) user_id).

Lemma unique_user_filter (rows : list UserContext) (user_id : string) :
  NoDup (map uc_user_id rows) ->
  (List.length (filter (of_user user_id) rows) <= 1)%nat.
Proof.
  induction rows as [|c rows IH]; intros Hnd; [simpl; lia|].
  simpl in Hnd. apply NoDup_cons_iff in Hnd. destruct Hnd as [Hc Hnd].
  simpl. destruct (String.eqb (uc_user_id c) user_id) eqn:E; [|apply IH; exact Hnd].
  apply String.eqb_eq in E.
  destruct (filter (of_user user_id) rows) as [|x xs] eqn:F; [simpl; lia|].
  exfalso. apply Hc.
  assert (Hx : In x (filter (of_user user_id) rows)) by (rewrite F; now left).
  apply filter_In in Hx. destruct Hx as [Hx Hu]. apply String.eqb_eq in Hu.
  rewrite E, <- Hu. apply in_map. exact Hx.
Qed.

Lemma update_context_users (user_id : string) (context_data : UserContextData)
    (rows : list UserContext) :
  map uc_user_id (update_context now user_id context_data rows) = map uc_user_id rows.
Proof.
  induction rows as [|c rows IH]; [reflexivity|].
  simpl. destruct (String.eqb (uc_user_id c) user_id); simpl; [|rewrite IH]; reflexivity.
Qed.

Lemma update_context_other (user_id other : string) (context_data : UserContextData)
    (rows : list UserContext) :
  other <> user_id ->
  filter (of_user other) (update_context now user_id context_data rows)
  = filter (of_user other) rows.
Proof.
  intros Hne. induction rows as [|c rows IH]; [reflexivity|].
  simpl. destruct (String.eqb (uc_user_id c) user_id) eqn:E.
  - apply String.eqb_eq in E. simpl. rewrite E.
    destruct (String.eqb user_id other) eqn:E'; [|reflexivity].
    apply String.eqb_eq in E'. congruence.
  - simpl. rewrite IH. reflexivity.
Qed.

Lemma update_context_same (user_id : string) (context_data : UserContextData)
    (rows : list UserContext) (existing : UserContext) :
  filter (of_user user_id) rows = [existing] ->
  filter (of_user user_id) (update_context now user_id context_data rows)
  = [ {| uc_id := uc_id existing;
         uc_user_id := uc_user_id existing;
         uc_city := cd_city context_data;
         uc_country := cd_country context_data;
         uc_last_wash_date := cd_last_wash_date context_data;
         uc_preferred_wash_interval := cd_preferred_wash_interval context_data;
         uc_last_sync := Some now |} ].
Proof.
  induction rows as [|c rows IH]; [discriminate|].
  simpl. destruct (String.eqb (uc_user_id c) user_id) eqn:E; intros H.
  - inversion H; subst c. simpl. rewrite E. f_equal; assumption.
  - simpl. rewrite E. apply IH. exact H.
Qed.

Lemma get_user_context_some (db : AdvisorDb) (user_id : string) (c : UserContext) :
  get_user_context db user_id = Some c <->
  filter (of_user user_id) (user_context db) = [c].
Proof.
  unfold get_user_context.
  destruct (filter (of_user user_id) (user_context db)) as [|x [|y l]]; simpl;
    split; intros H; try discriminate; inversion H; reflexivity.
Qed.

Lemma filter_nil_existsb {A : Type} (p : A -> bool) (l : list A) :
  filter p l = [] -> existsb p l = false.
Proof.
  induction l as [|a l IH]; [reflexivity|].
  simpl. destruct (p a); [discriminate|]. exact IH.
Qed.

(** X10: while the user context table holds at most one row per user (its
    unique column), storing a profile succeeds; the returned row carries
    the profile's fields and the time of the call, it is the row then
    read for that user, the contexts read for other users are unchanged,
    the recommendations are untouched and the table still holds at most
    one row per user.  Stored twice, a profile occupies one row. *)
Theorem user_context_upsert
    (db0 db : AdvisorDb) (user_id : string) (context_data : UserContextData) :
  NoDup (map uc_user_id (user_context db)) ->
  let result := create_or_update_user_context now generate_uuid db0 db user_id context_data in
  exists context,
    snd result = Some context /\
    uc_user_id context = user_id /\
    uc_city context = cd_city context_data /\
    uc_country context = cd_country context_data /\
    uc_last_wash_date context = cd_last_wash_date context_data /\
    uc_preferred_wash_interval context = cd_preferred_wash_interval context_data /\
    uc_last_sync context = Some now /\
    get_user_context (fst result) user_id = Some context /\
    (forall other, other <> user_id ->
       get_user_context (fst result) other = get_user_context db other) /\
    wash_recommendations (fst result) = wash_recommendations db /\
    NoDup (map uc_user_id (user_context (fst result))) /\
    List.length (user_context (fst result))
    = match get_user_context db user_id with
      | Some _ => List.length (user_context db)
      | None => S (List.length (user_context db))
      end.
Proof.
  intros Hnd result. subst result. unfold create_or_update_user_context.
  destruct (get_user_context db user_id) as [existing|] eqn:Hget.
  - apply get_user_context_some in Hget.
    pose proof (update_context_same user_id context_data _ _ Hget) as Hsame.
    assert (Hexisting : uc_user_id existing = user_id).
    { assert (Hin : In existing (filter (of_user user_id) (user_context db)))
        by (rewrite Hget; now left).
      apply filter_In in Hin. destruct Hin as [_ Hin]. apply String.eqb_eq. exact Hin. }
    cbn [fst snd].
    eexists. split.
    { apply get_user_context_some. cbn [user_context]. exact Hsame. }
    cbn [uc_user_id uc_city uc_country uc_last_wash_date uc_preferred_wash_interval
         uc_last_sync wash_recommendations user_context].
    conjs; try reflexivity.
    + exact Hexisting.
    + apply get_user_context_some. cbn [user_context]. exact Hsame.
    + intros other Hne. unfold get_user_context. cbn [user_context].
      rewrite update_context_other by exact Hne. reflexivity.
    + rewrite update_context_users. exact Hnd.
    + rewrite <- (length_map uc_user_id), update_context_users, length_map. reflexivity.
  - assert (Hnone : filter (of_user user_id) (user_context db) = []).
    { pose proof (unique_user_filter _ user_id Hnd) as Hle.
      unfold get_user_context in Hget.
      destruct (filter (of_user user_id) (user_context db)) as [|x [|y l]];
        [reflexivity | discriminate Hget | simpl in Hle; lia]. }
    rewrite (filter_nil_existsb _ _ Hnone). cbn [fst snd].
    eexists. split; [reflexivity|].
    cbn [uc_user_id uc_city uc_country uc_last_wash_date uc_preferred_wash_interval
         uc_last_sync wash_recommendations user_context].
    conjs; try reflexivity.
    + apply get_user_context_some. cbn [user_context].
      rewrite filter_app, Hnone. simpl. rewrite String.eqb_refl. reflexivity.
    + intros other Hne. unfold get_user_context. cbn [user_context].
      rewrite filter_app. simpl.
      destruct (String.eqb user_id other) eqn:E;
        [apply String.eqb_eq in E; congruence|].
      rewrite app_nil_r. reflexivity.
    + rewrite map_app. simpl.
      apply NoDup_app; [exact Hnd | repeat constructor; intros [] |].
      intros u Hu [<-|[]].
      apply in_map_iff in Hu. destruct Hu as [c [Hc1 Hc2]].
      assert (Hin : In c (filter (of_user user_id) (user_context db)))
        by (apply filter_In; split; [exact Hc2 | apply String.eqb_eq; exact Hc1]).
      rewrite Hnone in Hin. destruct Hin.
    + rewrite length_app. simpl. lia.
Qed.
End UserContextFacts.

(** ** The provider client *)

Section ProviderParserFacts.
Import PyVal WeatherClient.
Local Open Scope R_scope.
Variable float_other : string -> option R.

Lemma parse_day_dict (day_data : pyval) (parsed_day : DayData) :
  parse_day float_other day_data = Py.Return parsed_day ->
  (exists entries, day_data = PDict entries) /\
  exists date, dd_date parsed_day = Some date.
Proof.
  unfold parse_day. destruct day_data; simpl; try discriminate.
  intros H. split; [eexists; reflexivity|].
  repeat (match type of H with
          | context [Py.bind ?m _] => destruct m; simpl in H; [|discriminate H]
          end).
  inversion H; subst. simpl. eexists; reflexivity.
Qed.

Lemma parse_days_raw (forecast_days : list pyval) (parsed_days : list DayData) :
  parse_days float_other forecast_days = Py.Return parsed_days ->
  map (fun d => raw_data (dd_fields d)) parsed_days = forecast_days.
Proof.
  revert parsed_days. induction forecast_days as [|d rest IH]; simpl; intros out H.
  - inversion H; reflexivity.
  - destruct (parse_day float_other d) as [pd|] eqn:Hd; simpl in H; [|discriminate].
    destruct (parse_days float_other rest) as [pds|]; simpl in H; [|discriminate].
    inversion H; subst. simpl. rewrite (IH pds eq_refl).
    destruct (parse_day_probability _ _ _ Hd) as [-> _]. reflexivity.
Qed.

Lemma parse_days_not_dict (forecast_days : list pyval) (item : pyval) :
  In item forecast_days -> (forall entries, item <> PDict entries) ->
  exists e, parse_days float_other forecast_days = Py.Raise e.
Proof.
  induction forecast_days as [|d rest IH]; intros Hin Hitem; [destruct Hin|].
  simpl. destruct (parse_day float_other d) as [pd|e] eqn:Hd; simpl; [|eexists; reflexivity].
  destruct Hin as [->|Hin].
  - apply parse_day_dict in Hd. destruct Hd as [[entries ->] _].
    exfalso. apply (Hitem entries). reflexivity.
  - destruct (IH Hin Hitem) as [e ->]. simpl. eexists; reflexivity.
Qed.

(** X11: parsing a provider response is all or nothing.  For a response
    whose [forecast.forecastday] is a list, either every entry is parsed,
    in the provider's order and each keeping its raw block, a date field
    and a numeric probability, or the result has no day at all and the
    placeholder location; the latter happens as soon as one entry is not
    a dictionary, and also when the [location] field is not a dictionary,
    however good the days are.  The raw response is always kept. *)
Theorem parse_forecast_data_all_or_nothing
    (entries forecast : list (string * pyval)) (items : list pyval) :
  lookup "forecast" entries = Some (PDict forecast) ->
  lookup "forecastday" forecast = Some (PList items) ->
  let parsed := parse_forecast_data float_other (PDict entries) in
  let nothing :=
    pf_forecast_days parsed = [] /\
    pf_location parsed = {| ld_city_name := PStr "Unknown"; ld_country := PStr "Unknown";
                            ld_lat := PNum 0; ld_lon := PNum 0 |} in
  pf_raw_response parsed = PDict entries /\
  (map (fun d => raw_data (dd_fields d)) (pf_forecast_days parsed) = items \/ nothing) /\
  (forall d, In d (pf_forecast_days parsed) ->
     exists date p, dd_date d = Some date /\
                    precipitation_probability (dd_fields d) = PNum p) /\
  (forall item, In item items -> (forall e, item <> PDict e) -> nothing) /\
  (forall location, lookup "location" entries = Some location ->
                    (forall e, location <> PDict e) -> nothing).
Proof.
  intros Hforecast Hdays parsed nothing.
  assert (Hraw : pf_raw_response parsed = PDict entries).
  { subst parsed. unfold parse_forecast_data.
    repeat (match goal with
            | |- context [Py.bind ?m _] => destruct m; simpl; try reflexivity
            end). }
  assert (Hshape :
    parse_days float_other items = Py.Return (pf_forecast_days parsed) /\
    (exists l, match lookup "location" entries with Some v => v | None => PDict [] end
               = PDict l)
    \/ nothing /\
       ((exists e, parse_days float_other items = Py.Raise e) \/
        (forall l, match lookup "location" entries with Some v => v | None => PDict [] end
                   <> PDict l))).
  { subst nothing parsed. unfold parse_forecast_data. simpl.
    rewrite Hforecast. simpl. rewrite Hdays. simpl.
    destruct (parse_days float_other items) as [parsed_days|e]; simpl.
    - destruct (match lookup "location" entries with Some v => v | None => PDict [] end)
        as [| | | | | |l]; simpl;
        try (right; split; [split; reflexivity | right; intros l; discriminate]).
      left. split; [reflexivity | eexists; reflexivity].
    - right. split; [split; reflexivity | left; eexists; reflexivity]. }
  conjs.
  - exact Hraw.
  - destruct Hshape as [[Hparsed _]|[Hnothing _]]; [left | right; exact Hnothing].
    apply parse_days_raw. exact Hparsed.
  - intros d Hd. pose proof (parse_forecast_data_days float_other _ _ Hd) as Hparse.
    destruct (parse_day_dict _ _ Hparse) as [_ [date Hdate]].
    destruct (parse_day_probability _ _ _ Hparse) as (_ & _ & p & _ & _ & Hp).
    exists date, p. split; assumption.
  - intros item Hin Hitem.
    destruct Hshape as [[Hparsed _]|[Hnothing _]]; [|exact Hnothing].
    destruct (parse_days_not_dict _ _ Hin Hitem) as [e He].
    rewrite He in Hparsed. discriminate Hparsed.
  - intros location Hlocation Hnot.
    destruct Hshape as [[_ [l Hl]]|[Hnothing _]]; [|exact Hnothing].
    rewrite Hlocation in Hl. exfalso. apply (Hnot l). exact Hl.
Qed.
End ProviderParserFacts.

Section ProviderRequestFacts.
Import PyVal WeatherClientRest.
Variable api_key : option string.
Variable provider : nat -> outcome.

Lemma get_forecast_loop_spec (attempts : list Z) (requests : nat) (sleeps : list Z) :
  let call := get_forecast_loop provider attempts requests sleeps in
  (requests <= fc_requests call <= requests + List.length attempts)%nat /\
  (forall data, fc_result call = Some data ->
     exists n, (requests <= n)%nat /\ fc_requests call = S n /\
               provider n = Response 200 (Py.Return data) /\
               _validate_response data = Py.Return true) /\
  (forall n status_code json,
     (requests <= n < fc_requests call)%nat ->
     provider n = Response status_code json ->
     In status_code [400; 401; 403; 404]%Z ->
     fc_requests call = S n /\ fc_result call = None).
Proof.
  revert requests sleeps. induction attempts as [|attempt rest IH]; intros requests sleeps.
  - simpl. conjs; [lia | lia | discriminate | intros; lia].
  - cbn [get_forecast_loop List.length].
    assert (Hrec : forall sleeps',
      let call := get_forecast_loop provider rest (S requests) sleeps' in
      (requests <= fc_requests call <= requests + S (List.length rest))%nat /\
      (forall data, fc_result call = Some data ->
         exists n, (requests <= n)%nat /\ fc_requests call = S n /\
                   provider n = Response 200 (Py.Return data) /\
                   _validate_response data = Py.Return true) /\
      (forall n status_code json,
         (requests <= n < fc_requests call)%nat ->
         provider n = Response status_code json ->
         (provider requests = Response status_code json ->
          ~ In status_code [400; 401; 403; 404]%Z) ->
         In status_code [400; 401; 403; 404]%Z ->
         fc_requests call = S n /\ fc_result call = None)).
    { intros sleeps'. destruct (IH (S requests) sleeps') as (Hcount & Hdata & Herr).
      cbv zeta. conjs.
      - lia.
      - lia.
      - intros data Hd. destruct (Hdata data Hd) as (n & Hn & H). exists n.
        split; [lia | exact H].
      - intros n s j Hn Hp Hfirst Hin.
        destruct (Nat.eq_dec n requests) as [->|Hne].
        + exfalso. exact (Hfirst Hp Hin).
        + apply (Herr n s j); [lia | exact Hp | exact Hin]. }
    assert (Hstop : forall sleeps',
      let call := mkForecastCall None (S requests) sleeps' in
      (requests <= fc_requests call <= requests + S (List.length rest))%nat /\
      (forall data, fc_result call = Some data ->
         exists n, (requests <= n)%nat /\ fc_requests call = S n /\
                   provider n = Response 200 (Py.Return data) /\
                   _validate_response data = Py.Return true) /\
      (forall n status_code json,
         (requests <= n < fc_requests call)%nat ->
         provider n = Response status_code json ->
         In status_code [400; 401; 403; 404]%Z ->
         fc_requests call = S n /\ fc_result call = None)).
    { intros sleeps'. cbn. conjs; [lia | lia | discriminate |].
      intros n s j Hn _ _. split; [f_equal; lia | reflexivity]. }
    assert (Hweaken : forall call : ForecastCall,
      (forall status_code json, provider requests = Response status_code json ->
                                ~ In status_code [400; 401; 403; 404]%Z) ->
      ((requests <= fc_requests call <= requests + S (List.length rest))%nat /\
       (forall data, fc_result call = Some data ->
          exists n, (requests <= n)%nat /\ fc_requests call = S n /\
                    provider n = Response 200 (Py.Return data) /\
                    _validate_response data = Py.Return true) /\
       (forall n status_code json,
          (requests <= n < fc_requests call)%nat ->
          provider n = Response status_code json ->
          (provider requests = Response status_code json ->
           ~ In status_code [400; 401; 403; 404]%Z) ->
          In status_code [400; 401; 403; 404]%Z ->
          fc_requests call = S n /\ fc_result call = None)) ->
      (requests <= fc_requests call <= requests + S (List.length rest))%nat /\
      (forall data, fc_result call = Some data ->
         exists n, (requests <= n)%nat /\ fc_requests call = S n /\
                   provider n = Response 200 (Py.Return data) /\
                   _validate_response data = Py.Return true) /\
      (forall n status_code json,
         (requests <= n < fc_requests call)%nat ->
         provider n = Response status_code json ->
         In status_code [400; 401; 403; 404]%Z ->
         fc_requests call = S n /\ fc_result call = None)).
    { intros call Hfirst (H1 & H2 & H3). conjs; try assumption; try lia.
      intros n s j Hn Hp Hin. apply (H3 n s j Hn Hp); [|exact Hin].
      intros Hp'. exact (Hfirst s j Hp'). }
    cbv zeta.
    destruct (provider requests) as [status_code json| | |] eqn:Hprovider.
    + destruct (status_code =? 200)%Z eqn:E200.
      * apply Z.eqb_eq in E200. subst status_code.
        destruct json as [data|e]; cbn [Py.bind]; [|apply Hstop].
        destruct (_validate_response data) as [[|]|e] eqn:Hvalid; cbn [Py.bind].
        -- cbn. conjs; [lia | lia | |].
           ++ intros d Hd. inversion Hd; subst d. exists requests.
              repeat split; [lia | exact Hprovider | exact Hvalid].
           ++ intros n s j Hn Hp Hin. assert (n = requests) by lia. subst n.
              rewrite Hprovider in Hp. inversion Hp; subst.
              simpl in Hin. lia.
        -- apply Hweaken; [|apply Hrec].
           intros s j Hp. inversion Hp; subst. simpl. lia.
        -- apply Hstop.
      * destruct ((status_code =? 400)%Z || (status_code =? 401)%Z ||
                  (status_code =? 403)%Z || (status_code =? 404)%Z) eqn:E4; [apply Hstop|].
        assert (Hnot : forall s j, Response status_code json = Response s j ->
                                   ~ In s [400; 401; 403; 404]%Z).
        { intros s j Hp. inversion Hp; subst.
          rewrite !orb_false_iff, !Z.eqb_neq in E4. simpl. lia. }
        destruct (attempt <? 2)%Z; [apply Hweaken; [exact Hnot | apply Hrec]|].
        cbn. conjs; [lia | lia | discriminate |].
        intros n s j Hn _ _. split; [f_equal; lia | reflexivity].
    + destruct (attempt <? 2)%Z; (apply Hweaken; [intros s j Hp; discriminate Hp | apply Hrec]).
    + destruct (attempt <? 2)%Z; (apply Hweaken; [intros s j Hp; discriminate Hp | apply Hrec]).
    + apply Hstop.
Qed.

(** X12: a call for the provider's forecast sends no request without an
    API key, and at most three requests otherwise; it sleeps only between
    requests, at most one and then two seconds.  It returns data only
    when the last request it sent was answered 200 with a body that
    passes the structure check, and it never sends another request after
    an answer 400, 401, 403 or 404. *)
Theorem get_forecast_requests :
  let call := get_forecast api_key provider in
  (fc_requests call <= 3)%nat /\
  (List.length (fc_sleeps call) <= fc_requests call - 1)%nat /\
  In (fc_sleeps call) [[]; [1]; [2]; [1; 2]]%Z /\
  (api_key = None \/ api_key = Some EmptyString ->
   fc_requests call = O /\ fc_result call = None) /\
  (forall data, fc_result call = Some data ->
     exists n, fc_requests call = S n /\
               provider n = Response 200 (Py.Return data) /\
               _validate_response data = Py.Return true) /\
  (forall n status_code json,
     (n < fc_requests call)%nat ->
     provider n = Response status_code json ->
     In status_code [400; 401; 403; 404]%Z ->
     fc_requests call = S n /\ fc_result call = None).
Proof.
  cbv zeta. unfold get_forecast.
  destruct api_key as [key|]; [destruct (String.eqb key EmptyString) eqn:Ekey|].
  2:{ pose proof (get_forecast_loop_spec [0; 1; 2]%Z O []) as (Hcount & Hdata & Herr).
      cbn [List.length] in Hcount.
      assert (Hsleeps :
        In (fc_sleeps (get_forecast_loop provider [0; 1; 2]%Z O [])) [[]; [1]; [2]; [1; 2]]%Z /\
        (List.length (fc_sleeps (get_forecast_loop provider [0; 1; 2]%Z O []))
         <= fc_requests (get_forecast_loop provider [0; 1; 2]%Z O []) - 1)%nat).
      { cbn [get_forecast_loop].
        repeat (match goal with
                | |- context [match provider ?n with _ => _ end] =>
                    destruct (provider n) as [? [?|?]| | |]
                | |- context [(?s =? 200)%Z] => destruct (s =? 200)%Z
                | |- context [(?a || ?b)%bool] => destruct (a || b)%bool
                | |- context [_validate_response ?d] =>
                    destruct (_validate_response d) as [[|]|?]
                end; cbn); split; simpl; try lia; tauto. }
      conjs.
      - lia.
      - apply Hsleeps.
      - apply Hsleeps.
      - intros [H|H]; [discriminate H|].
        inversion H; subst key. discriminate Ekey.
      - intros data Hd. destruct (Hdata data Hd) as (n & _ & H). exists n. exact H.
      - intros n s j Hn. apply Herr. lia. }
  all: cbn; conjs; try lia; try tauto; try discriminate; intros; lia.
Qed.

(** X13: the structure check accepts exactly the dictionaries that hold a
    [location] in which [name] occurs and a [forecast] dictionary whose
    [forecastday] is not empty; on a value that is not a dictionary it
    answers false or fails, never true. *)
Theorem validate_response_shape (data : pyval) :
  _validate_response data = Py.Return true <->
  exists entries location forecast forecastday,
    data = PDict entries /\
    lookup "location" entries = Some location /\
    contains "name" location = Py.Return true /\
    lookup "forecast" entries = Some (PDict forecast) /\
    lookup "forecastday" forecast = Some forecastday /\
    truthy forecastday = true.
Proof.
  split.
  - unfold _validate_response.
    destruct data as [| | |s| |items|entries]; simpl; try discriminate.
    + destruct (Py.contains "location" s); simpl; [|discriminate].
      destruct (Py.contains "forecast" s); simpl; discriminate.
    + destruct (existsb _ items); simpl; [|discriminate].
      destruct (existsb _ items); simpl; discriminate.
    + destruct (lookup "location" entries) as [location|] eqn:Hl; simpl; [|discriminate].
      destruct (lookup "forecast" entries) as [forecast|] eqn:Hf; simpl; [|discriminate].
      destruct (contains "name" location) as [[|]|] eqn:Hname; simpl; try discriminate.
      destruct (contains "forecastday" forecast) as [[|]|] eqn:Hdays; simpl;
        try discriminate.
      destruct forecast as [| | | | |l|f]; simpl; try discriminate.
      simpl in Hdays.
      destruct (lookup "forecastday" f) as [forecastday|] eqn:Hd; simpl; [|discriminate].
      destruct (truthy forecastday) eqn:Htruthy; simpl; [|discriminate].
      intros _. exists entries, location, f, forecastday. conjs; auto.
  - intros (entries & location & forecast & forecastday & -> & Hl & Hn & Hf & Hd & Ht).
    unfold _validate_response. simpl. rewrite Hl, Hf. simpl. rewrite Hn. simpl.
    rewrite Hd. simpl. rewrite Ht. reflexivity.
Qed.
End ProviderRequestFacts.

(** ** Sorted queries *)

Section SortedQueries.
Context {A : Type}.
Variable key : A -> Z.

Lemma order_by_asc_length (l : list A) :
  List.length (Db.order_by_asc key l) = List.length l.
Proof.
  assert (Hins : forall a s, List.length (Db.insert_asc key a s) = S (List.length s)).
  { intros a s. induction s as [|y s IH]; simpl; [reflexivity|].
    destruct (key y <? key a)%Z; simpl; [rewrite IH|]; reflexivity. }
  induction l as [|a l IH]; [reflexivity|].
  unfold Db.order_by_asc in *. simpl. rewrite Hins, IH. reflexivity.
Qed.

Lemma insert_asc_sorted (a : A) (s : list A) :
  StronglySorted (fun x y => (key x <= key y)%Z) s ->
  StronglySorted (fun x y => (key x <= key y)%Z) (Db.insert_asc key a s).
Proof.
  assert (Hin : forall x b t, In x (Db.insert_asc key b t) -> x = b \/ In x t).
  { intros x b t. induction t as [|y t IH]; simpl; [intuition congruence|].
    destruct (key y <? key b)%Z; simpl; intuition congruence. }
  induction s as [|y s IH]; simpl; intros Hs.
  - constructor; [constructor | constructor].
  - apply StronglySorted_inv in Hs. destruct Hs as [Hs Hy].
    destruct (key y <? key a)%Z eqn:E.
    + apply Z.ltb_lt in E. constructor; [apply IH; exact Hs|].
      apply Forall_forall. intros x Hx. apply Hin in Hx.
      destruct Hx as [->|Hx]; [lia|].
      rewrite Forall_forall in Hy. apply Hy. exact Hx.
    + apply Z.ltb_ge in E. constructor; [constructor; assumption|].
      constructor; [exact E|].
      rewrite Forall_forall in *. intros x Hx. specialize (Hy x Hx). lia.
Qed.

Lemma order_by_asc_sorted (l : list A) :
  StronglySorted (fun x y => (key x <= key y)%Z) (Db.order_by_asc key l).
Proof.
  induction l as [|a l IH]; [constructor|].
  unfold Db.order_by_asc in *. simpl. apply insert_asc_sorted. exact IH.
Qed.

(** In a sorted list, what [LIMIT] keeps comes before what it leaves out. *)
Lemma sorted_limit (R : A -> A -> Prop) (n : nat) (l : list A) (x y : A) :
  StronglySorted R l -> In x (firstn n l) -> In y l -> ~ In y (firstn n l) -> R x y.
Proof.
  intros Hs Hx Hy Hout.
  rewrite <- (firstn_skipn n l) in Hy, Hs.
  apply in_app_or in Hy. destruct Hy as [Hy|Hy]; [contradiction|].
  revert Hs Hx Hy. generalize (firstn n l), (skipn n l). clear Hout.
  intros head tail Hs Hx Hy. induction head as [|h head IH]; [destruct Hx|].
  simpl in Hs. apply StronglySorted_inv in Hs. destruct Hs as [Hs Hh].
  destruct Hx as [->|Hx]; [|apply IH; assumption].
  rewrite Forall_forall in Hh. apply Hh. apply in_or_app. now right.
Qed.
End SortedQueries.

(** ** The weather tables *)

Section LocationFacts.
Import WeatherModels WeatherCrud.
Variable generate_uuid : nat -> string.
Variable ilike_contains : string -> string -> bool.

(** X14: storing a city that no stored name matches adds one location
    with the given name, provided the name matches itself; the forecast
    table is untouched, the city is then found, and storing it again
    returns the same row and changes nothing. *)
Theorem create_location_once (db : WeatherDb) (location_data : LocationCreate) :
  ilike_contains (lc_city_name location_data) (lc_city_name location_data) = true ->
  (forall l, In l (locations db) ->
             ilike_contains (loc_city_name l) (lc_city_name location_data) = false) ->
  let first := create_location generate_uuid ilike_contains db location_data in
  exists location,
    snd first = Some location /\
    locations (fst first) = locations db ++ [location] /\
    loc_city_name location = lc_city_name location_data /\
    weather_forecasts (fst first) = weather_forecasts db /\
    get_location_by_city ilike_contains (fst first) (lc_city_name location_data)
    = Some location /\
    create_location generate_uuid ilike_contains (fst first) location_data
    = (fst first, Some location).
Proof.
  intros Hself Hnone first.
  assert (Hfilter : filter (fun l => ilike_contains (loc_city_name l)
                                       (lc_city_name location_data)) (locations db) = []).
  { generalize (locations db) Hnone. intros ls H. induction ls as [|l ls IH]; [reflexivity|].
    simpl. rewrite (H l (or_introl eq_refl)). apply IH. intros x Hx. apply H. now right. }
  assert (Hfirst : first =
            ({| locations := locations db ++
                  [ {| loc_id := generate_uuid (List.length (locations db));
                       loc_city_name := lc_city_name location_data;
                       loc_country := lc_country location_data;
                       loc_lat := lc_lat location_data;
                       loc_lon := lc_lon location_data |} ];
                weather_forecasts := weather_forecasts db |},
             Some {| loc_id := generate_uuid (List.length (locations db));
                     loc_city_name := lc_city_name location_data;
                     loc_country := lc_country location_data;
                     loc_lat := lc_lat location_data;
                     loc_lon := lc_lon location_data |})).
  { subst first. unfold create_location, get_location_by_city. rewrite Hfilter.
    reflexivity. }
  rewrite Hfirst. cbn [fst snd].
  eexists. split; [reflexivity|].
  cbn [locations weather_forecasts loc_city_name].
  assert (Hfound : forall location,
            loc_city_name location = lc_city_name location_data ->
            get_location_by_city ilike_contains
              {| locations := locations db ++ [location];
                 weather_forecasts := weather_forecasts db |}
              (lc_city_name location_data) = Some location).
  { intros location Hname. unfold get_location_by_city. cbn [locations].
    rewrite filter_app, Hfilter. simpl. rewrite Hname, Hself. reflexivity. }
  conjs; try reflexivity.
  - apply Hfound. reflexivity.
  - unfold create_location. rewrite Hfound by reflexivity. reflexivity.
Qed.

(** X15: once two stored names match a city, the lookup by city finds
    nothing, and every call that stores the city appends one more
    location and leaves the city matched by at least two names: the
    table grows by one row on each such call. *)
Theorem create_location_ambiguous (db : WeatherDb) (location_data : LocationCreate) :
  (2 <= List.length
          (filter (fun l => ilike_contains (loc_city_name l) (lc_city_name location_data))
                  (locations db)))%nat ->
  let result := create_location generate_uuid ilike_contains db location_data in
  get_location_by_city ilike_contains db (lc_city_name location_data) = None /\
  exists location,
    snd result = Some location /\
    locations (fst result) = locations db ++ [location] /\
    loc_city_name location = lc_city_name location_data /\
    loc_id location = generate_uuid (List.length (locations db)) /\
    (2 <= List.length
            (filter (fun l => ilike_contains (loc_city_name l) (lc_city_name location_data))
                    (locations (fst result))))%nat.
Proof.
  intros Hmany result.
  assert (Hnone : get_location_by_city ilike_contains db (lc_city_name location_data) = None).
  { unfold get_location_by_city.
    destruct (filter _ (locations db)) as [|x [|y l]]; simpl in Hmany; try lia. reflexivity. }
  split; [exact Hnone|].
  subst result. unfold create_location. rewrite Hnone. cbn [fst snd locations].
  eexists. split; [reflexivity|]. conjs; try reflexivity.
  rewrite filter_app, length_app. lia.
Qed.

End LocationFacts.

(** ** The forecast cache window and the purge *)

Section CacheWindowFacts.
Import WeatherModels WeatherCrud.
Variable now : Z.
Variable CACHE_TTL_HOURS : Z.

Local Abbreviation cache_day := (Db.date_of (now - Db.timedelta_hours CACHE_TTL_HOURS)).

(** X16: the cached forecast of a location is absent exactly when no
    more than zero days are asked for or no row of the location is inside
    the window; otherwise it holds the earliest dates first, in ascending
    order, as many rows as asked for or all the rows in the window if
    there are fewer. *)
Theorem cached_forecast_order (db : WeatherDb) (location_id : string) (days : Z) :
  let visible := filter (cached_filter cache_day location_id) (weather_forecasts db) in
  let found := get_cached_forecast now CACHE_TTL_HOURS db location_id days in
  (found = None <-> (days <= 0)%Z \/ visible = []) /\
  (forall rows, found = Some rows ->
     StronglySorted (fun r r' => (wf_date r <= wf_date r')%Z) rows /\
     List.length rows = Nat.min (Z.to_nat days) (List.length visible) /\
     (forall r r', In r rows -> In r' visible -> ~ In r' rows ->
                   (wf_date r <= wf_date r')%Z)).
Proof.
  intros visible found. subst found. unfold get_cached_forecast, Db.limit. fold visible.
  destruct (days <? 0)%Z eqn:E.
  - apply Z.ltb_lt in E. split; [split; [intros _; left; lia | reflexivity]|].
    intros rows H. discriminate H.
  - apply Z.ltb_ge in E.
    pose proof (order_by_asc_length wf_date visible) as Hlen.
    pose proof (order_by_asc_sorted wf_date visible) as Hsorted.
    pose proof (length_firstn (Z.to_nat days) (Db.order_by_asc wf_date visible)) as Hfirst.
    destruct (firstn (Z.to_nat days) (Db.order_by_asc wf_date visible)) as [|r0 rest] eqn:F.
    + split; [|intros rows H; discriminate H].
      split; [intros _ | reflexivity].
      simpl in Hfirst. rewrite Hlen in Hfirst.
      destruct visible as [|v vs]; [now right|]. left. simpl in Hfirst. lia.
    + split.
      * split; [discriminate|]. intros [Hd|Hv]; exfalso.
        -- replace (Z.to_nat days) with O in F by lia. discriminate F.
        -- rewrite Hv in F. rewrite firstn_nil in F. discriminate F.
      * intros rows H. inversion H; subst rows; clear H. rewrite <- F. conjs.
        -- apply firstn_sorted. exact Hsorted.
        -- rewrite length_firstn, Hlen. reflexivity.
        -- intros r r' Hr Hr' Hout.
           apply (sorted_limit (fun r r' => (wf_date r <= wf_date r')%Z)
                    (Z.to_nat days) (Db.order_by_asc wf_date visible));
             [exact Hsorted | exact Hr | apply order_by_asc_In; exact Hr' | exact Hout].
Qed.

Lemma is_old_not_cached (location_id location_id' : string) (f : WeatherForecast) :
  cached_filter cache_day location_id' f = true -> is_old cache_day location_id f = false.
Proof.
  unfold cached_filter, is_old. rewrite !andb_true_iff. intros [[_ H] _].
  apply Z.leb_le in H.
  replace (wf_created_at f <? Db.midnight cache_day)%Z with false
    by (symmetry; apply Z.ltb_ge; exact H).
  rewrite andb_false_r. reflexivity.
Qed.

Lemma filter_filter_implied {A : Type} (p q : A -> bool) (l : list A) :
  (forall x, p x = true -> q x = true) -> filter p (filter q l) = filter p l.
Proof.
  intros H. induction l as [|a l IH]; [reflexivity|].
  simpl. destruct (q a) eqn:Q; simpl.
  - rewrite IH. reflexivity.
  - destruct (p a) eqn:P; [|exact IH]. rewrite (H a P) in Q. discriminate Q.
Qed.

(** X17: purging a location removes rows of that location only, reports
    how many rows it removed, keeps the locations, never removes a row
    that a cache lookup at the same moment returns (for any location and
    any number of days), and finds nothing left to remove when run
    again. *)
Theorem delete_old_forecasts_frame (db : WeatherDb) (location_id : string) :
  let result := delete_old_forecasts now CACHE_TTL_HOURS db location_id in
  locations (fst result) = locations db /\
  (Z.of_nat (List.length (weather_forecasts db))
   = Z.of_nat (List.length (weather_forecasts (fst result))) + snd result)%Z /\
  (forall f, In f (weather_forecasts (fst result)) -> In f (weather_forecasts db)) /\
  (forall f, In f (weather_forecasts db) -> ~ In f (weather_forecasts (fst result)) ->
             wf_location_id f = location_id /\ wf_is_cached f = true /\
             (wf_created_at f < Db.midnight cache_day)%Z) /\
  (forall other days,
     get_cached_forecast now CACHE_TTL_HOURS (fst result) other days
     = get_cached_forecast now CACHE_TTL_HOURS db other days) /\
  delete_old_forecasts now CACHE_TTL_HOURS (fst result) location_id = (fst result, 0%Z).
Proof.
  intros result. subst result. unfold delete_old_forecasts. cbn [fst snd locations weather_forecasts].
  conjs.
  - reflexivity.
  - pose proof (filter_length (is_old cache_day location_id) (weather_forecasts db)) as H.
    lia.
  - intros f Hf. apply filter_In in Hf. tauto.
  - intros f Hf Hout.
    destruct (is_old cache_day location_id f) eqn:E.
    + unfold is_old in E. rewrite !andb_true_iff in E. destruct E as [[E1 E2] E3].
      apply String.eqb_eq in E1. apply Z.ltb_lt in E2. apply Bool.eqb_prop in E3. auto.
    + exfalso. apply Hout. apply filter_In. split; [exact Hf|]. rewrite E. reflexivity.
  - intros other days. unfold get_cached_forecast. cbn [weather_forecasts].
    rewrite filter_filter_implied; [reflexivity|].
    intros x Hx. rewrite (is_old_not_cached location_id other x Hx). reflexivity.
  - f_equal.
    + f_equal. apply filter_filter_implied. intros x Hx. exact Hx.
    + rewrite filter_nil_none; [reflexivity|].
      intros x Hx. apply filter_In in Hx. destruct Hx as [_ Hx].
      apply negb_true_iff in Hx. exact Hx.
Qed.

End CacheWindowFacts.

(** ** Storing forecast days *)

Section ForecastBatchFacts.
Import PyVal WeatherClient WeatherModels WeatherCrud.
Variable created_at_default : Z.
Variable generate_uuid : nat -> string.

Local Abbreviation upsert := (upsert_day created_at_default generate_uuid).

Lemma nth_error_update_at {A : Type} (f : A -> A) (t : list A) (i k : nat) :
  nth_error (update_at i f t) k
  = if Nat.eqb k i then option_map f (nth_error t k) else nth_error t k.
Proof.
  revert i k. induction t as [|a t IH]; intros i k.
  - destruct i, k; simpl; try reflexivity; destruct (Nat.eqb k i); reflexivity.
  - destruct i, k; simpl; try reflexivity. apply IH.
Qed.

Lemma length_update_at {A : Type} (f : A -> A) (t : list A) (i : nat) :
  List.length (update_at i f t) = List.length t.
Proof.
  revert i. induction t as [|a t IH]; intros i; [destruct i; reflexivity|].
  destruct i; simpl; [|rewrite IH]; reflexivity.
Qed.

(** One step of the loop: the table keeps or gains one row, rows of other
    locations are untouched, every row stays at its position with its
    location and its id, and a row marked cached stays so. *)
Lemma upsert_day_frame (location_id source : string) (table table' : list WeatherForecast)
    (d : Z) (fields : WeatherFields) (i : nat) :
  upsert location_id source table d fields = Py.Return (table', i) ->
  (List.length table <= List.length table' <= S (List.length table))%nat /\
  (forall other, other <> location_id ->
     filter (fun f => String.eqb (wf_location_id f) other) table'
     = filter (fun f => String.eqb (wf_location_id f) other) table) /\
  (forall k r, nth_error table k = Some r ->
     exists r', nth_error table' k = Some r' /\
                wf_location_id r' = wf_location_id r /\ wf_id r' = wf_id r /\
                (wf_is_cached r = true -> wf_is_cached r' = true)) /\
  (exists r, nth_error table' i = Some r /\
             wf_location_id r = location_id /\ wf_is_cached r = true /\
             wf_date r = d /\ wf_fields r = fields).
Proof.
  intros Hup.
  destruct (upsert_day_result _ _ _ _ _ _ _ _ _ Hup) as [(row & Hrow & Hnth & Hf & Hc & _) _].
  assert (Hsame : same_day location_id d row = true).
  { assert (Hin : In row (filter (same_day location_id d) table'))
      by (rewrite Hrow; now left).
    apply filter_In in Hin. tauto. }
  unfold same_day in Hsame. apply andb_true_iff in Hsame. destruct Hsame as [Hl Hd].
  apply String.eqb_eq in Hl. apply Z.eqb_eq in Hd.
  assert (Hlast : exists r, nth_error table' i = Some r /\
             wf_location_id r = location_id /\ wf_is_cached r = true /\
             wf_date r = d /\ wf_fields r = fields) by (exists row; auto).
  clear Hrow Hnth Hf Hc Hl Hd.
  unfold upsert_day in Hup.
  destruct (filter (same_day location_id d) table) as [|old [|old' rest]] eqn:E;
    simpl in Hup; [| |discriminate Hup].
  - inversion Hup; subst; clear Hup. conjs.
    + rewrite length_app. simpl. lia.
    + rewrite length_app. simpl. lia.
    + intros other Hne. rewrite filter_app. simpl.
      destruct (String.eqb location_id other) eqn:Eo;
        [apply String.eqb_eq in Eo; congruence | apply app_nil_r].
    + intros k r Hk. exists r. conjs; auto.
      rewrite nth_error_app1; [exact Hk|]. apply nth_error_Some. congruence.
    + exact Hlast.
  - destruct (position (same_day location_id d) table) as [j|] eqn:Hp;
      [|discriminate Hup].
    inversion Hup; subst; clear Hup. conjs.
    + rewrite length_update_at. lia.
    + rewrite length_update_at. lia.
    + intros other Hne.
      apply (filter_update_other (same_day location_id d)); [reflexivity | | exact Hp].
      intros x Hx. apply String.eqb_eq in Hx. unfold same_day.
      destruct (String.eqb (wf_location_id x) location_id) eqn:Ex; [|reflexivity].
      apply String.eqb_eq in Ex. congruence.
    + intros k r Hk. rewrite nth_error_update_at, Hk.
      destruct (Nat.eqb k i); simpl; eexists; (split; [reflexivity|]); auto.
    + exact Hlast.
Qed.

Section Batch.
Variable strptime_ymd : string -> option Z.

Local Abbreviation batch :=
  (create_forecasts_loop created_at_default generate_uuid strptime_ymd).

(** The rows the loop has collected so far. *)
Lemma batch_frame (location_id source : string) (forecast_days : list DayData) :
  forall table forecasts table' forecasts',
  batch location_id source forecast_days table forecasts = Py.Return (table', forecasts') ->
  (List.length table <= List.length table'
   <= List.length table + List.length forecast_days)%nat /\
  (List.length forecasts <= List.length forecasts'
   <= List.length forecasts + List.length forecast_days)%nat /\
  (forall other, other <> location_id ->
     filter (fun f => String.eqb (wf_location_id f) other) table'
     = filter (fun f => String.eqb (wf_location_id f) other) table) /\
  (forall k r, nth_error table k = Some r ->
     exists r', nth_error table' k = Some r' /\
                wf_location_id r' = wf_location_id r /\ wf_id r' = wf_id r /\
                (wf_is_cached r = true -> wf_is_cached r' = true)) /\
  ((forall i, In i forecasts ->
      exists r, nth_error table i = Some r /\
                wf_location_id r = location_id /\ wf_is_cached r = true) ->
   forall i, In i forecasts' ->
      exists r, nth_error table' i = Some r /\
                wf_location_id r = location_id /\ wf_is_cached r = true).
Proof.
  induction forecast_days as [|day rest IH]; simpl; intros table forecasts table' forecasts' H.
  - inversion H; subst. conjs; try lia; auto. intros k r Hk. exists r. auto.
  - destruct (dd_date day) as [date_str|]; [|discriminate].
    destruct (forecast_date_of strptime_ymd date_str) as [[d0|]|]; simpl in H;
      [| |discriminate].
    + destruct (upsert_day _ _ _ _ _ _ _) as [[table1 i]|] eqn:Hup; simpl in H;
        [|discriminate].
      destruct (upsert_day_frame _ _ _ _ _ _ _ Hup) as (Hl1 & Ho1 & Hk1 & Hi1).
      destruct (IH _ _ _ _ H) as (Hl & Hf & Ho & Hk & Hrows).
      rewrite length_app in Hf. simpl in Hf.
      conjs; try lia.
      * intros other Hne. rewrite (Ho other Hne). apply Ho1. exact Hne.
      * intros k r Hr. destruct (Hk1 k r Hr) as (r1 & Hr1 & Ha & Hb & Hc).
        destruct (Hk k r1 Hr1) as (r2 & Hr2 & Ha2 & Hb2 & Hc2).
        exists r2. conjs; auto; congruence.
      * intros Hinv. apply Hrows. intros j Hj. apply in_app_or in Hj.
        destruct Hj as [Hj|[<-|[]]].
        -- destruct (Hinv j Hj) as (r & Hr & Ha & Hb).
           destruct (Hk1 j r Hr) as (r1 & Hr1 & Ha1 & _ & Hc1).
           exists r1. conjs; auto. congruence.
        -- destruct Hi1 as (r & Hr & Ha & Hb & _). exists r. auto.
    + destruct (IH _ _ _ _ H) as (Hl & Hf & Ho & Hk & Hrows). conjs; try lia; auto.
Qed.

Lemma rows_at_In (table : list WeatherForecast) (positions : list nat) (r : WeatherForecast) :
  In r (rows_at table positions) <-> exists i, In i positions /\ nth_error table i = Some r.
Proof.
  unfold rows_at. rewrite in_flat_map. split.
  - intros (i & Hi & Hr). exists i. split; [exact Hi|].
    destruct (nth_error table i) as [x|]; [|destruct Hr].
    destruct Hr as [->|[]]. reflexivity.
  - intros (i & Hi & Hr). exists i. split; [exact Hi|]. rewrite Hr. now left.
Qed.

Lemma rows_at_length (table : list WeatherForecast) (positions : list nat) :
  (List.length (rows_at table positions) <= List.length positions)%nat.
Proof.
  induction positions as [|i positions IH]; [simpl; lia|].
  unfold rows_at in *. simpl. rewrite length_app.
  destruct (nth_error table i); simpl; lia.
Qed.


(** X18: a call that stores forecast days either fails as a whole (the
    store is the one before the request and the list is empty) or
    leaves the locations and every other location's rows as they were,
    removes no row and changes no row's id or location, adds at most one
    row per day, and returns at most one row per day, each a stored row
    of the location that is marked cached. *)
Theorem create_forecasts_frame
    (db0 db : WeatherDb) (location_id : string) (forecast_days : list DayData)
    (source : string) :
  let result := create_forecasts created_at_default generate_uuid strptime_ymd
                  db0 db location_id forecast_days source in
  (fst result = db0 /\ snd result = []) \/
  (locations (fst result) = locations db /\
   (List.length (weather_forecasts db) <= List.length (weather_forecasts (fst result))
    <= List.length (weather_forecasts db) + List.length forecast_days)%nat /\
   (forall other, other <> location_id ->
      filter (fun f => String.eqb (wf_location_id f) other) (weather_forecasts (fst result))
      = filter (fun f => String.eqb (wf_location_id f) other) (weather_forecasts db)) /\
   (forall k r, nth_error (weather_forecasts db) k = Some r ->
      exists r', nth_error (weather_forecasts (fst result)) k = Some r' /\
                 wf_location_id r' = wf_location_id r /\ wf_id r' = wf_id r) /\
   (List.length (snd result) <= List.length forecast_days)%nat /\
   (forall r, In r (snd result) ->
      In r (weather_forecasts (fst result)) /\
      wf_location_id r = location_id /\ wf_is_cached r = true)).
Proof.
  intros result. subst result. unfold create_forecasts.
  destruct (create_forecasts_loop _ _ _ _ _ _ _ _) as [[table forecasts]|e] eqn:Hloop;
    [right | left; split; reflexivity].
  destruct (batch_frame _ _ _ _ _ _ _ Hloop) as (Hl & Hf & Ho & Hk & Hrows).
  cbn [fst snd locations weather_forecasts List.length] in *.
  conjs; try reflexivity; try lia; auto.
  - intros k r Hr. destruct (Hk k r Hr) as (r' & H1 & H2 & H3 & _). exists r'. auto.
  - pose proof (rows_at_length table forecasts). lia.
  - intros r Hr. apply rows_at_In in Hr. destruct Hr as (i & Hi & Hr).
    split; [apply (nth_error_In _ _ Hr)|].
    destruct (Hrows (fun j (Hj : In j []) => match Hj with end) i Hi) as (r' & Hr' & H1 & H2).
    rewrite Hr in Hr'. inversion Hr'; subst r'. auto.
Qed.

Lemma batch_fails_without_date (location_id source : string) (forecast_days : list DayData)
    (day : DayData) :
  In day forecast_days -> dd_date day = None ->
  forall table forecasts,
  exists e, batch location_id source forecast_days table forecasts = Py.Raise e.
Proof.
  intros Hin Hdate. induction forecast_days as [|d rest IH]; [destruct Hin|].
  intros table forecasts. simpl.
  destruct Hin as [->|Hin]; [rewrite Hdate; eexists; reflexivity|].
  destruct (dd_date d) as [date_str|]; [|eexists; reflexivity].
  destruct (forecast_date_of strptime_ymd date_str) as [[d0|]|]; simpl;
    [| apply IH; exact Hin | eexists; reflexivity].
  destruct (upsert_day _ _ _ _ _ _ _) as [[table1 i]|]; simpl; [|eexists; reflexivity].
  apply IH. exact Hin.
Qed.

Lemma batch_fails_on_duplicates (location_id source : string)
    (forecast_days : list DayData) (day : DayData) (date_str : pyval) (d : Z) :
  In day forecast_days -> dd_date day = Some date_str ->
  forecast_date_of strptime_ymd date_str = Py.Return (Some d) ->
  forall table forecasts,
  (2 <= List.length (filter (same_day location_id d) table))%nat ->
  exists e, batch location_id source forecast_days table forecasts = Py.Raise e.
Proof.
  intros Hin Hdate Hparse. induction forecast_days as [|x rest IH]; [destruct Hin|].
  intros table forecasts Hmany. simpl.
  destruct Hin as [->|Hin].
  - rewrite Hdate, Hparse. simpl. unfold upsert_day.
    destruct (filter (same_day location_id d) table) as [|a [|b l]]; simpl in Hmany;
      try lia.
    simpl. eexists; reflexivity.
  - destruct (dd_date x) as [ds|]; [|eexists; reflexivity].
    destruct (forecast_date_of strptime_ymd ds) as [[d0|]|]; simpl;
      [| apply IH; assumption | eexists; reflexivity].
    destruct (upsert_day _ _ _ _ _ _ _) as [[table1 i]|] eqn:Hup; simpl;
      [|eexists; reflexivity].
    apply IH; [exact Hin|].
    destruct (Z.eq_dec d d0) as [<-|Hne].
    + exfalso. unfold upsert_day in Hup.
      destruct (filter (same_day location_id d) table) as [|a [|b l]]; simpl in Hmany;
        try lia.
      discriminate Hup.
    + destruct (upsert_day_result _ _ _ _ _ _ _ _ _ Hup) as [_ Hother].
      rewrite (Hother d Hne). exact Hmany.
Qed.

(** X19: one bad day fails the whole batch.  When a day of the call has
    no date entry, or when the table already holds two rows for the
    location and the date of one of the days, nothing of the call is
    stored: the store is the one before the request and no row is
    returned, whatever the other days are. *)
Theorem create_forecasts_all_or_nothing
    (db0 db : WeatherDb) (location_id : string) (forecast_days : list DayData)
    (source : string) (day : DayData) :
  In day forecast_days ->
  dd_date day = None \/
  (exists date_str d,
     dd_date day = Some date_str /\
     forecast_date_of strptime_ymd date_str = Py.Return (Some d) /\
     (2 <= List.length (filter (same_day location_id d) (weather_forecasts db)))%nat) ->
  create_forecasts created_at_default generate_uuid strptime_ymd
    db0 db location_id forecast_days source = (db0, []).
Proof.
  intros Hin Hbad. unfold create_forecasts.
  assert (Hfail : exists e, batch location_id source forecast_days (weather_forecasts db) []
                            = Py.Raise e).
  { destruct Hbad as [Hnone|(date_str & d & Hdate & Hparse & Hmany)].
    - apply (batch_fails_without_date _ _ _ day); assumption.
    - apply (batch_fails_on_duplicates _ _ _ day date_str d); assumption. }
  destruct Hfail as [e ->]. reflexivity.
Qed.

(** X20: when two days of one call carry the same date and the location
    has no row for it yet, one row is added and the returned list holds
    that row twice, both entries with the fields of the later day: the
    list holds the stored rows themselves, not copies. *)
Theorem create_forecasts_same_date_twice
    (db0 db : WeatherDb) (location_id source : string) (day1 day2 : DayData)
    (date1 date2 : pyval) (d : Z) :
  dd_date day1 = Some date1 -> dd_date day2 = Some date2 ->
  forecast_date_of strptime_ymd date1 = Py.Return (Some d) ->
  forecast_date_of strptime_ymd date2 = Py.Return (Some d) ->
  filter (same_day location_id d) (weather_forecasts db) = [] ->
  let row :=
    {| wf_id := generate_uuid (List.length (weather_forecasts db));
       wf_location_id := location_id;
       wf_date := d;
       wf_fields := dd_fields day2;
       wf_forecast_source := source;
       wf_is_cached := true;
       wf_created_at := created_at_default |} in
  create_forecasts created_at_default generate_uuid strptime_ymd
    db0 db location_id [day1; day2] source
  = ({| locations := locations db; weather_forecasts := weather_forecasts db ++ [row] |},
     [row; row]).
Proof.
  intros Hd1 Hd2 Hp1 Hp2 Hnone row.
  unfold create_forecasts. simpl. rewrite Hd1. simpl. rewrite Hp1. simpl.
  unfold upsert_day at 1. rewrite Hnone. simpl. rewrite Hd2. simpl. rewrite Hp2. simpl.
  unfold upsert_day. rewrite filter_app, Hnone. simpl.
  unfold same_day at 1. simpl. rewrite String.eqb_refl, Z.eqb_refl. simpl.
  assert (Hpos : forall (t : list WeatherForecast) r,
            filter (same_day location_id d) t = [] ->
            same_day location_id d r = true ->
            position (same_day location_id d) (t ++ [r]) = Some (List.length t)).
  { intros t r Ht Hr. induction t as [|a t IH]; simpl in *.
    - rewrite Hr. reflexivity.
    - destruct (same_day location_id d a); [discriminate Ht|].
      rewrite (IH Ht). reflexivity. }
  rewrite Hpos; [|exact Hnone|];
    [|unfold same_day; simpl; rewrite String.eqb_refl, Z.eqb_refl; reflexivity].
  simpl.
  assert (Hupd : forall (t : list WeatherForecast) r f,
            update_at (List.length t) f (t ++ [r]) = t ++ [f r]).
  { intros t r f. induction t as [|a t IH]; simpl; [reflexivity|]. rewrite IH. reflexivity. }
  rewrite Hupd. unfold rows_at. simpl.
  rewrite nth_error_app2 by lia. rewrite Nat.sub_diag. simpl. reflexivity.
Qed.
End Batch.
End ForecastBatchFacts.

(** ** The request log *)

Section RequestLogFacts.
Import WeatherCrudRest.
Variable now : Z.
Variable generate_uuid : nat -> string.
Variable at_or_after : Z -> Z -> bool.

Lemma filter_length_le {A : Type} (p q : A -> bool) (l : list A) :
  (forall x, p x = true -> q x = true) ->
  (List.length (filter p l) <= List.length (filter q l))%nat.
Proof.
  intros H. induction l as [|a l IH]; [simpl; lia|].
  simpl. destruct (p a) eqn:P.
  - rewrite (H a P). simpl. lia.
  - destruct (q a); simpl; lia.
Qed.

(** X21: for a period the stats endpoint accepts (1 to 168 hours), the
    cached and the failed requests are counted among the total, the hit
    rate is the cached share of the total and lies between 0 and 1, and
    it is 0 when nothing was counted; if a day that is at or after a
    bound is also at or after every earlier bound, a longer period never
    counts fewer requests. *)
Theorem request_stats_consistent (logs : list ApiRequestLog) (hours : Z) :
  (1 <= hours <= 168)%Z ->
  let stats := get_request_stats now at_or_after logs hours in
  (0 <= cached_requests stats <= total_requests stats)%Z /\
  (0 <= error_requests stats <= total_requests stats)%Z /\
  (total_requests stats <= Z.of_nat (List.length logs))%Z /\
  (0 <= cache_hit_rate stats <= 1)%R /\
  (total_requests stats = 0%Z -> cache_hit_rate stats = 0%R) /\
  (cache_hit_rate stats * IZR (total_requests stats) = IZR (cached_requests stats))%R /\
  time_period_hours stats = hours /\
  ((forall day bound earlier,
      (earlier <= bound)%Z -> at_or_after day bound = true ->
      at_or_after day earlier = true) ->
   forall longer, (hours <= longer <= 168)%Z ->
     (total_requests stats
      <= total_requests (get_request_stats now at_or_after logs longer))%Z).
Proof.
  intros Hhours stats. subst stats. unfold get_request_stats.
  cbn [total_requests cached_requests error_requests cache_hit_rate time_period_hours].
  set (time_limit := (now - Db.timedelta_hours hours)%Z).
  pose proof (filter_length_le
                (fun l => in_period at_or_after time_limit l &&
                          Bool.eqb (al_was_cached l) true)
                (in_period at_or_after time_limit) logs) as Hcached.
  pose proof (filter_length_le
                (fun l => in_period at_or_after time_limit l && is_error l)
                (in_period at_or_after time_limit) logs) as Herrors.
  specialize (Hcached ltac:(intros x Hx; apply andb_true_iff in Hx; tauto)).
  specialize (Herrors ltac:(intros x Hx; apply andb_true_iff in Hx; tauto)).
  pose proof (filter_length (in_period at_or_after time_limit) logs) as Htotal.
  set (total := List.length (filter (in_period at_or_after time_limit) logs)) in *.
  set (cached := List.length
                   (filter (fun l => in_period at_or_after time_limit l &&
                                     Bool.eqb (al_was_cached l) true)
                      logs)) in *.
  assert (Hc : (IZR (Z.of_nat cached) <= IZR (Z.of_nat total))%R) by (apply IZR_le; lia).
  assert (Hc0 : (0 <= IZR (Z.of_nat cached))%R) by (apply IZR_le; lia).
  conjs; try lia.
  - destruct (0 <? Z.of_nat total)%Z eqn:E; [|lra].
    apply Z.ltb_lt in E. assert (Ht : (0 < IZR (Z.of_nat total))%R) by (apply IZR_lt; lia).
    unfold Rdiv. apply Rmult_le_pos; [exact Hc0|]. left. apply Rinv_0_lt_compat. exact Ht.
  - destruct (0 <? Z.of_nat total)%Z eqn:E; [|lra].
    apply Z.ltb_lt in E. assert (Ht : (0 < IZR (Z.of_nat total))%R) by (apply IZR_lt; lia).
    apply (Rmult_le_reg_r (IZR (Z.of_nat total))); [exact Ht|].
    unfold Rdiv. rewrite Rmult_assoc, Rinv_l by lra. lra.
  - intros H0. rewrite H0. reflexivity.
  - destruct (0 <? Z.of_nat total)%Z eqn:E.
    + apply Z.ltb_lt in E. assert (Ht : (0 < IZR (Z.of_nat total))%R) by (apply IZR_lt; lia).
      unfold Rdiv. rewrite Rmult_assoc, Rinv_l by lra. lra.
    + apply Z.ltb_ge in E. assert (cached = O) by lia.
      replace cached with O by lia. simpl. lra.
  - intros Hmono longer Hlonger. apply inj_le. apply filter_length_le.
    intros x Hx. unfold in_period in *.
    apply (Hmono (al_requested_at x) time_limit); [|exact Hx].
    unfold time_limit, Db.timedelta_hours, Db.microseconds_per_hour. lia.
Qed.

(** X30: a request logged on a day that the period of the stats reaches
    is counted by the next reading: the total grows by one, the cached
    count by one exactly when the request was served from the cache, and
    the error count by one exactly when its status is 400 or more. *)
Theorem logged_request_is_counted
    (logs : list ApiRequestLog) (location endpoint : string)
    (response_status response_time_ms : option Z) (was_cached : bool)
    (error_message : option string) (hours : Z) :
  (1 <= hours <= 168)%Z ->
  at_or_after (Db.date_of now) (now - Db.timedelta_hours hours) = true ->
  let before := get_request_stats now at_or_after logs hours in
  let logged := log_api_request now generate_uuid logs location endpoint response_status
                  response_time_ms was_cached error_message in
  let after := get_request_stats now at_or_after (fst logged) hours in
  (exists log, snd logged = Some log /\ fst logged = logs ++ [log] /\
               al_was_cached log = was_cached /\
               al_response_status log = response_status) /\
  total_requests after = (total_requests before + 1)%Z /\
  cached_requests after
  = (cached_requests before + if was_cached then 1 else 0)%Z /\
  error_requests after
  = (error_requests before +
     match response_status with
     | Some status => if (400 <=? status)%Z then 1 else 0
     | None => 0
     end)%Z.
Proof.
  intros Hhours Htoday before logged after.
  subst before after logged. unfold log_api_request, get_request_stats.
  cbn [fst snd total_requests cached_requests error_requests].
  split; [eexists; conjs; reflexivity|].
  match goal with
  | |- context [logs ++ [?l]] => set (log := l)
  end.
  assert (Hin : in_period at_or_after (now - Db.timedelta_hours hours) log = true)
    by exact Htoday.
  rewrite !filter_app, !length_app, !Nat2Z.inj_add. cbn [filter]. rewrite Hin.
  cbn [andb]. unfold is_error at 2. subst log. cbn [al_was_cached al_response_status].
  conjs.
  - reflexivity.
  - destruct was_cached; reflexivity.
  - destruct response_status as [status|]; [destruct (400 <=? status)%Z|]; reflexivity.
Qed.
End RequestLogFacts.

(** ** GET /api/weather: what a request can come to *)

Section WeatherEndpointFacts.
Import Http PyVal WeatherClient WeatherModels WeatherCrud WeatherMain.
Variable now : Z.
Variable CACHE_TTL_HOURS : Z.
Variable created_at_default : Z.
Variable generate_uuid : nat -> string.
Variable ilike_contains : string -> string -> bool.
Variable strptime_ymd : string -> option Z.
Variable float_other : string -> option R.
Variable weather_client : option (string -> Z -> option pyval).
Variable validate_location : LocationData -> Py.result LocationCreate.
Variable validate_response_day : WeatherForecast -> Py.result WeatherForecast.



End WeatherEndpointFacts.

(** ** The user table *)

Section UserTableFacts.
Import UserCrud.
Variable now : Z.
Variable generate_uuid : nat -> string.
Variable hash_password : string -> option string.

Lemma violates_unique_none (users : list User) (user : User) :
  violates_unique users user = false ->
  forall u, In u users ->
    id u <> id user /\ email u <> email user /\ username u <> username user.
Proof.
  unfold violates_unique. intros H u Hu.
  assert (Hu' : (String.eqb (id u) (id user) || String.eqb (email u) (email user) ||
                 String.eqb (username u) (username user)) = false).
  { apply not_true_is_false. intros E.
    assert (Hex : existsb (fun u => String.eqb (id u) (id user) ||
                                    String.eqb (email u) (email user) ||
                                    String.eqb (username u) (username user)) users = true)
      by (apply existsb_exists; exists u; auto).
    congruence. }
  rewrite !orb_false_iff, !String.eqb_neq in Hu'. tauto.
Qed.

Lemma create_user_stored (users users' : list User) (user_data : UserCreate) (user : User) :
  create_user now generate_uuid hash_password users user_data = (users', Some user) ->
  users' = users ++ [user] /\
  username user = new_username user_data /\ email user = new_email user_data /\
  hash_password (new_password user_data) = Some (hashed_password user) /\
  forall u, In u users ->
    id u <> id user /\ email u <> email user /\ username u <> username user.
Proof.
  unfold create_user.
  destruct (get_user_by_username users _); [discriminate|].
  destruct (get_user_by_email users _); [discriminate|].
  destruct (hash_password _) as [hashed|] eqn:Hhash; [|discriminate].
  unfold add_and_commit.
  destruct (violates_unique users _) eqn:E; [discriminate|].
  intros H. inversion H; subst; clear H. cbn. conjs; try reflexivity; try assumption.
  intros u Hu. exact (violates_unique_none _ _ E u Hu).
Qed.

Lemma NoDup_map_snoc {A B : Type} (f : A -> B) (l : list A) (a : A) :
  NoDup (map f l) -> (forall x, In x l -> f x <> f a) -> NoDup (map f (l ++ [a])).
Proof.
  intros Hnd Hnew. rewrite map_app. simpl.
  apply NoDup_app; [exact Hnd | repeat constructor; intros [] |].
  intros b Hb [<-|[]]. apply in_map_iff in Hb. destruct Hb as (x & Hx & Hin).
  exact (Hnew x Hin Hx).
Qed.

(** X23: registration keeps the keys of the user table unique.  If no
    two stored users share an id, an email or a username, the same holds
    after any registration attempt; the attempt only ever appends the
    user it returns, and changes nothing when it returns none. *)
Theorem create_user_keeps_unique (users : list User) (user_data : UserCreate) :
  NoDup (map id users) -> NoDup (map email users) -> NoDup (map username users) ->
  let result := create_user now generate_uuid hash_password users user_data in
  NoDup (map id (fst result)) /\
  NoDup (map email (fst result)) /\
  NoDup (map username (fst result)) /\
  fst result = users ++ match snd result with Some user => [user] | None => [] end.
Proof.
  intros Hid Hemail Hname result.
  destruct (snd result) as [user|] eqn:Hsnd.
  - assert (Hres : create_user now generate_uuid hash_password users user_data
                   = (fst result, Some user)).
    { subst result. rewrite <- Hsnd. apply surjective_pairing. }
    destruct (create_user_stored _ _ _ _ Hres) as (-> & _ & _ & _ & Hnew).
    conjs; try reflexivity; apply NoDup_map_snoc; try assumption;
      intros x Hx; apply (Hnew x Hx).
  - assert (Hsame : fst result = users).
    { subst result. revert Hsnd. unfold create_user.
      destruct (get_user_by_username users _); [reflexivity|].
      destruct (get_user_by_email users _); [reflexivity|].
      destruct (hash_password _) as [hashed|]; [|reflexivity].
      destruct (add_and_commit users _); [discriminate | reflexivity]. }
    rewrite Hsame, app_nil_r. auto.
Qed.
End UserTableFacts.

Section UserAccountFacts.
Import Http UserCrud UserRest.
Variable now : Z.
Variable generate_uuid : nat -> string.
Variable hash_password : string -> option string.
Variable checkpw : string -> string -> Py.result bool.

Lemma filter_snoc_new {A : Type} (p : A -> bool) (l : list A) (a : A) :
  (forall x, In x l -> p x = false) -> p a = true -> filter p (l ++ [a]) = [a].
Proof.
  intros Hl Ha. rewrite filter_app. simpl. rewrite Ha.
  rewrite (filter_nil_none p l Hl). reflexivity.
Qed.

(** X24: a user that registration returned can be looked up by id and is
    authenticated by exactly the passwords that bcrypt accepts for the
    stored hash; when bcrypt rejects the password or fails, nobody is
    authenticated under that name. *)
Theorem registered_user_authenticates
    (users users' : list User) (user_data : UserCreate) (user : User) :
  create_user now generate_uuid hash_password users user_data = (users', Some user) ->
  get_user_by_id users' (id user) = Some user /\
  get_user_by_username users' (new_username user_data) = Some user /\
  forall password,
    authenticate_user checkpw users' (new_username user_data) password
    = match checkpw password (hashed_password user) with
      | Py.Return true => Some user
      | _ => None
      end.
Proof.
  intros Hcreate.
  destruct (create_user_stored _ _ _ _ _ _ _ Hcreate) as (-> & Hname & _ & _ & Hnew).
  assert (Hby_name : get_user_by_username (users ++ [user]) (new_username user_data)
                     = Some user).
  { unfold get_user_by_username. rewrite filter_snoc_new; [reflexivity | |].
    - intros x Hx. apply String.eqb_neq. rewrite <- Hname. apply (Hnew x Hx).
    - apply String.eqb_eq. exact Hname. }
  conjs.
  - unfold get_user_by_id. rewrite filter_snoc_new; [reflexivity | |].
    + intros x Hx. apply String.eqb_neq. apply (Hnew x Hx).
    + apply String.eqb_refl.
  - exact Hby_name.
  - intros password. unfold authenticate_user. rewrite Hby_name.
    unfold verify_password.
    destruct (checkpw password (hashed_password user)) as [[|]|]; reflexivity.
Qed.

End UserAccountFacts.

Section WashDateFacts.
Import UserCrud UserRest.
Variable now : Z.

Lemma filter_map_same {A : Type} (p : A -> bool) (f : A -> A) (l : list A) :
  (forall x, p (f x) = p x) -> filter p (map f l) = map f (filter p l).
Proof.
  intros H. induction l as [|a l IH]; [reflexivity|].
  simpl. rewrite H. destruct (p a); simpl; rewrite IH; reflexivity.
Qed.

Lemma set_last_wash_date_fields (wash_date : Z) (user : User) :
  let user' := set_last_wash_date now wash_date user in
  id user' = id user /\ email user' = email user /\ username user' = username user /\
  hashed_password user' = hashed_password user /\ created_at user' = created_at user /\
  last_wash_date user' = Some wash_date /\
  set_last_wash_date now wash_date user' = user'.
Proof.
  unfold set_last_wash_date.
  destruct (last_wash_date user) as [d|] eqn:Hd.
  - destruct (d =? wash_date)%Z eqn:E.
    + apply Z.eqb_eq in E. subst d. cbv zeta. rewrite Hd, Z.eqb_refl. auto 10.
    + cbn. rewrite Z.eqb_refl. auto 10.
  - cbn. rewrite Z.eqb_refl. auto 10.
Qed.

(** The row written for the user is the row read afterwards. *)
Lemma update_last_wash_date_read
    (users : list User) (user_id : string) (wash_date : Z) (user : User) :
  get_user_by_id users user_id = Some user ->
  id user = user_id /\
  snd (update_last_wash_date now users user_id wash_date) = true /\
  get_user_by_id (fst (update_last_wash_date now users user_id wash_date)) user_id
  = Some (set_last_wash_date now wash_date user).
Proof.
  intros Hget. unfold update_last_wash_date. rewrite Hget. cbn [fst snd].
  assert (Hone : filter (fun u => String.eqb (id u) user_id) users = [user]).
  { unfold get_user_by_id in Hget.
    destruct (filter _ users) as [|x [|y l]]; simpl in Hget; try discriminate.
    inversion Hget. reflexivity. }
  assert (Huser : id user = user_id).
  { assert (Hin : In user (filter (fun u => String.eqb (id u) user_id) users))
      by (rewrite Hone; now left).
    apply filter_In in Hin. destruct Hin as [_ Hin]. apply String.eqb_eq. exact Hin. }
  conjs; [exact Huser | reflexivity |].
  unfold get_user_by_id. rewrite filter_map_same.
  - rewrite Hone. simpl. rewrite Huser, String.eqb_refl. reflexivity.
  - intros x. destruct (String.eqb (id x) user_id) eqn:E; [|rewrite E; reflexivity].
    destruct (set_last_wash_date_fields wash_date x) as [-> _]. exact E.
Qed.

Lemma update_last_wash_date_ids (users : list User) (user_id : string) (wash_date : Z) :
  map id (fst (update_last_wash_date now users user_id wash_date)) = map id users.
Proof.
  unfold update_last_wash_date.
  destruct (get_user_by_id users user_id); [|reflexivity].
  cbn [fst]. rewrite map_map. apply map_ext. intros x.
  destruct (String.eqb (id x) user_id); [|reflexivity].
  apply set_last_wash_date_fields.
Qed.

(** X25: recording a wash date fails without touching the table when no
    single user has the id; otherwise the user then read for that id
    carries the date and keeps id, email, username, password hash and
    creation date, every row of another id is untouched, no row is added
    or removed, and recording the same date again changes nothing. *)
Theorem update_last_wash_date_frame (users : list User) (user_id : string) (wash_date : Z) :
  let result := update_last_wash_date now users user_id wash_date in
  (snd result = false -> fst result = users /\ get_user_by_id users user_id = None) /\
  (snd result = true ->
   exists user user',
     get_user_by_id users user_id = Some user /\
     get_user_by_id (fst result) user_id = Some user' /\
     last_wash_date user' = Some wash_date /\
     id user' = id user /\ email user' = email user /\ username user' = username user /\
     hashed_password user' = hashed_password user /\ created_at user' = created_at user) /\
  map id (fst result) = map id users /\
  (forall u, In u users -> id u <> user_id -> In u (fst result)) /\
  (forall u, In u (fst result) -> id u <> user_id -> In u users) /\
  update_last_wash_date now (fst result) user_id wash_date = result.
Proof.
  intros result.
  pose proof (update_last_wash_date_ids users user_id wash_date) as Hids.
  fold result in Hids.
  destruct (get_user_by_id users user_id) as [user|] eqn:Hget.
  - destruct (update_last_wash_date_read users user_id wash_date user Hget)
      as (Huser & Htrue & Hread).
    fold result in Htrue, Hread.
    set (write := fun u : User =>
                    if String.eqb (id u) user_id
                    then set_last_wash_date now wash_date u else u).
    assert (Hrows : fst result = map write users).
    { subst result. unfold update_last_wash_date. rewrite Hget. reflexivity. }
    conjs.
    + rewrite Htrue. discriminate.
    + intros _. exists user, (set_last_wash_date now wash_date user).
      pose proof (set_last_wash_date_fields wash_date user) as H. cbv zeta in H.
      conjs; first [exact Hread | reflexivity | tauto].
    + exact Hids.
    + intros u Hu Hne. rewrite Hrows. apply in_map_iff. exists u. split; [|exact Hu].
      unfold write. apply String.eqb_neq in Hne. rewrite Hne. reflexivity.
    + intros u Hu Hne. rewrite Hrows in Hu. apply in_map_iff in Hu.
      destruct Hu as (x & Hx & Hin).
      unfold write in Hx. destruct (String.eqb (id x) user_id) eqn:E.
      * exfalso. apply Hne. rewrite <- Hx.
        destruct (set_last_wash_date_fields wash_date x) as [-> _].
        apply String.eqb_eq. exact E.
      * subst x. exact Hin.
    + unfold update_last_wash_date at 1. rewrite Hread.
      transitivity (fst result, snd result); [|symmetry; apply surjective_pairing].
      rewrite Htrue. f_equal.
      rewrite Hrows, map_map. apply map_ext. intros u. unfold write.
      destruct (String.eqb (id u) user_id) eqn:E; [|rewrite E; reflexivity].
      destruct (set_last_wash_date_fields wash_date u) as (Hid & _ & _ & _ & _ & _ & Hidem).
      rewrite Hid, E. exact Hidem.
  - assert (Hresult : result = (users, false)).
    { subst result. unfold update_last_wash_date. rewrite Hget. reflexivity. }
    rewrite Hresult. cbn [fst snd].
    conjs; auto; try discriminate.
Qed.

Lemma insert_desc_permutation {A : Type} (key : A -> Z) (a : A) (s : list A) :
  Permutation (a :: s) (Db.insert_desc key a s).
Proof.
  induction s as [|y s IH]; simpl; [reflexivity|].
  destruct (key a <? key y)%Z; [|reflexivity].
  rewrite perm_swap. apply perm_skip. exact IH.
Qed.

(** X26: the user list holds every stored user exactly once, the most
    recently created first. *)
Theorem get_all_users_sorted (users : list User) :
  Permutation users (get_all_users users) /\
  StronglySorted (fun u u' => (created_at u' <= created_at u)%Z) (get_all_users users).
Proof.
  unfold get_all_users. split; [|apply order_by_desc_sorted].
  induction users as [|u users IH]; [reflexivity|].
  unfold Db.order_by_desc in *. simpl.
  rewrite <- insert_desc_permutation. apply perm_skip. exact IH.
Qed.
End WashDateFacts.

(** ** The user endpoints *)

Section UserEndpointFacts.
Import Http UserCrud UserRest.
Variable now : Z.
Variable generate_uuid : nat -> string.
Variable hash_password : string -> option string.
Variable checkpw : string -> string -> Py.result bool.
Variable UserResponse : Type.
Variable from_orm : User -> Py.result UserResponse.
Variable create_access_token : string -> string -> Py.result string.

(** X27: the registration endpoint never answers 400.  Its handler
    catches every exception, the 400 it raises itself included, and
    answers 500: a taken username or email gives 500 with the table
    unchanged.  The login and the lookup endpoints let their own 401 and
    404 through. *)
Theorem registration_errors_are_500 (users : list User) (user_data : UserCreate) :
  let result := post_user now generate_uuid hash_password UserResponse from_orm
                  users user_data in
  (forall status_code, snd result = HTTPException status_code -> status_code = 500%Z) /\
  ((exists u, In u users /\
              (username u = new_username user_data \/ email u = new_email user_data)) ->
   result = (users, HTTPException 500)) /\
  (forall name password,
     authenticate_user checkpw users name password = None ->
     login checkpw create_access_token users name password = HTTPException 401) /\
  (forall user_id,
     get_user_by_id users user_id = None ->
     get_user UserResponse from_orm users user_id = HTTPException 404).
Proof.
  intros result. subst result. unfold post_user. conjs.
  - intros status_code.
    destruct (create_user now generate_uuid hash_password users user_data) as [users' [u|]];
      cbn; [|intros H; inversion H; reflexivity].
    unfold respond_with. destruct (from_orm u); cbn; intros H; inversion H; reflexivity.
  - intros Hdup. unfold create_user.
    destruct (get_user_by_username users (new_username user_data)); [reflexivity|].
    destruct (get_user_by_email users (new_email user_data)); [reflexivity|].
    destruct (hash_password (new_password user_data)) as [hashed|]; [|reflexivity].
    unfold add_and_commit. rewrite violates_unique_true; [reflexivity|].
    destruct Hdup as (u & Hin & Hu). exists u. split; [exact Hin|]. simpl. tauto.
  - intros name password Hnone. unfold login. rewrite Hnone. reflexivity.
  - intros user_id Hnone. unfold get_user. rewrite Hnone. reflexivity.
Qed.
End UserEndpointFacts.

Section WashDateEndpointFacts.
Import Http UserCrud UserRest.
Variable now : Z.
Variable UserResponse : Type.
Variable from_orm : User -> Py.result UserResponse.

(** X28: the wash-date endpoint answers 403, with the table unchanged,
    whenever the token names another user than the path; it answers 404,
    again with the table unchanged, when the user is not stored; and a
    200 answer is built from the stored row of the token's own user, which
    then carries the date. *)
Theorem wash_date_endpoint
    (users : list User) (current_user_id user_id : string) (wash_date : Z) :
  let result := update_wash_date now UserResponse from_orm users
                  current_user_id user_id wash_date in
  (current_user_id <> user_id -> result = (users, HTTPException 403)) /\
  (forall status_code, snd result = HTTPException status_code ->
     In status_code [403; 404; 500]%Z /\ (status_code <> 500%Z -> fst result = users)) /\
  (current_user_id = user_id -> get_user_by_id users user_id = None ->
   result = (users, HTTPException 404)) /\
  (forall response, snd result = OK response ->
     current_user_id = user_id /\
     exists user, get_user_by_id (fst result) user_id = Some user /\
                  last_wash_date user = Some wash_date /\
                  from_orm user = Py.Return response) /\
  map id (fst result) = map id users.
Proof.
  intros result. subst result. unfold update_wash_date.
  pose proof (update_last_wash_date_ids now users user_id wash_date) as Hids.
  assert (Hfalse : snd (update_last_wash_date now users user_id wash_date) = false ->
                   fst (update_last_wash_date now users user_id wash_date) = users /\
                   get_user_by_id users user_id = None).
  { unfold update_last_wash_date.
    destruct (get_user_by_id users user_id); [discriminate | auto]. }
  assert (Htrue : snd (update_last_wash_date now users user_id wash_date) = true ->
                  exists user',
                    get_user_by_id (fst (update_last_wash_date now users user_id wash_date))
                      user_id = Some user' /\
                    last_wash_date user' = Some wash_date /\
                    get_user_by_id users user_id <> None).
  { intros Hsnd. destruct (get_user_by_id users user_id) as [user|] eqn:Hget.
    - destruct (update_last_wash_date_read now users user_id wash_date user Hget)
        as (_ & _ & Hread).
      exists (set_last_wash_date now wash_date user). split; [exact Hread|].
      split; [apply set_last_wash_date_fields | discriminate].
    - unfold update_last_wash_date in Hsnd. rewrite Hget in Hsnd. discriminate Hsnd. }
  destruct (String.eqb current_user_id user_id) eqn:Eid; cbn [negb].
  - apply String.eqb_eq in Eid.
    destruct (update_last_wash_date now users user_id wash_date) as [users' [|]] eqn:Hup;
      cbn [fst snd negb] in *.
    + destruct (Htrue eq_refl) as (user' & Hget' & Hdate & Hsome).
      rewrite Hget'. unfold respond_with.
      destruct (from_orm user') as [response|e] eqn:Hresp; cbn.
      * conjs; auto; try congruence; try discriminate; try contradiction.
        intros r Hr. injection Hr as <-. split; [exact Eid|].
        exists user'. auto.
      * conjs; auto; try congruence; try discriminate; try contradiction.
        intros s Hs. injection Hs as <-. split; [simpl; auto | congruence].
    + destruct (Hfalse eq_refl) as [-> Hnone]. cbn.
      conjs; auto; try congruence; try discriminate.
      intros s Hs. injection Hs as <-. split; [simpl; auto | reflexivity].
  - apply String.eqb_neq in Eid. cbn.
    conjs; auto; try congruence; try discriminate.
    intros s Hs. injection Hs as <-. split; [simpl; auto | reflexivity].
Qed.
End WashDateEndpointFacts.

(** ** POST /api/recommendations: the fresh answer *)

Section FreshRecommendationFacts.
Import Http AdvisorSettings AdvisorSchemas AdvisorModels Advisor AdvisorCrud AdvisorMain.
Import BestDaySpec AdvisorRest.
Local Open Scope R_scope.
Variable now : Z.
Variable generate_uuid : nat -> string.
Variable fmt0f : R -> string.
Variable str_int : Z -> string.
Variable lower : string -> string.
Variable parse_date : string -> option Z.
Variable fromisoformat : string -> option Z.
Variable isoformat : Z -> string.

(** The conversion loop keeps score, flag, reason and factors of every
    analysed record, and picks as best day a converted record whenever a
    record has the date of the best analysis. *)
Lemma convert_days_ok (best_day_analysis : option WashRecommendationDay) :
  forall all_days_analysis forecast_days all_days best_day,
  (forall r, In r all_days_analysis -> 0 <= rd_score r <= 100) ->
  (forall day, In day forecast_days -> wd_date day <> EmptyString ->
               exists d, fromisoformat (wd_date day) = Some d) ->
  exists converted best_day',
    convert_days fromisoformat best_day_analysis all_days_analysis forecast_days
      all_days best_day
    = Py.Return (all_days ++ converted, best_day') /\
    Forall2 (fun r c => rd_score c = rd_score r /\
                        rd_is_recommended c = rd_is_recommended r /\
                        rd_reason c = rd_reason r /\ rd_factors c = rd_factors r)
            all_days_analysis converted /\
    (best_day' = best_day \/ exists c, best_day' = Some c /\ In c converted) /\
    (forall b r, best_day_analysis = Some b -> In r all_days_analysis ->
                 rd_date r = rd_date b ->
                 exists c, best_day' = Some c /\ In c converted).
Proof.
  induction all_days_analysis as [|r recs IH]; intros forecast_days all_days best_day Hscore Hdates.
  - exists [], best_day. simpl. rewrite app_nil_r.
    conjs; [reflexivity | constructor | now left | intros b r _ []].
  - cbn [convert_days]. cbv zeta.
    assert (Hdate : exists d,
              match hd_error forecast_days with
              | Some d =>
                  if String.eqb (wd_date d) EmptyString then Some (rd_date r)
                  else fromisoformat (wd_date d)
              | None => Some (rd_date r)
              end = Some d).
    { destruct (hd_error forecast_days) as [d|] eqn:E; [|eauto].
      destruct (String.eqb (wd_date d) EmptyString) eqn:E2; [eauto|].
      apply Hdates; [|apply String.eqb_neq; exact E2].
      destruct forecast_days as [|x xs]; [discriminate E|].
      simpl in E. inversion E; subst. now left. }
    destruct Hdate as [d Hd]. rewrite Hd.
    rewrite new_day_valid by (apply Hscore; now left). cbn [Py.bind].
    match goal with
    | |- context [convert_days _ _ recs (tl forecast_days) (all_days ++ [?w]) _] =>
        set (wash_day := w)
    end.
    match goal with
    | |- context [convert_days _ _ recs (tl forecast_days) _ ?b1] => set (best1 := b1)
    end.
    destruct (IH (tl forecast_days) (all_days ++ [wash_day]) best1)
      as (converted & best' & Hrun & Hall & Hbest & Hfound).
    { intros x Hx. apply Hscore. now right. }
    { intros day Hday. apply Hdates. destruct forecast_days; [destruct Hday | now right]. }
    exists (wash_day :: converted), best'. conjs.
    + rewrite Hrun. rewrite <- app_assoc. reflexivity.
    + constructor; [|exact Hall]. subst wash_day. cbn. auto.
    + destruct Hbest as [->|(c & Hc & Hin)].
      * subst best1. destruct best_day_analysis as [b|]; [|now left].
        destruct (rd_date r =? rd_date b)%Z; [|now left].
        right. exists wash_day. split; [reflexivity | now left].
      * right. exists c. split; [exact Hc | now right].
    + intros b x Hb [<-|Hx] Hsame.
      * destruct Hbest as [->|(c & Hc & Hin)].
        -- subst best1. rewrite Hb. apply Z.eqb_eq in Hsame. rewrite Hsame.
           exists wash_day. split; [reflexivity | now left].
        -- exists c. split; [exact Hc | now right].
      * destruct (Hfound b x Hb Hx Hsame) as (c & Hc & Hin).
        exists c. split; [exact Hc | now right].
Qed.

(** A precipitation probability either makes [math.exp] overflow or
    does not. *)
Lemma overflow_or_not (weather_data : WeatherDay) :
  (exists p, wd_precipitation_probability weather_data = Some p /\
             Py.EXP_MAX < -5 * p) \/
  (forall p, wd_precipitation_probability weather_data = Some p ->
             -5 * p <= Py.EXP_MAX).
Proof.
  destruct (wd_precipitation_probability weather_data) as [p|];
    [|right; intros q Hq; discriminate Hq].
  destruct (Rlt_dec Py.EXP_MAX (-5 * p)) as [H|H].
  - left. exists p. split; [reflexivity | exact H].
  - right. intros q Hq. inversion Hq; subst q. lra.
Qed.

(** The loop over the forecast days returns one analysis per day where
    no day overflows. *)
Lemma analyze_days_returns
    (forecast_days : list WeatherDay) (context_metrics : option UserContextMetrics) :
  (forall day p, In day forecast_days -> wd_precipitation_probability day = Some p ->
                 -5 * p <= Py.EXP_MAX) ->
  exists analyzed_days,
    analyze_days fmt0f str_int lower forecast_days context_metrics
    = Py.Return analyzed_days /\
    Forall2 (fun day analysis =>
               analyze_weather_day fmt0f str_int lower day context_metrics
               = Py.Return analysis /\
               ad_date analysis = wd_date day /\ 0 <= score_of analysis <= 100)
            forecast_days analyzed_days.
Proof.
  induction forecast_days as [|w ws IH]; intros Hexp.
  - exists []. split; [reflexivity | constructor].
  - destruct IH as (analyzed & Hrun & Hrel).
    { intros day p Hday. apply Hexp. now right. }
    destruct (analyze_weather_day_score_range fmt0f str_int lower w context_metrics)
      as (analysis & score & Hday & Hscore & Hrange & Hdate).
    { intros p. apply Hexp. now left. }
    exists (analysis :: analyzed). split.
    + cbn [analyze_days]. rewrite Hday. cbn [Py.bind]. rewrite Hrun. reflexivity.
    + constructor; [|exact Hrel].
      split; [exact Hday|]. split; [exact Hdate|].
      unfold score_of. rewrite Hscore. exact Hrange.
Qed.

(** One overflowing day makes the loop raise. *)
Lemma analyze_days_overflow
    (forecast_days : list WeatherDay) (context_metrics : option UserContextMetrics)
    (day : WeatherDay) (p : R) :
  In day forecast_days -> wd_precipitation_probability day = Some p ->
  Py.EXP_MAX < -5 * p ->
  analyze_days fmt0f str_int lower forecast_days context_metrics
  = Py.Raise Py.OverflowError.
Proof.
  intros Hin Hp Hover. induction forecast_days as [|w ws IH]; [destruct Hin|].
  cbn [analyze_days].
  destruct (overflow_or_not w) as [(q & Hq & Hqover)|Hok].
  - rewrite (analyze_weather_day_overflow fmt0f str_int lower w _ q Hq Hqover).
    reflexivity.
  - destruct (analyze_weather_day_score_range fmt0f str_int lower w context_metrics Hok)
      as (analysis & score & Hday & _).
    rewrite Hday. cbn [Py.bind].
    destruct Hin as [->|Hin].
    + exfalso. specialize (Hok p Hp). lra.
    + rewrite (IH Hin). reflexivity.
Qed.

(** The fresh answer for a forecast whose dates can be read and whose
    days do not overflow. *)
Lemma fresh_recommendation_days
    (db : AdvisorDb) (request : WashRecommendationRequest) (location : string)
    (context_metrics : option UserContextMetrics) (forecast_days : list WeatherDay) :
  (forall day, In day forecast_days -> exists d, parse_date (wd_date day) = Some d) ->
  (forall day, In day forecast_days -> wd_date day <> EmptyString ->
               exists d, fromisoformat (wd_date day) = Some d) ->
  (forall day p, In day forecast_days -> wd_precipitation_probability day = Some p ->
                 -5 * p <= Py.EXP_MAX) ->
  exists db' all_days best_day,
    fresh_recommendation now generate_uuid fmt0f str_int lower parse_date fromisoformat
      isoformat db request location context_metrics forecast_days
    = Py.Return (db', all_days, best_day) /\
    Forall2 (fun day r =>
               exists analysis,
                 analyze_weather_day fmt0f str_int lower day context_metrics
                 = Py.Return analysis /\
                 rd_score r = score_of analysis /\
                 rd_is_recommended r = Py.Rleb 60 (score_of analysis) /\
                 rd_reason r = ad_reason analysis /\ 0 <= rd_score r <= 100)
            forecast_days all_days /\
    user_context db' = user_context db /\
    match forecast_days with
    | [] => best_day = None /\ db' = db
    | _ =>
        exists best row,
          best_day = Some best /\ In best all_days /\
          wash_recommendations db' = wash_recommendations db ++ [row] /\
          wr_user_id row = req_user_id request /\ wr_location row = location /\
          wr_recommendation_date row = rd_date best /\
          wr_score row = Some (rd_score best) /\
          wr_is_recommended row = rd_is_recommended best /\
          wr_reason row = Some (rd_reason best) /\
          wr_created_at row = now
    end.
Proof.
  intros Hparse Hiso Hexp. unfold fresh_recommendation. cbv zeta.
  destruct (analyze_days_returns forecast_days context_metrics Hexp)
    as (analyzed_days & Hanalyzed & Hrel).
  rewrite Hanalyzed. cbn [Py.bind].
  assert (Hwf : forall day, In day analyzed_days -> well_formed parse_date day).
  { clear - Hrel Hparse. induction Hrel as [|w a ws rest Hw _ IH]; [intros day []|].
    intros day [<-|Hday].
    - destruct Hw as (_ & Hdate & Hscore). split; [|exact Hscore].
      rewrite Hdate. apply Hparse. now left.
    - apply IH; [|exact Hday]. intros d Hd. apply Hparse. now right. }
  destruct (generate_all_well_formed parse_date analyzed_days Hwf) as (recs & Hrecs & Hall).
  assert (Hrange : forall r, In r recs -> 0 <= rd_score r <= 100).
  { clear - Hall Hwf. induction Hall as [|d r ds rs Hd _ IH]; [intros r []|].
    intros x [<-|Hx].
    - destruct Hd as (date & _ & ->). cbn. apply (Hwf d). now left.
    - apply IH; [|exact Hx]. intros y Hy. apply Hwf. now right. }
  assert (Hdays :
    Forall2 (fun day r =>
               exists analysis,
                 analyze_weather_day fmt0f str_int lower day context_metrics
                 = Py.Return analysis /\
                 rd_score r = score_of analysis /\
                 rd_is_recommended r = Py.Rleb 60 (score_of analysis) /\
                 rd_reason r = ad_reason analysis /\ 0 <= rd_score r <= 100)
            forecast_days recs).
  { clear - Hall Hrange Hrel. revert recs Hall Hrange.
    induction Hrel as [|w a ws rest Hw _ IH]; intros recs Hall Hrange.
    - inversion Hall. constructor.
    - inversion Hall as [|d r ds rs Hd Hrest]; subst.
      constructor; [|apply IH; [exact Hrest | intros x Hx; apply Hrange; now right]].
      pose proof (Hrange r (or_introl eq_refl)) as Hr.
      destruct Hd as (date & _ & ->). destruct Hw as (Hw & _).
      exists a. split; [exact Hw|]. clear Hw. cbn in *. auto. }
  assert (Hcompose : forall converted,
            Forall2 (fun r c => rd_score c = rd_score r /\
                                rd_is_recommended c = rd_is_recommended r /\
                                rd_reason c = rd_reason r /\ rd_factors c = rd_factors r)
                    recs converted ->
    Forall2 (fun day r =>
               exists analysis,
                 analyze_weather_day fmt0f str_int lower day context_metrics
                 = Py.Return analysis /\
                 rd_score r = score_of analysis /\
                 rd_is_recommended r = Py.Rleb 60 (score_of analysis) /\
                 rd_reason r = ad_reason analysis /\ 0 <= rd_score r <= 100)
            forecast_days converted).
  { clear - Hdays. induction Hdays as [|w r ws rs Hw _ IH]; intros converted Hc.
    - inversion Hc. constructor.
    - inversion Hc as [|r' c rs' cs Hrc Hrest]; subst. constructor; [|apply IH; exact Hrest].
      destruct Hw as (analysis & Hrun & H1 & H2 & H3 & H4).
      destruct Hrc as (G1 & G2 & G3 & _).
      exists analysis. rewrite G1, G2, G3. auto. }
  destruct forecast_days as [|w ws] eqn:Hforecast.
  - inversion Hrel; subst analyzed_days. simpl in *. inversion Hrecs; subst recs. simpl.
    exists db, [], None. conjs; auto.
  - rewrite <- Hforecast in *.
    assert (Hne : analyzed_days <> []).
    { intros ->. rewrite Hforecast in Hrel. inversion Hrel. }
    assert (Hcne : candidates analyzed_days <> []).
    { unfold candidates. destruct (filter is_acceptable analyzed_days); congruence. }
    assert (Hsub : forall x, In x (candidates analyzed_days) -> In x analyzed_days).
    { unfold candidates. destruct (filter is_acceptable analyzed_days) eqn:E; [tauto|].
      intros x Hx. rewrite <- E in Hx. apply filter_In in Hx. tauto. }
    destruct (sorted_by_score_desc_head _ Hcne) as (day & rest & Hs & Hin & _).
    apply Hsub in Hin.
    destruct (Hwf day Hin) as [[date Hdate] Hscore].
    rewrite (find_best_of parse_date analyzed_days (candidates analyzed_days) rest day date
               Hne eq_refl Hs Hdate)
      by (rewrite score_key_score_of; exact Hscore).
    cbn [Py.bind]. rewrite Hrecs. cbn [Py.bind].
    match goal with
    | |- context [convert_days _ (Some ?b) _ _ _ _] => set (analysis := b)
    end.
    destruct (convert_days_ok (Some analysis) recs forecast_days [] None Hrange Hiso)
      as (converted & best' & Hrun & Hconv & _ & Hfound).
    rewrite Hrun. cbn [Py.bind app].
    assert (Hbest : exists c, best' = Some c /\ In c converted).
    { assert (Hrec : In (day_record date day) recs).
      { clear - Hall Hin Hdate. induction Hall as [|d r ds rs Hd _ IH]; [destruct Hin|].
        destruct Hin as [->|Hin]; [|right; apply IH; exact Hin].
        left. destruct Hd as (date' & Hd' & ->). congruence. }
      apply (Hfound analysis (day_record date day) eq_refl Hrec). reflexivity. }
    destruct Hbest as (best & -> & Hbest).
    unfold create_recommendation. cbv zeta.
    eexists _, converted, (Some best).
    split; [reflexivity|]. cbn [wash_recommendations user_context].
    conjs; [apply Hcompose; exact Hconv | reflexivity |].
    eexists best, _. conjs; try reflexivity. exact Hbest.
Qed.

Variable get_user_info : string -> option UserInfo.
Variable get_weather_forecast : string -> Z -> option (list WeatherDay).

(** X29: a request with [force_refresh] for a stored user with a city,
    when the forecast service answers and every forecast day has a date
    that can be read, is answered afresh, whatever the cache holds.
    Where no day has a precipitation probability so low that [math.exp]
    overflows, the answer is 200 and marked not cached.  It has one entry
    per forecast day, in order, with the day's score (between 0 and 100),
    its reason, and the recommended flag set exactly when the score is at
    least 60.  For an empty forecast there is no best day and no
    recommendation is stored; otherwise the best day is one of the
    entries and one recommendation row is appended for the user and the
    city, dated now, with the best day's date, score, flag and reason.
    Where a day does overflow, the answer is 500 and the store is as
    before the request. *)
Theorem forced_refresh_response
    (db0 : AdvisorDb) (request : WashRecommendationRequest)
    (user_info : UserInfo) (location : string) (forecast_days : list WeatherDay) :
  req_force_refresh request = true ->
  get_user_info (req_user_id request) = Some user_info ->
  ui_city user_info = Some location -> location <> EmptyString ->
  get_weather_forecast location (Z.min (req_days request) MAX_FORECAST_DAYS)
  = Some forecast_days ->
  (forall day, In day forecast_days ->
     wd_date day <> EmptyString /\
     (exists d, parse_date (wd_date day) = Some d) /\
     (exists d, fromisoformat (wd_date day) = Some d)) ->
  ((forall day p, In day forecast_days -> wd_precipitation_probability day = Some p ->
                  -5 * p <= Py.EXP_MAX) ->
   exists db' response context_metrics,
    get_wash_recommendation now generate_uuid fmt0f str_int lower parse_date fromisoformat
      isoformat get_user_info get_weather_forecast db0 request
    = (db', OK response) /\
    resp_cached response = false /\
    resp_user_id response = req_user_id request /\
    resp_location response = location /\
    Forall2 (fun day r =>
               exists analysis,
                 analyze_weather_day fmt0f str_int lower day context_metrics
                 = Py.Return analysis /\
                 rd_score r = score_of analysis /\
                 rd_is_recommended r = Py.Rleb 60 (score_of analysis) /\
                 rd_reason r = ad_reason analysis /\ 0 <= rd_score r <= 100)
            forecast_days (resp_all_days response) /\
    match forecast_days with
    | [] =>
        resp_best_day response = None /\
        wash_recommendations db' = wash_recommendations db0
    | _ =>
        exists best row,
          resp_best_day response = Some best /\ In best (resp_all_days response) /\
          wash_recommendations db' = wash_recommendations db0 ++ [row] /\
          wr_user_id row = req_user_id request /\ wr_location row = location /\
          wr_recommendation_date row = rd_date best /\
          wr_score row = Some (rd_score best) /\
          wr_is_recommended row = rd_is_recommended best /\
          wr_reason row = Some (rd_reason best) /\
          wr_created_at row = now
    end) /\
  (forall day p, In day forecast_days -> wd_precipitation_probability day = Some p ->
                 Py.EXP_MAX < -5 * p ->
   get_wash_recommendation now generate_uuid fmt0f str_int lower parse_date fromisoformat
     isoformat get_user_info get_weather_forecast db0 request
   = (db0, HTTPException 500)).
Proof.
  intros Hforce Huser Hcity Hlocation Hweather Hdates.
  assert (Hparse : forall day, In day forecast_days ->
                     exists d, parse_date (wd_date day) = Some d)
    by (intros day Hday; apply (Hdates day Hday)).
  assert (Hiso : forall day, In day forecast_days -> wd_date day <> EmptyString ->
                   exists d, fromisoformat (wd_date day) = Some d)
    by (intros day Hday _; apply (Hdates day Hday)).
  unfold get_wash_recommendation. rewrite Huser, Hcity.
  apply String.eqb_neq in Hlocation. rewrite Hlocation.
  assert (Hcontext : wash_recommendations
            (fst (create_or_update_user_context now generate_uuid db0 db0
                    (req_user_id request)
                    {| cd_city := Some location;
                       cd_country := ui_country user_info;
                       cd_last_wash_date := ui_last_wash_date user_info;
                       cd_preferred_wash_interval := ui_preferred_wash_interval user_info |}))
            = wash_recommendations db0).
  { unfold create_or_update_user_context.
    destruct (get_user_context db0 (req_user_id request)); [reflexivity|].
    destruct (existsb _ _); reflexivity. }
  destruct (create_or_update_user_context _ _ _ _ _ _) as [db user_context].
  cbn [fst] in Hcontext. rewrite Hforce. cbn [negb]. rewrite Hweather.
  split.
  - intros Hexp.
    destruct (fresh_recommendation_days db request location
                (option_map (calculate_user_context now) user_context) forecast_days
                Hparse Hiso Hexp)
      as (db' & all_days & best_day & Hrun & Hdays & _ & Hbest).
    rewrite Hrun.
    exists db'. eexists. exists (option_map (calculate_user_context now) user_context).
    split; [reflexivity|].
    cbn [resp_cached resp_user_id resp_location resp_all_days resp_best_day].
    conjs; try reflexivity; [exact Hdays|].
    destruct forecast_days as [|w ws].
    + destruct Hbest as [-> ->]. split; [reflexivity | exact Hcontext].
    + rewrite <- Hcontext. exact Hbest.
  - intros day p Hday Hp Hover. unfold fresh_recommendation.
    rewrite (analyze_days_overflow forecast_days _ day p Hday Hp Hover).
    reflexivity.
Qed.
End FreshRecommendationFacts.

(** ** The further properties on the sample data *)

Section MoreSamples.
Import Http PyVal AdvisorSchemas AdvisorModels Advisor AdvisorCrud AdvisorMain.
Import WeatherClient WeatherModels WeatherCrud UserCrud BestDaySpec AdvisorRest.
Import WeatherCrudRest UserRest Examples MoreExamples.

(** The rainy sample day is never recommended. *)
Lemma rain_expected_never_recommended_witness :
  exists analysis,
    analyze_weather_day no_format no_str no_lower rainy_day None = Py.Return analysis /\
    ad_is_rain_expected analysis = true /\
    (exists score, ad_score analysis = Some score /\ (0 <= score < 46)%R) /\
    is_acceptable analysis = false /\
    is_recommended_day analysis = false.
Proof.
  apply (rain_expected_never_recommended no_format no_str no_lower rainy_day None 0.8%R).
  - reflexivity.
  - lra.
Defined.

Lemma sample_days_well_formed :
  forall day, In day [day45; day30] -> well_formed iso_date day.
Proof.
  intros day [<-|[<-|[]]];
    (split; [eexists; reflexivity
            | cbv [score_of day45 day30 analysed ad_score]; lra]).
Qed.

(** The best of the two sample days is among their records. *)
Lemma best_day_among_all_days_witness :
  exists best recs,
    find_best_wash_day iso_date [day45; day30] = Py.Return (Some best) /\
    generate_all_days_recommendations iso_date [day45; day30] = Py.Return recs /\
    In best recs.
Proof.
  apply (best_day_among_all_days iso_date [day45; day30]).
  - discriminate.
  - exact sample_days_well_formed.
Defined.

Lemma best_day_first_among_equals_witness :
  exists pre best post date,
    candidates [day45; day30] = pre ++ best :: post /\
    (forall day, In day pre -> (score_of day < score_of best)%R) /\
    (forall day, In day post -> (score_of day <= score_of best)%R) /\
    iso_date (ad_date best) = Some date /\
    find_best_wash_day iso_date [day45; day30]
    = Py.Return (Some (day_record date best)).
Proof.
  apply (best_day_first_among_equals iso_date [day45; day30]).
  - discriminate.
  - exact sample_days_well_formed.
Defined.

(** The stored context of user-1 is overwritten by the new profile. *)
Lemma user_context_upsert_witness :
  exists context,
    snd (create_or_update_user_context noon uuid advisor_db sample_db_after
           "user-1" profile) = Some context /\
    uc_user_id context = "user-1"%string /\
    uc_last_wash_date context = Some 19740%Z /\
    uc_last_sync context = Some noon.
Proof.
  destruct (user_context_upsert noon uuid advisor_db sample_db_after "user-1"%string profile)
    as (context & H1 & H2 & _ & _ & H3 & _ & H4 & _).
  - repeat constructor. intros [].
  - exists context. auto.
Defined.

(** The sample provider response is parsed in full. *)
Lemma parse_forecast_data_all_or_nothing_witness :
  pf_raw_response (parse_forecast_data no_float (PDict provider_entries))
  = PDict provider_entries.
Proof.
  apply (parse_forecast_data_all_or_nothing no_float provider_entries provider_forecast
           [provider_day]); reflexivity.
Defined.

(** London is stored once. *)
Lemma create_location_once_witness :
  exists location,
    snd (create_location uuid exact_city weather_db london) = Some location /\
    loc_city_name location = "London"%string /\
    create_location uuid exact_city
      (fst (create_location uuid exact_city weather_db london)) london
    = (fst (create_location uuid exact_city weather_db london), Some location).
Proof.
  destruct (create_location_once uuid exact_city weather_db london)
    as (location & H1 & _ & H2 & _ & _ & H3).
  - reflexivity.
  - intros l [<-|[]]. reflexivity.
  - exists location. auto.
Defined.

(** With "Moscow" and "Moscow Oblast" stored, Moscow is stored again. *)
Lemma create_location_ambiguous_witness :
  get_location_by_city substring_city two_moscows "Moscow" = None /\
  List.length (locations (fst (create_location uuid substring_city two_moscows
                                 moscow_again))) = 3%nat.
Proof.
  destruct (create_location_ambiguous uuid substring_city two_moscows moscow_again)
    as (Hnone & location & _ & Hlocations & _).
  - simpl. lia.
  - split; [exact Hnone|]. rewrite Hlocations. reflexivity.
Defined.

(** A day without a date fails the batch that holds it. *)
Lemma create_forecasts_all_or_nothing_witness :
  create_forecasts half_past_midnight uuid iso_date weather_db no_forecasts "loc-1"
    [first_day; undated_day] "weatherapi"
  = (weather_db, []).
Proof.
  apply (create_forecasts_all_or_nothing half_past_midnight uuid iso_date weather_db
           no_forecasts "loc-1"%string [first_day; undated_day] "weatherapi"%string
           undated_day).
  - right; now left.
  - left. reflexivity.
Defined.

(** The same date sent twice in one call comes back as one row, twice. *)
Lemma create_forecasts_same_date_twice_witness :
  exists row,
    create_forecasts half_past_midnight uuid iso_date weather_db no_forecasts "loc-1"
      [first_day; parsed_provider_day] "weatherapi"
    = ({| locations := [moscow]; weather_forecasts := [row] |}, [row; row]) /\
    wf_fields row = dd_fields parsed_provider_day.
Proof.
  eexists. split.
  - apply (create_forecasts_same_date_twice half_past_midnight uuid iso_date weather_db
             no_forecasts "loc-1"%string "weatherapi"%string first_day parsed_provider_day
             (PStr "2024-01-20") (PStr "2024-01-20") 19742%Z); reflexivity.
  - reflexivity.
Defined.

(** The statistics of the two sample requests over the last day. *)
Lemma request_stats_consistent_witness :
  (0 <= cache_hit_rate (get_request_stats noon day_at_or_after sample_logs 24) <= 1)%R /\
  (cached_requests (get_request_stats noon day_at_or_after sample_logs 24)
   <= total_requests (get_request_stats noon day_at_or_after sample_logs 24))%Z.
Proof.
  destruct (request_stats_consistent noon day_at_or_after sample_logs 24)
    as (H1 & _ & _ & H2 & _).
  - lia.
  - split; [exact H2 | apply H1].
Defined.

(** A cache hit logged at noon is counted over the last day. *)
Lemma logged_request_is_counted_witness :
  total_requests
    (get_request_stats noon day_at_or_after
       (fst (log_api_request noon uuid sample_logs "Moscow" "/api/weather" (Some 200%Z)
               None true None)) 24)
  = (total_requests (get_request_stats noon day_at_or_after sample_logs 24) + 1)%Z.
Proof.
  destruct (logged_request_is_counted noon uuid day_at_or_after sample_logs
              "Moscow"%string "/api/weather"%string (Some 200%Z) None true None 24)
    as (_ & H & _).
  - lia.
  - reflexivity.
  - exact H.
Defined.

(** Registering bob after alice keeps the keys unique. *)
Lemma create_user_keeps_unique_witness :
  NoDup (map username
           (fst (create_user noon uuid bcrypt [alice] (register "bob" "bob@example.com")))).
Proof.
  destruct (create_user_keeps_unique noon uuid bcrypt [alice]
              (register "bob" "bob@example.com")) as (_ & _ & H & _).
  - repeat constructor. intros [].
  - repeat constructor. intros [].
  - repeat constructor. intros [].
  - exact H.
Defined.

Lemma bob_registered :
  create_user noon uuid bcrypt [alice] (register "bob" "bob@example.com")
  = ([alice; bob], Some bob).
Proof. reflexivity. Qed.

(** Bob logs in with his password and with no other. *)
Lemma registered_user_authenticates_witness :
  authenticate_user accepts_secret1 [alice; bob] "bob" "secret1" = Some bob /\
  authenticate_user accepts_secret1 [alice; bob] "bob" "guess" = None.
Proof.
  destruct (registered_user_authenticates noon uuid bcrypt accepts_secret1 [alice]
              [alice; bob] (register "bob" "bob@example.com") bob bob_registered)
    as (_ & _ & H).
  split.
  - exact (H "secret1"%string).
  - exact (H "guess"%string).
Defined.

(** The forced sample request is answered afresh, although the store
    holds a recommendation that a request without the flag is served. *)
Lemma forced_refresh_response_witness :
  exists db' response,
    get_wash_recommendation noon uuid no_format no_str no_lower iso_date iso_date
      iso_string user_service rainy_forecast advisor_db forced_request
    = (db', OK response) /\
    resp_cached response = false /\
    resp_location response = "Moscow"%string /\
    List.length (resp_all_days response) = 1%nat.
Proof.
  destruct (forced_refresh_response noon uuid no_format no_str no_lower iso_date iso_date
              iso_string user_service rainy_forecast advisor_db forced_request
              moscow_user "Moscow"%string [rainy_day])
    as [Hreturns _].
  - reflexivity.
  - reflexivity.
  - reflexivity.
  - discriminate.
  - reflexivity.
  - intros day [<-|[]]. split; [discriminate|]. split; eexists; reflexivity.
  - destruct Hreturns
      as (db' & response & context_metrics & Hrun & Hcached & _ & Hlocation & Hdays & _).
    + intros day p [<-|[]] Hp. cbn in Hp. inversion Hp; subst p.
      unfold Py.EXP_MAX. lra.
    + exists db', response. conjs; auto.
      apply Forall2_length in Hdays. symmetry. exact Hdays.
Defined.
End MoreSamples.
